(** * Activity-log workbook generator: a model of [make_xlsx.py]

    The Python module builds an Excel workbook through the xlsxwriter
    library.  The development below embeds the module function by
    function:

    - Python values that occur in the validation and format dictionaries
      are the type [pyval]; dictionaries are finite maps with string keys;
    - a [Field] is a record; the dictionary a field's [cell_format]
      attribute refers to lives in a store ([heap]), because [make_xlsx]
      writes into that dictionary in place and several fields may refer to
      the same dictionary object (the default argument of [Field.__init__]
      is one object shared by every field built without a format);
    - a worksheet is the record of the calls made on it: [ws_cells] holds,
      per cell, the value and format last passed to [write]; validation
      rules, tables, merged ranges and row and column settings are kept as
      they were passed in.  What xlsxwriter serialises from these calls is
      outside the module;
    - an exception is a value of [exn]; code that may raise returns a
      [result], and the column loop of [make_xlsx], which also updates the
      store, runs in the monad [M].

    A string is a sequence of characters with code points below 256
    (Basic Latin and Latin-1), one [ascii] each; case conversion is
    Python's on these code points.  Numbers are integers.  Printing under
    [args.verbose] is not part of the model; the output path is kept apart
    from the workbook, with [write_file]. *)

From Stdlib Require Import ZArith String Ascii List Lia.
From Stdlib Require Import Sorting.Sorted Sorting.Permutation.
From Stdlib Require DecimalString DecimalNat.
From stdpp Require Import base gmap list strings.

Local Open Scope string_scope.
Set Warnings "-abstract-large-number".

(** ** Python values, dictionaries, exceptions *)

Inductive pyval :=
| VNone
| VBool (b : bool)
| VInt (z : Z)
| VStr (s : string)
| VList (l : list string).

Abbreviation dict := (gmap string pyval).

Inductive exn :=
| KeyError (k : string)
| TypeError
| AttributeError.

Inductive result (A : Type) :=
| Ok (a : A)
| Raise (e : exn).
Arguments Ok {A} a.
Arguments Raise {A} e.

Definition rbind {A B} (r : result A) (k : A → result B) : result B :=
  match r with
  | Ok a => k a
  | Raise e => Raise e
  end.

Notation "'let?' x := r 'in' k" := (rbind r (fun x => k))
  (at level 10, x pattern, r at level 100, k at level 200).

(** [d[k]] *)
Definition getitem (d : dict) (k : string) : result pyval :=
  match d !! k with
  | Some v => Ok v
  | None => Raise (KeyError k)
  end.

(** [len(v)] *)
Definition py_len (v : pyval) : result nat :=
  match v with
  | VStr s => Ok (String.length s)
  | VList l => Ok (length l)
  | _ => Raise TypeError
  end.

(** [v[:n]] *)
Definition slice_to (n : nat) (v : pyval) : result pyval :=
  match v with
  | VStr s => Ok (VStr (substring 0 n s))
  | VList l => Ok (VList (take n l))
  | _ => Raise TypeError
  end.

(** [v + s] for a string literal [s] *)
Definition add_str (v : pyval) (s : string) : result pyval :=
  match v with
  | VStr s0 => Ok (VStr (s0 +:+ s))
  | _ => Raise TypeError
  end.

(** [v.replace(a, b)] with the result dropped: only a [str] has the method. *)
Definition call_replace (v : pyval) : result unit :=
  match v with
  | VStr _ => Ok tt
  | _ => Raise AttributeError
  end.

(** ** String helpers: [str.lower], [str.replace(' ', '_')], [str.capitalize]

    On the code points below 256 Python's case mapping is this.  The
    upper-case letters are A-Z (65-90) and the Latin-1 letters 192-222
    without the multiplication sign 215; [str.lower] moves each of them 32
    places up and leaves every other character alone.  The lower-case
    letters with an upper-case partner below 256 are a-z (97-122) and
    224-254 without the division sign 247; title case moves each of them 32
    places down.  The title case of the sharp s (223) is the two characters
    [Ss].  The title case of the micro sign (181) and of y with diaeresis
    (255) is a code point above 255, which a string of this model cannot
    hold: [title_char] leaves the two as they are, [title_fits] tells
    whether a string starts with neither, and what is stated of a
    capitalized name is stated for names that fit. *)

Definition is_upper (c : ascii) : bool :=
  let n := nat_of_ascii c in
  ((65 <=? n)%nat && (n <=? 90)%nat) ||
  ((192 <=? n)%nat && (n <=? 222)%nat && negb (n =? 215)%nat).
Definition is_lower (c : ascii) : bool :=
  let n := nat_of_ascii c in
  ((97 <=? n)%nat && (n <=? 122)%nat) ||
  ((224 <=? n)%nat && (n <=? 254)%nat && negb (n =? 247)%nat).

Definition lower_char (c : ascii) : ascii :=
  if is_upper c then ascii_of_nat (nat_of_ascii c + 32) else c.
Definition upper_char (c : ascii) : ascii :=
  if is_lower c then ascii_of_nat (nat_of_ascii c - 32) else c.

(** The title case of one character: a string, as the sharp s gives two. *)
Definition title_char (c : ascii) : string :=
  if (nat_of_ascii c =? 223)%nat then "Ss"
  else String (upper_char c) EmptyString.

Definition title_fits (s : string) : bool :=
  match s with
  | EmptyString => true
  | String c _ =>
      negb ((nat_of_ascii c =? 181)%nat || (nat_of_ascii c =? 255)%nat)
  end.

Fixpoint map_string (f : ascii → ascii) (s : string) : string :=
  match s with
  | EmptyString => EmptyString
  | String c r => String (f c) (map_string f r)
  end.

Definition lower (s : string) : string := map_string lower_char s.

Definition replace_space (s : string) : string :=
  map_string (fun c => if Ascii.eqb c " "%char then "_"%char else c) s.

(** [s.capitalize()]: the first character in title case, the rest in
    lower case. *)
Definition capitalize (s : string) : string :=
  match s with
  | EmptyString => EmptyString
  | String c r => title_char c +:+ lower r
  end.

(** Whether the character [c] occurs in [s]. *)
Fixpoint has_char (c : ascii) (s : string) : bool :=
  match s with
  | EmptyString => false
  | String a r => Ascii.eqb a c || has_char c r
  end.

(** ** [sorted(l, key=str.lower)]

    Python's sort is stable; a stable sort has one possible result, which
    the insertion sort below computes: an element is placed before the
    first later element whose key is not smaller than its own. *)

Definition key_le (a b : string) : bool := String.leb (lower a) (lower b).

Fixpoint insert_by_key (x : string) (l : list string) : list string :=
  match l with
  | [] => [x]
  | y :: r => if key_le x y then x :: y :: r else y :: insert_by_key x r
  end.

Definition sorted_lower (l : list string) : list string :=
  foldr insert_by_key [] l.

(** What [sorted] iterates over: the items of a list, the characters of a
    string; other values are not iterable. *)
Definition py_iter (v : pyval) : result (list string) :=
  match v with
  | VList l => Ok l
  | VStr s => Ok ((fun c => String c EmptyString) <$> list_ascii_of_string s)
  | _ => Raise TypeError
  end.

(** ** [class Field] *)

Abbreviation loc := nat.
Abbreviation heap := (gmap loc dict).

Definition deref (h : heap) (l : loc) : dict := default ∅ (h !! l).

Record Field := mkField {
  name : string;
  disp_name : string;
  validation : option dict;
  cell_format : option loc;
  width : Z;
  long_list : bool
}.

(** The dictionary object created once for the default argument
    [cell_format={}] of [Field.__init__]. *)
Definition default_cell_format : loc := 0%nat.

Definition Field_init (nm dn : string) : Field :=
  {| name := nm; disp_name := dn;
     validation := Some ∅;
     cell_format := Some default_cell_format;
     width := 20;
     long_list := false |}.

Definition set_validation (v : option dict) (f : Field) : Field :=
  {| name := name f; disp_name := disp_name f; validation := v;
     cell_format := cell_format f; width := width f; long_list := long_list f |}.

Definition set_cell_format (c : option loc) (f : Field) : Field :=
  {| name := name f; disp_name := disp_name f; validation := validation f;
     cell_format := c; width := width f; long_list := long_list f |}.

Definition set_width (w : Z) (f : Field) : Field :=
  {| name := name f; disp_name := disp_name f; validation := validation f;
     cell_format := cell_format f; width := w; long_list := long_list f |}.

Definition set_long_list (b : bool) (f : Field) : Field :=
  {| name := name f; disp_name := disp_name f; validation := validation f;
     cell_format := cell_format f; width := width f; long_list := b |}.

(** ** [make_dict_of_fields]

    [fields.fields] is a list of dictionaries defined outside this module;
    it is taken as an argument.  A descriptor records, per key, whether the
    key is present ([Some]) and its value; for [valid] and [cell_format]
    the value may itself be Python's [None]. *)

Record descriptor := mkDescriptor {
  d_name : option string;
  d_disp_name : option string;
  d_valid : option (option dict);
  d_cell_format : option (option loc);
  d_width : option Z;
  d_long_list : option bool
}.

Definition require_key (k : string) (o : option string) : result string :=
  match o with
  | Some s => Ok s
  | None => Raise (KeyError k)
  end.

Definition make_field (d : descriptor) : result Field :=
  let? nm := require_key "name" (d_name d) in
  let? dn := require_key "disp_name" (d_disp_name d) in
  let new := Field_init nm dn in
  let new := match d_valid d with Some v => set_validation v new | None => new end in
  let new := match d_cell_format d with Some c => set_cell_format c new | None => new end in
  let new := match d_width d with
             | Some w => set_width w new
             | None => set_width (Z.of_nat (String.length dn)) new
             end in
  let new := match d_long_list d with Some b => set_long_list b new | None => new end in
  Ok new.

Fixpoint make_dict_loop (fields : list descriptor) (field_dict : gmap string Field)
  : result (gmap string Field) :=
  match fields with
  | [] => Ok field_dict
  | d :: rest =>
      let? new := make_field d in
      make_dict_loop rest (<[name new := new]> field_dict)
  end.

Definition make_dict_of_fields (fields : list descriptor) : result (gmap string Field) :=
  make_dict_loop fields ∅.

(** ** Worksheets and workbooks, as xlsxwriter is called *)

Abbreviation format := (gmap string pyval).

(** Values handed to [write].  [TNaN] and [TObj] stand for the values
    xlsxwriter's [write] rejects with a [TypeError]: a float NaN and an
    object of a type it has no handler for. *)
Inductive token :=
| TStr (s : string)
| TNum (z : Z)
| TBool (b : bool)
| TNaN
| TObj.

Definition writable (t : token) : bool :=
  match t with
  | TNaN | TObj => false
  | _ => true
  end.

Record cell := mkCell { c_value : token; c_format : option format }.

Record col_info := mkCol {
  col_width : option Z; col_format : option format; col_hidden : bool }.

Record row_info := mkRow {
  row_height : option Z; row_format : option format; row_hidden : bool }.

Record validation_rule := mkRule {
  dv_first_row : nat; dv_first_col : nat;
  dv_last_row : nat; dv_last_col : nat;
  dv_options : dict }.

Record table := mkTable {
  tb_first_row : nat; tb_first_col : nat;
  tb_last_row : nat; tb_last_col : nat;
  tb_name : string; tb_header_row : Z }.

Record merged := mkMerged {
  mg_first_row : nat; mg_first_col : nat;
  mg_last_row : nat; mg_last_col : nat;
  mg_data : string; mg_format : format }.

Record worksheet := mkSheet {
  ws_name : string;
  ws_hidden : bool;
  ws_cells : gmap (nat * nat) cell;
  ws_cols : gmap nat col_info;
  ws_rows : gmap nat row_info;
  ws_validations : list validation_rule;
  ws_tables : list table;
  ws_merged : list merged;
  ws_freeze : option (nat * nat)
}.

(** [workbook.add_worksheet(name)] *)
Definition add_worksheet (nm : string) : worksheet :=
  {| ws_name := nm; ws_hidden := false; ws_cells := ∅; ws_cols := ∅;
     ws_rows := ∅; ws_validations := []; ws_tables := []; ws_merged := [];
     ws_freeze := None |}.

Definition hide (ws : worksheet) : worksheet :=
  {| ws_name := ws_name ws; ws_hidden := true; ws_cells := ws_cells ws;
     ws_cols := ws_cols ws; ws_rows := ws_rows ws;
     ws_validations := ws_validations ws; ws_tables := ws_tables ws;
     ws_merged := ws_merged ws; ws_freeze := ws_freeze ws |}.

Definition with_cells (f : gmap (nat * nat) cell → gmap (nat * nat) cell)
    (ws : worksheet) : worksheet :=
  {| ws_name := ws_name ws; ws_hidden := ws_hidden ws; ws_cells := f (ws_cells ws);
     ws_cols := ws_cols ws; ws_rows := ws_rows ws;
     ws_validations := ws_validations ws; ws_tables := ws_tables ws;
     ws_merged := ws_merged ws; ws_freeze := ws_freeze ws |}.

(** [sheet.write(row, col, value, format)] for a value [write] accepts *)
Definition put (r c : nat) (t : token) (fmt : option format) (ws : worksheet)
  : worksheet :=
  with_cells (insert (r, c) (mkCell t fmt)) ws.

(** [sheet.write(row, col, value, format)] *)
Definition write (r c : nat) (t : token) (fmt : option format) (ws : worksheet)
  : result worksheet :=
  if writable t then Ok (put r c t fmt ws) else Raise TypeError.

(** [sheet.write_column(row, col, data, format)]: the values are written
    one below the other, in order; the first value [write] rejects raises,
    and the cells written before it stay.  The sheet is changed in place,
    so the sheet is returned together with the exception. *)
Fixpoint write_column (r c : nat) (data : list token) (fmt : option format)
    (ws : worksheet) : worksheet * option exn :=
  match data with
  | [] => (ws, None)
  | t :: rest =>
      match write r c t fmt ws with
      | Ok ws' => write_column (S r) c rest fmt ws'
      | Raise e => (ws, Some e)
      end
  end.

Fixpoint set_column_range (first n : nat) (ci : col_info) (m : gmap nat col_info)
  : gmap nat col_info :=
  match n with
  | O => m
  | S k => set_column_range (S first) k ci (<[first := ci]> m)
  end.

(** [sheet.set_column(first_col, last_col, width, cell_format, options)] *)
Definition set_column (first last : nat) (w : option Z) (fmt : option format)
    (hidden : bool) (ws : worksheet) : worksheet :=
  {| ws_name := ws_name ws; ws_hidden := ws_hidden ws; ws_cells := ws_cells ws;
     ws_cols := set_column_range first (S last - first) (mkCol w fmt hidden) (ws_cols ws);
     ws_rows := ws_rows ws;
     ws_validations := ws_validations ws; ws_tables := ws_tables ws;
     ws_merged := ws_merged ws; ws_freeze := ws_freeze ws |}.

(** [sheet.set_row(row, height, cell_format, options)] *)
Definition set_row (r : nat) (h : option Z) (fmt : option format)
    (hidden : bool) (ws : worksheet) : worksheet :=
  {| ws_name := ws_name ws; ws_hidden := ws_hidden ws; ws_cells := ws_cells ws;
     ws_cols := ws_cols ws;
     ws_rows := <[r := mkRow h fmt hidden]> (ws_rows ws);
     ws_validations := ws_validations ws; ws_tables := ws_tables ws;
     ws_merged := ws_merged ws; ws_freeze := ws_freeze ws |}.

(** [sheet.data_validation(first_row, first_col, last_row, last_col, options)] *)
Definition data_validation (r1 c1 r2 c2 : nat) (options : dict) (ws : worksheet)
  : worksheet :=
  {| ws_name := ws_name ws; ws_hidden := ws_hidden ws; ws_cells := ws_cells ws;
     ws_cols := ws_cols ws; ws_rows := ws_rows ws;
     ws_validations := ws_validations ws ++ [mkRule r1 c1 r2 c2 options];
     ws_tables := ws_tables ws;
     ws_merged := ws_merged ws; ws_freeze := ws_freeze ws |}.

(** [sheet.add_table(first_row, first_col, last_row, last_col,
    {'name': name, 'header_row': header_row})] *)
Definition add_table (r1 c1 r2 c2 : nat) (nm : string) (header_row : Z)
    (ws : worksheet) : worksheet :=
  {| ws_name := ws_name ws; ws_hidden := ws_hidden ws; ws_cells := ws_cells ws;
     ws_cols := ws_cols ws; ws_rows := ws_rows ws;
     ws_validations := ws_validations ws;
     ws_tables := ws_tables ws ++ [mkTable r1 c1 r2 c2 nm header_row];
     ws_merged := ws_merged ws; ws_freeze := ws_freeze ws |}.

(** [sheet.merge_range(first_row, first_col, last_row, last_col, data, format)] *)
Definition merge_range (r1 c1 r2 c2 : nat) (data : string) (fmt : format)
    (ws : worksheet) : worksheet :=
  {| ws_name := ws_name ws; ws_hidden := ws_hidden ws; ws_cells := ws_cells ws;
     ws_cols := ws_cols ws; ws_rows := ws_rows ws;
     ws_validations := ws_validations ws; ws_tables := ws_tables ws;
     ws_merged := ws_merged ws ++ [mkMerged r1 c1 r2 c2 data fmt];
     ws_freeze := ws_freeze ws |}.

(** [sheet.freeze_panes(row, col)] *)
Definition freeze_panes (r c : nat) (ws : worksheet) : worksheet :=
  {| ws_name := ws_name ws; ws_hidden := ws_hidden ws; ws_cells := ws_cells ws;
     ws_cols := ws_cols ws; ws_rows := ws_rows ws;
     ws_validations := ws_validations ws; ws_tables := ws_tables ws;
     ws_merged := ws_merged ws; ws_freeze := Some (r, c) |}.

(** A workbook: its sheets in the order [add_worksheet] created them, the
    font set on its default format, and whether [close] wrote the file. *)
Record workbook := mkBook {
  wb_sheets : list worksheet;
  wb_font_name : string;
  wb_font_size : Z;
  wb_closed : bool
}.

Definition DEFAULT_FONT : string := "Calibri".
Definition DEFAULT_SIZE : Z := 10.

(** A pandas DataFrame: its columns in order, each a label and its values.
    Labels are taken to be distinct, as pandas needs for [df[label]] to be
    a single column. *)
Abbreviation DataFrame := (list (string * list token)).

(** [df[label]] *)
Fixpoint df_column (df : DataFrame) (label : string) : result (list token) :=
  match df with
  | [] => Raise (KeyError label)
  | (l, vals) :: rest => if String.eqb l label then Ok vals else df_column rest label
  end.

(** [series[0]] *)
Definition series_first (vals : list token) : result token :=
  match vals with
  | t :: _ => Ok t
  | [] => Raise (KeyError "0")
  end.

#[global] Instance pyval_eq_dec : EqDecision pyval.
Proof. solve_decision. Defined.

(** Truth value of a dictionary-valued attribute: neither [None] nor empty. *)
Definition truthy (d : option dict) : bool :=
  match d with
  | Some m => negb (bool_decide (m = ∅))
  | None => false
  end.

(** [field_dict[key]] *)
Definition lookup_field (field_dict : gmap string Field) (key : string) : result Field :=
  match field_dict !! key with
  | Some f => Ok f
  | None => Raise (KeyError key)
  end.

(** ** [write_conversion] *)

Definition parameter_format : format :=
  <["font_name" := VStr DEFAULT_FONT]> (<["right" := VBool true]>
  (<["bottom" := VBool true]> (<["bold" := VBool false]>
  (<["text_wrap" := VBool true]> (<["valign" := VStr "left"]>
  (<["font_size" := VInt (DEFAULT_SIZE + 2)]> (<["bg_color" := VStr "#B9F6F5"]> ∅))))))).

Definition center_format : format :=
  <["valign" := VStr "center"]> (<["bg_color" := VStr "#23EEFF"]> parameter_format).

Definition output_format : format :=
  <["bg_color" := VStr "#FF94E8"]> parameter_format.

Definition input_format : format :=
  <["bold" := VBool false]> (<["font_name" := VStr DEFAULT_FONT]>
  (<["text_wrap" := VBool true]> (<["valign" := VStr "left"]>
  (<["font_size" := VInt DEFAULT_SIZE]> ∅)))).

Definition write_conversion : worksheet :=
  let sheet := add_worksheet "Conversion" in
  let sheet := set_column 0 2 (Some 30%Z) None false sheet in
  let sheet := put 1 0 (TStr "Coordinate conversion ") (Some parameter_format) sheet in
  let sheet := merge_range 2 0 2 1 "Degree Minutes Seconds " center_format sheet in
  let sheet := put 3 0 (TStr "Degrees ") (Some parameter_format) sheet in
  let sheet := put 4 0 (TStr "Minutes ") (Some parameter_format) sheet in
  let sheet := put 5 0 (TStr "Seconds ") (Some parameter_format) sheet in
  let sheet := put 6 0 (TStr "Decimal degrees ") (Some output_format) sheet in
  let sheet := put 6 1 (TStr "=B4+B5/60+B6/3600 ") (Some output_format) sheet in
  let sheet := merge_range 7 0 7 1 "Degree decimal minutes" center_format sheet in
  let sheet := put 8 0 (TStr "Degrees ") (Some parameter_format) sheet in
  let sheet := put 9 0 (TStr "Decimal minutes ") (Some parameter_format) sheet in
  let sheet := put 10 0 (TStr "Decimal degrees ") (Some output_format) sheet in
  put 10 1 (TStr "=B9+B10/60 ") (Some output_format) sheet.

(** ** [write_metadata] *)

Definition metadata_fields : list string :=
  ["title"; "abstract"; "pi_name"; "pi_email"; "pi_institution";
   "pi_address"; "recordedBy"; "projectID"; "cruiseNumber"; "vesselName"].

(** The prompt of a rule, cut to Excel's limit:
    [if len(m) > 255: m = m[:252] + '...'] *)
Definition truncate_message (valid_copy : dict) : result dict :=
  let? m := getitem valid_copy "input_message" in
  let? n := py_len m in
  if (255 <? n)%nat then
    let? cut := slice_to 252 m in
    let? m' := add_str cut "..." in
    Ok (<["input_message" := m']> valid_copy)
  else Ok valid_copy.

(** [metadata_df[mfield][0]] *)
Definition metadata_lookup (metadata_df : DataFrame) (mfield : string) : result token :=
  let? col := df_column metadata_df mfield in
  series_first col.

(** The [try: ... except: ...; continue] of the loop body: the sheet after
    it, and whether [continue] was taken. *)
Definition metadata_value (metadata_df : option DataFrame) (ii : nat)
    (mfield : string) (sheet : worksheet) : worksheet * bool :=
  match metadata_df with
  | Some df =>
      match (let? v := metadata_lookup df mfield in
             write ii 2 v (Some input_format) sheet) with
      | Ok sheet' => (sheet', false)
      | Raise _ => (put ii 2 (TStr "") (Some input_format) sheet, true)
      end
  | None => (put ii 2 (TStr "") (Some input_format) sheet, false)
  end.

Definition metadata_height (ii : nat) : Z :=
  match ii with
  | 0%nat => 30
  | 1%nat => 150
  | _ => 15
  end.

(** One pass of [for ii, mfield in enumerate(metadata_fields)]. *)
Definition metadata_row (h : heap) (field_dict : gmap string Field)
    (metadata_df : option DataFrame) (ii : nat) (mfield : string)
    (sheet : worksheet) : result worksheet :=
  let? field := lookup_field field_dict mfield in
  let sheet := put ii 0 (TStr (disp_name field)) (Some parameter_format) sheet in
  let sheet := put ii 1 (TStr (name field)) (Some parameter_format) sheet in
  let sheet := set_column 1 1 None None true sheet in
  let (sheet, continue) := metadata_value metadata_df ii mfield sheet in
  if continue then Ok sheet else
  let? sheet :=
    (if truthy (validation field) then
       let? valid_copy := truncate_message (default ∅ (validation field)) in
       let sheet := data_validation ii 2 ii 2 valid_copy sheet in
       if truthy (deref h <$> cell_format field) then
         let cell_format := default ∅ (deref h <$> cell_format field) in
         Ok (set_row ii (Some (Z.of_nat ii)) (Some cell_format) false sheet)
       else Ok sheet
     else Ok sheet) in
  Ok (set_row ii (Some (metadata_height ii)) None false sheet).

Fixpoint metadata_loop (h : heap) (field_dict : gmap string Field)
    (metadata_df : option DataFrame) (ii : nat) (keys : list string)
    (sheet : worksheet) : result worksheet :=
  match keys with
  | [] => Ok sheet
  | mfield :: rest =>
      let? sheet := metadata_row h field_dict metadata_df ii mfield sheet in
      metadata_loop h field_dict metadata_df (S ii) rest sheet
  end.

Definition write_metadata (h : heap) (field_dict : gmap string Field)
    (metadata_df : option DataFrame) : result worksheet :=
  let sheet := add_worksheet "Metadata" in
  let sheet := set_column 0 0 (Some 30%Z) None false sheet in
  let sheet := set_column 2 2 (Some 50%Z) None false sheet in
  metadata_loop h field_dict metadata_df 0 metadata_fields sheet.

(** ** [class Variable_sheet] *)

Record Variable_sheet := mkVars {
  vs_sheet : worksheet;
  current_column : nat
}.

Definition Variable_sheet_init : Variable_sheet :=
  {| vs_sheet := hide (add_worksheet "Variables"); current_column := 0 |}.

Definition dquote : string := String (ascii_of_nat 34) EmptyString.

Definition table_name (variable : string) : string :=
  "Table_" +:+ capitalize (replace_space variable).

(** ['=INDIRECT("' + name + '")'] *)
Definition indirect (nm : string) : string :=
  "=INDIRECT(" +:+ dquote +:+ nm +:+ dquote +:+ ")".

(** [for ii, par in enumerate(...): self.sheet.write(1 + ii, col, par)] *)
Fixpoint write_pars (ii col : nat) (pars : list string) (sheet : worksheet)
  : worksheet :=
  match pars with
  | [] => sheet
  | par :: rest => write_pars (S ii) col rest (put (1 + ii) col (TStr par) None sheet)
  end.

Definition add_row (variable : string) (parameter_list : pyval) (vs : Variable_sheet)
  : result (string * Variable_sheet) :=
  let col := current_column vs in
  let sheet := put 0 col (TStr variable) None (vs_sheet vs) in
  let nm := table_name variable in
  let? n := py_len parameter_list in
  let sheet := add_table 1 col (1 + n) col nm 0 sheet in
  let? items := py_iter parameter_list in
  let sheet := write_pars 0 col (sorted_lower items) sheet in
  let ref := indirect nm in
  Ok (ref, {| vs_sheet := sheet; current_column := col + 1 |}).

(** ** The store monad of the column loop *)

Definition M (A : Type) : Type := heap → heap * result A.

Definition mret {A} (a : A) : M A := fun h => (h, Ok a).

Definition mbind {A B} (m : M A) (k : A → M B) : M B :=
  fun h => match m h with
           | (h', Ok a) => k a h'
           | (h', Raise e) => (h', Raise e)
           end.

Definition lift {A} (r : result A) : M A := fun h => (h, r).

Notation "'let!' x := m 'in' k" := (mbind m (fun x => k))
  (at level 10, x pattern, m at level 100, k at level 200).

(** [if not (key in d): d[key] = v], on the dictionary object at [l];
    returns nothing. *)
Definition setdefault_at (l : loc) (key : string) (v : pyval) : M unit :=
  fun h => match deref h l !! key with
           | Some _ => (h, Ok tt)
           | None => (<[l := <[key := v]> (deref h l)]> h, Ok tt)
           end.

(** [workbook.add_format(d)] reads the dictionary object as it is now. *)
Definition add_format_at (l : loc) : M format := fun h => (h, Ok (deref h l)).

(** ** [make_xlsx] *)

Record Namespace := mkArgs { verbose : Z; dir : string }.

Record FileDef := mkFileDef {
  fd_name : string;
  fd_disp_name : string;
  fd_fields : list string
}.

Definition header_format : format :=
  <["font_color" := VStr "#FF0000"]> (<["font_name" := VStr DEFAULT_FONT]>
  (<["bold" := VBool false]> (<["text_wrap" := VBool false]>
  (<["valign" := VStr "vcenter"]> (<["font_size" := VInt (DEFAULT_SIZE + 2)]> ∅))))).

Definition field_format : format :=
  <["font_name" := VStr DEFAULT_FONT]> (<["bottom" := VBool true]>
  (<["right" := VBool true]> (<["bold" := VBool false]>
  (<["text_wrap" := VBool true]> (<["valign" := VStr "vcenter"]>
  (<["font_size" := VInt (DEFAULT_SIZE + 1)]> (<["bg_color" := VStr "#B9F6F5"]> ∅))))))).

Definition date_format : format :=
  <["font_name" := VStr DEFAULT_FONT]> (<["bold" := VBool false]>
  (<["text_wrap" := VBool false]> (<["valign" := VStr "vcenter"]>
  (<["font_size" := VInt DEFAULT_SIZE]> (<["num_format" := VStr "dd/mm/yy"]> ∅))))).

Definition time_format : format :=
  <["num_format" := VStr "hh:mm:ss"]> date_format.

Definition title_row : nat := 1.
Definition start_row : nat := title_row + 2.
Definition parameter_row : nat := title_row + 1.
Definition end_row : nat := 20000.

(** The two sheets the column loop works on. *)
Record sheets := mkSheets {
  data_sheet : worksheet;
  variable_sheet_obj : Variable_sheet
}.

(** The [if field.long_list:] branch. *)
Definition long_list_validation (field : Field) (v : dict) (ii : nat) (st : sheets)
  : result sheets :=
  let valid_copy := v in
  let? source := getitem valid_copy "source" in
  let? (ref, vs) := add_row (name field) source (variable_sheet_obj st) in
  let valid_copy := delete "source" valid_copy in
  let valid_copy := <["value" := VStr ref]> valid_copy in
  let? m := getitem valid_copy "input_message" in
  let? _ := call_replace m in
  Ok {| data_sheet := data_validation start_row ii end_row ii valid_copy (data_sheet st);
        variable_sheet_obj := vs |}.

(** [if len(t) > 32: t = t[:32]] on the prompt title. *)
Definition truncate_title (valid_copy : dict) : result dict :=
  let? t := getitem valid_copy "input_title" in
  let? n := py_len t in
  if (32 <? n)%nat then
    let? t' := slice_to 32 t in
    Ok (<["input_title" := t']> valid_copy)
  else Ok valid_copy.

(** The [else:] branch. *)
Definition short_list_validation (v : dict) (ii : nat) (st : sheets) : result sheets :=
  let? valid_copy := truncate_message v in
  let? m := getitem valid_copy "input_message" in
  let? _ := call_replace m in
  let? valid_copy := truncate_title valid_copy in
  Ok {| data_sheet := data_validation start_row ii end_row ii valid_copy (data_sheet st);
        variable_sheet_obj := variable_sheet_obj st |}.

Definition with_data_sheet (f : worksheet → worksheet) (st : sheets) : sheets :=
  {| data_sheet := f (data_sheet st); variable_sheet_obj := variable_sheet_obj st |}.

(** The loop body of [for ii in range(len(file_def['fields']))], in its
    three parts: the two header cells, the validation, the column format. *)

Definition write_headers (field : Field) (ii : nat) (st : sheets) : sheets :=
  let st := with_data_sheet
              (put title_row ii (TStr (disp_name field)) (Some field_format)) st in
  with_data_sheet (put parameter_row ii (TStr (name field)) None) st.

(** [if field.validation is not None:] *)
Definition column_validation (field : Field) (ii : nat) (st : sheets) : result sheets :=
  match validation field with
  | Some v =>
      if long_list field then long_list_validation field v ii st
      else short_list_validation v ii st
  | None => Ok st
  end.

(** [if field.cell_format is not None:] *)
Definition column_format (field : Field) (ii : nat) (st : sheets) : M sheets :=
  match cell_format field with
  | Some l =>
      let! _ := setdefault_at l "font_name" (VStr DEFAULT_FONT) in
      let! _ := setdefault_at l "font_size" (VInt DEFAULT_SIZE) in
      let! cell_format := add_format_at l in
      mret (with_data_sheet
              (set_column ii ii (Some (width field)) (Some cell_format) false) st)
  | None =>
      mret (with_data_sheet (set_column ii ii (Some (width field)) None false) st)
  end.

Definition data_column (field_dict : gmap string Field) (ii : nat) (key : string)
    (st : sheets) : M sheets :=
  let! field := lift (lookup_field field_dict key) in
  let st := write_headers field ii st in
  let! st := lift (column_validation field ii st) in
  column_format field ii st.

Fixpoint data_columns (field_dict : gmap string Field) (ii : nat) (keys : list string)
    (st : sheets) : M sheets :=
  match keys with
  | [] => mret st
  | key :: rest =>
      let! st := data_column field_dict ii key st in
      data_columns field_dict (S ii) rest st
  end.

Definition is_date (field : string) : bool :=
  bool_decide (field ∈ ["eventDate"; "start_date"; "end_date"]).
Definition is_time (field : string) : bool :=
  bool_decide (field ∈ ["eventTime"; "start_time"; "end_time"]).

(** The format the [if]/[elif]/[else] of the [try:] body passes on for the
    column labelled [field]. *)
Definition data_format (field : string) : option format :=
  if is_date field then Some date_format
  else if is_time field then Some time_format
  else None.

(** The body of the [try:], for one column label of the data. *)
Definition write_data_column (data : DataFrame) (col_num : nat) (field : string)
    (sheet : worksheet) : worksheet * option exn :=
  match df_column data field with
  | Ok vals => write_column start_row col_num vals (data_format field) sheet
  | Raise e => (sheet, Some e)
  end.

(** [for col_num, field in enumerate(data): try: ... except: pass] *)
Fixpoint write_data_loop (data : DataFrame) (col_num : nat) (labels : list string)
    (sheet : worksheet) : worksheet :=
  match labels with
  | [] => sheet
  | field :: rest =>
      write_data_loop data (S col_num) rest
        (fst (write_data_column data col_num field sheet))
  end.

Definition write_data (data : option DataFrame) (sheet : worksheet) : worksheet :=
  match data with
  | Some df => write_data_loop df 0 (fst <$> df) sheet
  | None => sheet
  end.

Definition paste_hint : string :=
  "When pasting only use 'paste special' / 'paste only', selecting numbers and/or text ".

Definition finish_data_sheet (file_def : FileDef) (sheet : worksheet) : worksheet :=
  let sheet := put 0 0 (TStr (fd_disp_name file_def)) (Some header_format) sheet in
  let sheet := merge_range 0 1 0 7 paste_hint header_format sheet in
  let sheet := set_row 0 (Some 24%Z) None false sheet in
  let sheet := freeze_panes start_row 0 sheet in
  set_row parameter_row None None true sheet.

(** [workbook.add_worksheet('Data')] and [Variable_sheet(workbook)] *)
Definition initial_sheets : sheets :=
  {| data_sheet := add_worksheet "Data"; variable_sheet_obj := Variable_sheet_init |}.

Definition make_xlsx (args : Namespace) (file_def : FileDef)
    (field_dict : gmap string Field) (metadata conversions : bool)
    (data metadata_df : option DataFrame) : M workbook :=
  let! meta := (fun h =>
                  (h, if metadata
                      then let? s := write_metadata h field_dict metadata_df in Ok [s]
                      else Ok [])) in
  let! st := data_columns field_dict 0 (fd_fields file_def) initial_sheets in
  let sheet := write_data data (data_sheet st) in
  let sheet := finish_data_sheet file_def sheet in
  let conv := if conversions then [write_conversion] else [] in
  mret {| wb_sheets := meta ++ [sheet; vs_sheet (variable_sheet_obj st)] ++ conv;
          wb_font_name := DEFAULT_FONT;
          wb_font_size := DEFAULT_SIZE;
          wb_closed := true |}.

(** ** Reading a finished workbook *)

Definition sheet_named (nm : string) (wb : workbook) : option worksheet :=
  List.find (fun s => String.eqb (ws_name s) nm) (wb_sheets wb).

Definition cell_at (ws : worksheet) (r c : nat) : option cell := ws_cells ws !! (r, c).

(** Whether the column of [key] takes a column of the Variables sheet, and
    the number of such columns among the first [i] keys. *)
Definition uses_aux (field_dict : gmap string Field) (key : string) : bool :=
  match field_dict !! key with
  | Some f => match validation f with
              | Some _ => long_list f
              | None => false
              end
  | None => false
  end.

Definition aux_column (field_dict : gmap string Field) (keys : list string) (i : nat)
  : nat :=
  length (List.filter (uses_aux field_dict) (take i keys)).

(** The values of a column that [write_column] gets through: those before
    the first one [write] rejects. *)
Fixpoint written_prefix (data : list token) : list token :=
  match data with
  | [] => []
  | t :: rest => if writable t then t :: written_prefix rest else []
  end.

(** Whether the metadata loop takes the [except] branch for [key]. *)
Definition metadata_skipped (metadata_df : option DataFrame) (key : string) : bool :=
  match metadata_df with
  | Some df =>
      match metadata_lookup df key with
      | Ok t => negb (writable t)
      | Raise _ => true
      end
  | None => false
  end.

(** ** What the statements below speak about *)

(** The options of the rule installed for a field with validation [v]. *)
Definition installed_options (f : Field) (v opts : dict) : Prop :=
  if long_list f
  then opts = <["value" := VStr (indirect (table_name (name f)))]> (delete "source" v)
  else ∃ v1, truncate_message v = Ok v1 ∧ truncate_title v1 = Ok opts.

(** The rules a pass adds to the Data sheet: one when the field has a
    validation, none otherwise. *)
Definition installed_rules (f : Field) (ii : nat) (rules : list validation_rule) : Prop :=
  match validation f with
  | Some v => ∃ opts, installed_options f v opts ∧
                      rules = [mkRule start_row ii end_row ii opts]
  | None => rules = []
  end.

(** No cell has been written at or beyond the column cursor. *)
Definition vs_fresh (vs : Variable_sheet) : Prop :=
  ∀ r c, (current_column vs ≤ c)%nat → ws_cells (vs_sheet vs) !! (r, c) = None.

(** From [h] to [h'] a dictionary keeps its entries and gains at most the
    two font defaults. *)
Definition heap_filled (h h' : heap) : Prop :=
  ∀ l k, deref h' l !! k = deref h l !! k ∨
         (deref h l !! k = None ∧
          ((k = "font_name" ∧ deref h' l !! k = Some (VStr DEFAULT_FONT)) ∨
           (k = "font_size" ∧ deref h' l !! k = Some (VInt DEFAULT_SIZE)))).

(** The rules a pass of the metadata loop adds: one when the field has a
    non-empty validation and the pass was not cut short, none otherwise. *)
Definition metadata_rules (mdf : option DataFrame) (key : string) (f : Field)
    (ii : nat) (rules : list validation_rule) : Prop :=
  if metadata_skipped mdf key then rules = []
  else if truthy (validation f)
       then ∃ v opts, validation f = Some v ∧ truncate_message v = Ok opts ∧
                      rules = [mkRule ii 2 ii 2 opts]
       else rules = [].

(** ** Sample inputs *)

Fixpoint repeat_char (c : ascii) (n : nat) : string :=
  match n with
  | O => EmptyString
  | S k => String c (repeat_char c k)
  end.

(** A prompt of 300 characters and a title of 40. *)
Definition long_prompt : string := repeat_char "p" 300.
Definition long_title : string := repeat_char "t" 40.

Definition habitat_rule : dict :=
  <["validate" := VStr "list"]> (<["source" := VList ["b"; "A"; "c"; "B"; "a"]]>
  (<["input_title" := VStr long_title]> (<["input_message" := VStr long_prompt]> ∅))).

Definition habitat : Field :=
  {| name := "habitat"; disp_name := "Habitat"; validation := Some habitat_rule;
     cell_format := Some default_cell_format; width := 7; long_list := true |}.

Definition gear : Field :=
  {| name := "gearType"; disp_name := "Gear Type"; validation := Some habitat_rule;
     cell_format := Some default_cell_format; width := 9; long_list := false |}.

Definition title_field : Field :=
  {| name := "title"; disp_name := "Title"; validation := Some habitat_rule;
     cell_format := Some default_cell_format; width := 5; long_list := false |}.

Definition sample_catalog : gmap string Field :=
  <["habitat" := habitat]> (<["gearType" := gear]>
  (list_to_map ((fun k => (k, set_width 5 (Field_init k k))) <$> metadata_fields))).

Definition prompt_catalog : gmap string Field :=
  <["title" := title_field]> sample_catalog.

Definition sample_heap : heap := <[default_cell_format := ∅]> ∅.

Definition sample_args : Namespace := {| verbose := 0; dir := "" |}.

Definition sample_file : FileDef :=
  {| fd_name := "activity_log_1"; fd_disp_name := ""; fd_fields := ["habitat"; "gearType"] |}.

Definition empty_file : FileDef :=
  {| fd_name := "activity_log_1"; fd_disp_name := ""; fd_fields := [] |}.

Definition sample_data : DataFrame :=
  [("habitat", [TStr "a"; TStr "B"]); ("gearType", [TNum 10; TNaN; TNum 30])].

Definition sample_metadata : DataFrame := [("abstract", [TStr "Cruise"])].

(** The outcome of a run as a workbook, for runs that end normally. *)
Definition workbook_of (run : heap * result workbook) : workbook :=
  match run.2 with
  | Ok wb => wb
  | Raise _ => {| wb_sheets := []; wb_font_name := ""; wb_font_size := 0;
                  wb_closed := false |}
  end.

Definition sample_run : heap * result workbook :=
  make_xlsx sample_args sample_file sample_catalog true true
            (Some sample_data) (Some sample_metadata) sample_heap.

Definition prompt_run : heap * result workbook :=
  make_xlsx sample_args sample_file prompt_catalog true true None None sample_heap.

Definition data_only_run : heap * result workbook :=
  make_xlsx sample_args empty_file sample_catalog false false
            (Some sample_data) None sample_heap.

Definition no_data_run : heap * result workbook :=
  make_xlsx sample_args sample_file sample_catalog true true
            None (Some sample_metadata) sample_heap.

Definition empty_run : heap * result workbook :=
  make_xlsx sample_args empty_file sample_catalog false false None None sample_heap.

Definition event_date_descriptor : descriptor :=
  {| d_name := Some "eventDate"; d_disp_name := Some "Event Date";
     d_valid := None; d_cell_format := None; d_width := None; d_long_list := None |}.

Definition event_date_catalog : gmap string Field :=
  <["eventDate" := set_width 10 (Field_init "eventDate" "Event Date")]> ∅.

Definition event_date_file : FileDef :=
  {| fd_name := "activity_log_1"; fd_disp_name := ""; fd_fields := ["eventDate"] |}.

(** A long-list field whose name has a space and an upper-case letter, and
    whose source has items that differ in case only, two of them starting
    with a Latin-1 letter, A with ring above, in upper case (197) and in
    lower case (229). *)
Definition bottom_rule : dict :=
  <["validate" := VStr "list"]>
  (<["source" := VList ["b"; "A"; String (ascii_of_nat 197) "b"; "a";
                        String (ascii_of_nat 229) "a"]]>
  (<["input_title" := VStr "Bottom"]> (<["input_message" := VStr "Type of bottom"]> ∅))).

Definition bottom_type : Field :=
  {| name := "bottom Type"; disp_name := "Bottom type"; validation := Some bottom_rule;
     cell_format := None; width := 11; long_list := true |}.

Definition spaced_catalog : gmap string Field :=
  <["bottom Type" := bottom_type]> sample_catalog.

Definition spaced_file : FileDef :=
  {| fd_name := "activity_log_1"; fd_disp_name := "";
     fd_fields := ["gearType"; "bottom Type"] |}.

Definition spaced_run : heap * result workbook :=
  make_xlsx sample_args spaced_file spaced_catalog false false None None sample_heap.

Definition is_ok {A} (r : result A) : bool :=
  match r with
  | Ok _ => true
  | Raise _ => false
  end.

(** ** Further sample inputs *)

Definition gear_descriptor : descriptor :=
  {| d_name := Some "gearType"; d_disp_name := Some "Gear Type";
     d_valid := Some (Some habitat_rule); d_cell_format := None;
     d_width := None; d_long_list := None |}.

Definition nameless_descriptor : descriptor :=
  {| d_name := None; d_disp_name := Some "Gear Type";
     d_valid := None; d_cell_format := None; d_width := None; d_long_list := None |}.

Definition wide_gear_descriptor : descriptor :=
  {| d_name := Some "gearType"; d_disp_name := Some "Gear";
     d_valid := Some (Some habitat_rule); d_cell_format := None;
     d_width := Some 30%Z; d_long_list := None |}.

(** ** When a run ends normally *)

(** What the validation block of the column loop needs of a field: no
    validation at all, or the keys its branch reads, with values of the
    types the branch's operations accept. *)
Definition validation_ok (f : Field) : bool :=
  match validation f with
  | None => true
  | Some v =>
      if long_list f then
        match v !! "source", v !! "input_message" with
        | Some (VStr _ | VList _), Some (VStr _) => true
        | _, _ => false
        end
      else
        match v !! "input_message", v !! "input_title" with
        | Some (VStr _), Some (VStr _ | VList _) => true
        | _, _ => false
        end
  end.

(** What the metadata loop needs of a field whose pass is not cut short:
    an empty or absent validation, or a prompt it can measure and, when too
    long, cut. *)
Definition metadata_rule_ok (f : Field) : bool :=
  if truthy (validation f) then
    match default ∅ (validation f) !! "input_message" with
    | Some (VStr _) => true
    | Some (VList l) => (length l <=? 255)%nat
    | _ => false
    end
  else true.

Definition renders (fd : gmap string Field) (metadata : bool)
    (mdf : option DataFrame) (fields : list string) : Prop :=
  (metadata = true →
   ∀ key, key ∈ metadata_fields →
     ∃ f, fd !! key = Some f ∧
          (metadata_skipped mdf key = true ∨ metadata_rule_ok f = true)) ∧
  (∀ key, key ∈ fields → ∃ f, fd !! key = Some f ∧ validation_ok f = true).

(** ** The rules of the Data sheet *)

(** The columns of the listed keys whose field has a validation, counted
    from [ii], in order. *)
Fixpoint rule_columns (field_dict : gmap string Field) (ii : nat) (keys : list string)
  : list nat :=
  match keys with
  | [] => []
  | key :: rest =>
      match field_dict !! key with
      | Some f => match validation f with
                  | Some _ => ii :: rule_columns field_dict (S ii) rest
                  | None => rule_columns field_dict (S ii) rest
                  end
      | None => rule_columns field_dict (S ii) rest
      end
  end.

(** Whether [s] starts with the sharp s (223), the one character below 256
    whose title case is two characters long. *)
Definition sharp_s_first (s : string) : bool :=
  match s with
  | EmptyString => false
  | String c _ => (nat_of_ascii c =? 223)%nat
  end.

(** ** [write_file] and the path of the workbook *)

(** [os.path] is taken to be [posixpath]: a path is a string and the
    separator is the slash.  The functions below follow posixpath's
    source: [dirname] and [basename] split at [p.rfind('/') + 1], and
    [dirname] strips the trailing slashes of a head that is not made of
    slashes only. *)

Definition is_sep (c : ascii) : bool := Ascii.eqb c "/".

(** [p.rfind('/') + 1] *)
Fixpoint rfind_sep (p : string) : nat :=
  match p with
  | EmptyString => 0
  | String c r =>
      match rfind_sep r with
      | O => if is_sep c then 1 else 0
      | S i => S (S i)
      end
  end.

(** [s.rstrip('/')] *)
Fixpoint rstrip_sep (s : string) : string :=
  match s with
  | EmptyString => EmptyString
  | String c r =>
      match rstrip_sep r with
      | EmptyString => if is_sep c then EmptyString else String c EmptyString
      | r' => String c r'
      end
  end.

(** [s == '/' * len(s)] *)
Fixpoint all_sep (s : string) : bool :=
  match s with
  | EmptyString => true
  | String c r => is_sep c && all_sep r
  end.

(** [s.startswith('/')] and [s.endswith('/')] *)
Definition startswith_sep (s : string) : bool :=
  match s with
  | EmptyString => false
  | String c _ => is_sep c
  end.

Fixpoint endswith_sep (s : string) : bool :=
  match s with
  | EmptyString => false
  | String c r =>
      match r with
      | EmptyString => is_sep c
      | String _ _ => endswith_sep r
      end
  end.

(** [p[:i]] and [p[i:]] *)
Definition str_to (i : nat) (p : string) : string := substring 0 i p.
Definition str_from (i : nat) (p : string) : string :=
  substring i (String.length p - i) p.

Definition os_path_dirname (p : string) : string :=
  let i := rfind_sep p in
  let head := str_to i p in
  if negb (head =? "") && negb (all_sep head) then rstrip_sep head else head.

Definition os_path_basename (p : string) : string :=
  let i := rfind_sep p in
  str_from i p.

Definition os_path_join (a b : string) : string :=
  if startswith_sep b then b
  else if (a =? "") || endswith_sep a then a +:+ b
  else a +:+ "/" +:+ b.

(** [s.split('.')[0]]: what comes before the first dot. *)
Fixpoint before_dot (s : string) : string :=
  match s with
  | EmptyString => EmptyString
  | String c r => if Ascii.eqb c "." then EmptyString else String c (before_dot r)
  end.

(** The first statement of [make_xlsx]:
    [output = os.path.join(args.dir, file_def['name'] + '.xlsx')], the path
    the workbook is created at. *)
Definition output (args : Namespace) (file_def : FileDef) : string :=
  os_path_join (dir args) (fd_name file_def +:+ ".xlsx").

(** [write_file]: the arguments it builds for [make_xlsx], and the call. *)
Definition write_file_args (url : string) : Namespace :=
  {| verbose := 0; dir := os_path_dirname url |}.

Definition write_file_def (url : string) (fields : list string) : FileDef :=
  {| fd_name := before_dot (os_path_basename url);
     fd_disp_name := "";
     fd_fields := fields |}.

Definition write_file (url : string) (fields : list string)
    (field_dict : gmap string Field) (metadata conversions : bool)
    (data metadata_df : option DataFrame) : M workbook :=
  make_xlsx (write_file_args url) (write_file_def url fields) field_dict
            metadata conversions data metadata_df.

(** ** The script [main.py] *)

Definition filename : string := "activity_log".

(** [str(i)] of a natural number: its decimal digits. *)
Definition decimal (i : nat) : string :=
  DecimalString.NilEmpty.string_of_uint (Nat.to_uint i).

(** [f"{filename}_{i}.xlsx"] *)
Definition candidate (i : nat) : string :=
  filename +:+ "_" +:+ decimal i +:+ ".xlsx".

(** [while os.path.exists(f"{filename}_{i}.xlsx"): i += 1], where [files]
    is the set of the paths that exist; [fuel] bounds the number of tests,
    and [None] says that it ran out. *)
Fixpoint probe (files : gset string) (fuel i : nat) : option nat :=
  match fuel with
  | O => None
  | S k =>
      if bool_decide (candidate i ∈ files) then probe files k (S i)
      else Some i
  end.

(** The part of the script after the data is there:
    [terms = list(data.columns)], the catalog from the descriptors, and
    the call of [write_file] with both optional sheets. *)
Definition main_write (path : string) (descriptors : list descriptor)
    (data metadata_df : DataFrame) : M workbook :=
  let terms := fst <$> data in
  let! field_dict := lift (make_dict_of_fields descriptors) in
  write_file path terms field_dict true true (Some data) (Some metadata_df).

Definition sample_descriptors : list descriptor :=
  [ {| d_name := Some "habitat"; d_disp_name := Some "Habitat";
       d_valid := Some (Some habitat_rule); d_cell_format := None;
       d_width := None; d_long_list := Some true |};
    gear_descriptor ] ++
  ((fun k => {| d_name := Some k; d_disp_name := Some k; d_valid := None;
                d_cell_format := None; d_width := None; d_long_list := None |})
     <$> metadata_fields).

Definition main_run : heap * result workbook :=
  main_write (candidate 2) sample_descriptors sample_data sample_metadata sample_heap.

Definition unknown_key_file : FileDef :=
  {| fd_name := "activity_log_1"; fd_disp_name := "";
     fd_fields := ["habitat"; "depth"; "gearType"] |}.

(** * Properties *)

(** ** The catalog builder *)

Lemma make_field_width d f :
  make_field d = Ok f →
  d_name d = Some (name f) ∧ d_disp_name d = Some (disp_name f) ∧
  width f = match d_width d with
            | Some w => w
            | None => Z.of_nat (String.length (disp_name f))
            end.
Proof.
  unfold make_field, require_key.
  destruct d as [[nm|] [dn|] dv dc dw dl]; simpl; try discriminate.
  intros [= <-].
  destruct dv, dc, dw, dl; simpl; auto.
Qed.

Lemma make_dict_loop_spec fields : ∀ acc fd,
  make_dict_loop fields acc = Ok fd →
  (∀ d, d ∈ fields → ∃ f, make_field d = Ok f) ∧
  (∀ key f, fd !! key = Some f →
     acc !! key = Some f ∨ ∃ d, d ∈ fields ∧ make_field d = Ok f ∧ name f = key).
Proof.
  induction fields as [|d rest IH]; intros acc fd; simpl.
  - intros [= <-]. split; [intros d Hd; inversion Hd | auto].
  - destruct (make_field d) as [new|e] eqn:Hnew; simpl; [|discriminate].
    intros Hloop. destruct (IH _ _ Hloop) as [Hall Hentries]. split.
    + intros d' Hd'. apply elem_of_cons in Hd' as [->|Hd']; eauto.
    + intros key f Hkey. destruct (Hentries key f Hkey) as [Hacc|(d' & Hin & Hf & Hn)].
      * destruct (decide (name new = key)) as [Heq|Hne].
        -- rewrite <- Heq, lookup_insert_eq in Hacc. injection Hacc as <-.
           right. exists d. split; [left|auto].
        -- rewrite lookup_insert_ne in Hacc by done. auto.
      * right. exists d'. split; [by right|auto].
Qed.

(** C7. Every descriptor of the list gets a Field whose width is the
    descriptor's [width] when that key is present and the length of its
    [disp_name] otherwise, and every entry of the catalog is the Field of a
    descriptor of the list, filed under its name. *)
Theorem make_dict_of_fields_width (fields : list descriptor) (fd : gmap string Field) :
  make_dict_of_fields fields = Ok fd →
  (∀ d, d ∈ fields →
     ∃ f, make_field d = Ok f ∧
          d_disp_name d = Some (disp_name f) ∧
          (d_width d = None → width f = Z.of_nat (String.length (disp_name f))) ∧
          (∀ w, d_width d = Some w → width f = w)) ∧
  (∀ key f, fd !! key = Some f →
     ∃ d, d ∈ fields ∧ make_field d = Ok f ∧ name f = key ∧
          (d_width d = None → width f = Z.of_nat (String.length (disp_name f))) ∧
          (∀ w, d_width d = Some w → width f = w)).
Proof.
  intros Hbuild. apply make_dict_loop_spec in Hbuild as [Hall Hentries]. split.
  - intros d Hd. destruct (Hall d Hd) as [f Hf]. exists f.
    destruct (make_field_width d f Hf) as (_ & Hdn & Hw).
    repeat split; auto.
    + intros Hnone. by rewrite Hnone in Hw.
    + intros w Hsome. by rewrite Hsome in Hw.
  - intros key f Hkey. destruct (Hentries key f Hkey) as [Hempty|(d & Hin & Hf & Hn)].
    + by rewrite lookup_empty in Hempty.
    + exists d. destruct (make_field_width d f Hf) as (_ & _ & Hw).
      repeat split; auto.
      * intros Hnone. by rewrite Hnone in Hw.
      * intros w Hsome. by rewrite Hsome in Hw.
Qed.

Lemma make_dict_of_fields_width_witness :
  make_dict_of_fields [event_date_descriptor] = Ok event_date_catalog ∧
  ∃ f, event_date_catalog !! "eventDate" = Some f ∧ width f = 10%Z.
Proof.
  split; [reflexivity|].
  destruct (make_dict_of_fields_width [event_date_descriptor] event_date_catalog eq_refl)
    as [_ Hentries].
  exists (set_width 10 (Field_init "eventDate" "Event Date")).
  split; [reflexivity|].
  destruct (Hentries "eventDate" _ eq_refl) as (d & Hd & _ & _ & Hw & _).
  apply list_elem_of_singleton in Hd. subst d. exact (Hw eq_refl).
Defined.

(** Case analysis on the tests a cell lookup goes through; the cases where
    the coordinates cannot meet are closed by arithmetic. *)
Ltac cell_cases :=
  repeat case_decide; try done; exfalso; intuition (congruence || lia).

(** ** Strings and sorting *)

Lemma length_substring_0 n : ∀ s,
  String.length (substring 0 n s) = Nat.min n (String.length s).
Proof.
  induction n as [|n IH]; intros [|c s]; simpl; auto.
Qed.

Lemma length_append s1 s2 :
  String.length (s1 +:+ s2) = (String.length s1 + String.length s2)%nat.
Proof. induction s1 as [|c s1 IH]; simpl; auto. Qed.

Lemma substring_0_prefix n : ∀ s, String.prefix (substring 0 n s) s = true.
Proof.
  induction n as [|n IH]; intros [|c s]; simpl; auto.
  destruct (ascii_dec c c); [apply IH|done].
Qed.

Lemma length_list_ascii_of_string s :
  length (list_ascii_of_string s) = String.length s.
Proof. induction s as [|c s IH]; simpl; auto. Qed.

Lemma string_leb_trans s1 : ∀ s2 s3,
  String.leb s1 s2 = true → String.leb s2 s3 = true → String.leb s1 s3 = true.
Proof.
  unfold String.leb.
  induction s1 as [|c1 s1 IH]; intros [|c2 s2] [|c3 s3]; simpl; try done.
  unfold Ascii.compare.
  destruct (N.compare_spec (N_of_ascii c1) (N_of_ascii c2)) as [H12|H12|H12];
    destruct (N.compare_spec (N_of_ascii c2) (N_of_ascii c3)) as [H23|H23|H23];
    try done.
  - rewrite H12, H23, N.compare_refl. apply IH.
  - rewrite H12. by rewrite (proj2 (N.compare_lt_iff _ _) H23).
  - rewrite <- H23. by rewrite (proj2 (N.compare_lt_iff _ _) H12).
  - by rewrite (proj2 (N.compare_lt_iff _ _) (N.lt_trans _ _ _ H12 H23)).
Qed.

Lemma key_le_total a b : key_le a b = true ∨ key_le b a = true.
Proof. apply String.leb_total. Qed.

Lemma key_le_trans a b c : key_le a b = true → key_le b c = true → key_le a c = true.
Proof. apply string_leb_trans. Qed.

Lemma insert_by_key_perm x l : Permutation (insert_by_key x l) (x :: l).
Proof.
  induction l as [|y l IH]; simpl; [done|].
  destruct (key_le x y); [done|].
  rewrite IH. apply perm_swap.
Qed.

Lemma sorted_lower_perm l : Permutation (sorted_lower l) l.
Proof.
  induction l as [|x l IH]; simpl; [done|].
  rewrite insert_by_key_perm. by constructor.
Qed.


Lemma insert_by_key_sorted x l :
  StronglySorted (fun a b => key_le a b = true) l →
  StronglySorted (fun a b => key_le a b = true) (insert_by_key x l).
Proof.
  induction 1 as [|y l Hl IH Hy]; simpl.
  - repeat constructor.
  - destruct (key_le x y) eqn:Hxy.
    + constructor; [by constructor|]. constructor; [done|].
      eapply Forall_impl; [exact Hy|]. intros z Hz. by eapply key_le_trans.
    + constructor; [done|].
      apply (Permutation_Forall (symmetry (insert_by_key_perm x l))).
      constructor; [|done].
      destruct (key_le_total x y) as [H|H]; [congruence|done].
Qed.

Lemma sorted_lower_sorted l :
  StronglySorted (fun a b => key_le a b = true) (sorted_lower l).
Proof.
  induction l as [|x l IH]; simpl; [constructor|]. by apply insert_by_key_sorted.
Qed.

Lemma key_le_refl a : key_le a a = true.
Proof. by destruct (key_le_total a a). Qed.

Lemma insert_by_key_same_key k x l :
  List.filter (fun y => String.eqb (lower y) k) (insert_by_key x l) =
  List.filter (fun y => String.eqb (lower y) k) (x :: l).
Proof.
  induction l as [|y l IH]; [done|]. cbn [insert_by_key].
  destruct (key_le x y) eqn:Hxy; [done|].
  cbn [List.filter] in *. rewrite IH.
  destruct (String.eqb (lower x) k) eqn:Hx, (String.eqb (lower y) k) eqn:Hy; try done.
  apply String.eqb_eq in Hx, Hy. unfold key_le in Hxy. rewrite Hx, Hy in Hxy.
  assert (String.leb k k = true) as Hkk by (by destruct (String.leb_total k k)).
  congruence.
Qed.

(** The sort is stable: the items of one lower-cased value keep the order
    they had. *)
Lemma sorted_lower_stable (k : string) (l : list string) :
  List.filter (fun y => String.eqb (lower y) k) (sorted_lower l) =
  List.filter (fun y => String.eqb (lower y) k) l.
Proof.
  induction l as [|x l IH]; [done|].
  cbn [sorted_lower foldr]. fold (sorted_lower l).
  rewrite insert_by_key_same_key. cbn [List.filter]. by rewrite IH.
Qed.

(** ** Table names *)

Lemma append_cons c a b : String c a +:+ b = String c (a +:+ b).
Proof. reflexivity. Qed.

Lemma has_char_append c s1 s2 :
  has_char c (s1 +:+ s2) = has_char c s1 || has_char c s2.
Proof.
  induction s1 as [|a s1 IH]; [done|]. simpl. by rewrite IH, orb_assoc.
Qed.

Lemma has_char_map_string f c s :
  (∀ a, f a ≠ c) → has_char c (map_string f s) = false.
Proof.
  intros Hf. induction s as [|a s IH]; [done|]. cbn. rewrite IH, orb_false_r.
  apply Ascii.eqb_neq, Hf.
Qed.

Lemma lower_char_space c : Ascii.eqb (lower_char c) " " = Ascii.eqb c " ".
Proof. destruct c as [[] [] [] [] [] [] [] []]; reflexivity. Qed.

Lemma has_space_title c : has_char " " (title_char c) = Ascii.eqb c " ".
Proof. destruct c as [[] [] [] [] [] [] [] []]; reflexivity. Qed.

Lemma has_space_lower s : has_char " " (lower s) = has_char " " s.
Proof.
  unfold lower. induction s as [|a s IH]; [done|]. cbn [map_string has_char].
  by rewrite IH, lower_char_space.
Qed.

Lemma has_space_capitalize s : has_char " " (capitalize s) = has_char " " s.
Proof.
  destruct s as [|c s]; [done|]. cbn [capitalize has_char].
  by rewrite has_char_append, has_space_title, has_space_lower.
Qed.

Lemma table_name_no_space variable : has_char " " (table_name variable) = false.
Proof.
  unfold table_name. rewrite has_char_append, has_space_capitalize. cbn [orb has_char].
  apply has_char_map_string. intros a.
  destruct (Ascii.eqb_spec a " ") as [->|Hne]; done.
Qed.

(** ** The column loop, one pass *)

Section column_loop.

(** The catalog the loop reads; no pass changes it. *)
Context (fd : gmap string Field).

Lemma data_column_Ok ii key st h h1 st1 :
  data_column fd ii key st h = (h1, Ok st1) →
  ∃ f st', fd !! key = Some f ∧
    column_validation f ii (write_headers f ii st) = Ok st' ∧
    column_format f ii st' h = (h1, Ok st1).
Proof.
  unfold data_column, mbind, lift, lookup_field.
  destruct (fd !! key) as [f|]; simpl; [|discriminate].
  destruct (column_validation f ii (write_headers f ii st)) as [st'|e] eqn:Hval;
    [|discriminate].
  intros Hfmt. by exists f, st'.
Qed.

Lemma long_list_validation_Ok f v ii st st' :
  long_list_validation f v ii st = Ok st' →
  ∃ src vs', v !! "source" = Some src ∧
    add_row (name f) src (variable_sheet_obj st) = Ok (indirect (table_name (name f)), vs') ∧
    st' = {| data_sheet :=
               data_validation start_row ii end_row ii
                 (<["value" := VStr (indirect (table_name (name f)))]> (delete "source" v))
                 (data_sheet st);
             variable_sheet_obj := vs' |}.
Proof.
  unfold long_list_validation, getitem.
  destruct (v !! "source") as [src|] eqn:Hsrc; [|discriminate]. simpl.
  destruct (add_row (name f) src (variable_sheet_obj st)) as [[ref vs']|e] eqn:Hadd;
    [|discriminate]. simpl.
  assert (ref = indirect (table_name (name f))) as ->.
  { unfold add_row in Hadd. destruct (py_len src); [|discriminate]. simpl in Hadd.
    destruct (py_iter src); [|discriminate]. simpl in Hadd. by injection Hadd as <- _. }
  destruct (_ !! "input_message") as [m|]; [|discriminate]. simpl.
  destruct (call_replace m); [|discriminate]. simpl.
  intros [= <-]. by exists src, vs'.
Qed.

Lemma short_list_validation_Ok v ii st st' :
  short_list_validation v ii st = Ok st' →
  ∃ v1 opts, truncate_message v = Ok v1 ∧ truncate_title v1 = Ok opts ∧
    st' = {| data_sheet := data_validation start_row ii end_row ii opts (data_sheet st);
             variable_sheet_obj := variable_sheet_obj st |}.
Proof.
  unfold short_list_validation.
  destruct (truncate_message v) as [v1|] eqn:H1; simpl; [|discriminate].
  destruct (getitem v1 "input_message") as [m|]; simpl; [|discriminate].
  destruct (call_replace m); simpl; [|discriminate].
  destruct (truncate_title v1) as [opts|] eqn:H2; simpl; [|discriminate].
  intros [= <-]. by exists v1, opts.
Qed.

Lemma column_validation_data f ii st st' :
  column_validation f ii st = Ok st' →
  ws_name (data_sheet st') = ws_name (data_sheet st) ∧
  ws_cells (data_sheet st') = ws_cells (data_sheet st) ∧
  ws_rows (data_sheet st') = ws_rows (data_sheet st) ∧
  ∃ rules, installed_rules f ii rules ∧
    ws_validations (data_sheet st') = (ws_validations (data_sheet st) ++ rules)%list.
Proof.
  unfold column_validation, installed_rules, installed_options.
  destruct (validation f) as [v|]; [destruct (long_list f)|].
  - intros (src & vs' & _ & _ & ->)%long_list_validation_Ok. simpl.
    repeat split; eauto.
  - intros (v1 & opts & H1 & H2 & ->)%short_list_validation_Ok. simpl.
    repeat split. eexists. split; [exists opts; split; [by exists v1|done]|done].
  - intros [= <-]. repeat split. exists []. by rewrite app_nil_r.
Qed.

Lemma column_format_Ok f ii st h :
  ∃ h1 st1, column_format f ii st h = (h1, Ok st1) ∧
    variable_sheet_obj st1 = variable_sheet_obj st ∧
    ws_name (data_sheet st1) = ws_name (data_sheet st) ∧
    ws_cells (data_sheet st1) = ws_cells (data_sheet st) ∧
    ws_rows (data_sheet st1) = ws_rows (data_sheet st) ∧
    ws_validations (data_sheet st1) = ws_validations (data_sheet st).
Proof.
  unfold column_format, mbind, setdefault_at, add_format_at, mret.
  destruct (cell_format f) as [l|]; [|by eexists _, _].
  destruct (deref h l !! "font_name"); 
    match goal with |- context [deref ?h' l !! "font_size"] =>
      destruct (deref h' l !! "font_size") end; by eexists _, _.
Qed.

Lemma write_headers_cells f ii st r c :
  ws_cells (data_sheet (write_headers f ii st)) !! (r, c) =
  if decide (c = ii ∧ r = parameter_row) then Some (mkCell (TStr (name f)) None)
  else if decide (c = ii ∧ r = title_row)
       then Some (mkCell (TStr (disp_name f)) (Some field_format))
       else ws_cells (data_sheet st) !! (r, c).
Proof.
  unfold write_headers, with_data_sheet, put, with_cells. simpl.
  rewrite !lookup_insert.
  repeat case_decide; simplify_eq; intuition congruence.
Qed.

(** ** The column loop: the Data sheet *)

Lemma data_columns_cons ii key rest st h h' st' :
  data_columns fd ii (key :: rest) st h = (h', Ok st') →
  ∃ h1 st1, data_column fd ii key st h = (h1, Ok st1) ∧
            data_columns fd (S ii) rest st1 h1 = (h', Ok st').
Proof.
  simpl. unfold mbind at 1.
  destruct (data_column fd ii key st h) as [h1 [st1|e]] eqn:Hstep; [|discriminate].
  intros Hrest. by exists h1, st1.
Qed.

Lemma data_column_data ii key st h h1 st1 :
  data_column fd ii key st h = (h1, Ok st1) →
  ∃ f rules, fd !! key = Some f ∧ installed_rules f ii rules ∧
    ws_name (data_sheet st1) = ws_name (data_sheet st) ∧
    ws_rows (data_sheet st1) = ws_rows (data_sheet st) ∧
    ws_cells (data_sheet st1) = ws_cells (data_sheet (write_headers f ii st)) ∧
    ws_validations (data_sheet st1) = (ws_validations (data_sheet st) ++ rules)%list.
Proof.
  intros (f & st' & Hf & Hval & Hfmt)%data_column_Ok.
  destruct (column_validation_data _ _ _ _ Hval) as (Hn & Hc & Hr & rules & Hrules & Hv).
  destruct (column_format_Ok f ii st' h) as (h2 & st2 & Hfmt' & _ & Hn' & Hc' & Hr' & Hv').
  rewrite Hfmt in Hfmt'. injection Hfmt' as <- <-.
  unfold write_headers, with_data_sheet in Hn, Hr, Hv. simpl in Hn, Hr, Hv.
  exists f, rules. repeat split; try done; congruence.
Qed.

Lemma data_columns_data keys : ∀ ii st h h' st',
  data_columns fd ii keys st h = (h', Ok st') →
  ws_name (data_sheet st') = ws_name (data_sheet st) ∧
  ws_rows (data_sheet st') = ws_rows (data_sheet st) ∧
  (∀ j key, keys !! j = Some key →
     ∃ f, fd !! key = Some f ∧
       ws_cells (data_sheet st') !! (title_row, ii + j) =
         Some (mkCell (TStr (disp_name f)) (Some field_format)) ∧
       ws_cells (data_sheet st') !! (parameter_row, ii + j) =
         Some (mkCell (TStr (name f)) None)) ∧
  (∀ r c, (r ≠ title_row ∧ r ≠ parameter_row) ∨ (c < ii)%nat ∨ (ii + length keys ≤ c)%nat →
     ws_cells (data_sheet st') !! (r, c) = ws_cells (data_sheet st) !! (r, c)) ∧
  (∀ rule, rule ∈ ws_validations (data_sheet st') ↔
     rule ∈ ws_validations (data_sheet st) ∨
     ∃ j key f v opts, keys !! j = Some key ∧ fd !! key = Some f ∧
       validation f = Some v ∧ installed_options f v opts ∧
       rule = mkRule start_row (ii + j) end_row (ii + j) opts).
Proof.
  induction keys as [|key rest IH]; intros ii st h h' st'.
  - intros [= <- <-]. repeat split; try done.
    + auto.
    + intros [?|(j & ? & ? & ? & ? & Hj & _)]; [done|by destruct j].
  - intros (h1 & st1 & Hstep & Hrest)%data_columns_cons.
    destruct (data_column_data _ _ _ _ _ _ Hstep)
      as (f & rules & Hf & Hrules & Hn1 & Hr1 & Hc1 & Hv1).
    destruct (IH _ _ _ _ _ Hrest) as (Hn & Hr & Hhead & Hframe & Hval).
    split; [congruence|]. split; [congruence|]. split; [|split].
    + intros [|j] key' Hj; simpl in Hj.
      * injection Hj as <-. exists f. split; [done|].
        rewrite !Hframe by (right; left; lia). rewrite Hc1, !write_headers_cells.
        rewrite Nat.add_0_r. split; repeat case_decide; try done; exfalso; intuition (discriminate || congruence).
      * destruct (Hhead j key' Hj) as (f' & Hf' & Ht & Hp). exists f'.
        replace (ii + S j) with (S ii + j) by lia. done.
    + intros r c Hrc. rewrite Hframe by (simpl in Hrc; lia).
      rewrite Hc1, write_headers_cells.
      repeat case_decide; try done; simpl in Hrc; lia.
    + intros rule. rewrite Hval, Hv1, elem_of_app. split.
      * intros [[Hold|Hnew]|(j & key' & f' & v & opts & Hj & Hf' & Hv & Ho & ->)].
        -- by left.
        -- right. unfold installed_rules in Hrules.
           destruct (validation f) as [v|] eqn:Hvf.
           ++ destruct Hrules as (opts & Ho & ->). apply list_elem_of_singleton in Hnew as ->.
              exists 0, key, f, v, opts. rewrite Nat.add_0_r. done.
           ++ subst rules. by apply elem_of_nil in Hnew.
        -- right. exists (S j), key', f', v, opts.
           replace (ii + S j) with (S ii + j) by lia. done.
      * intros [Hold|(j & key' & f' & v & opts & Hj & Hf' & Hv & Ho & ->)].
        -- by left; left.
        -- destruct j as [|j]; simpl in Hj.
           ++ injection Hj as <-. left; right. rewrite Hf in Hf'. injection Hf' as <-.
              unfold installed_rules in Hrules. rewrite Hv in Hrules.
              destruct Hrules as (opts' & Ho' & ->).
              assert (opts' = opts) as ->; [|rewrite Nat.add_0_r; by left].
              unfold installed_options in *. destruct (long_list f); [congruence|].
              destruct Ho as (v1 & H1 & H2), Ho' as (v1' & H1' & H2'). congruence.
           ++ right. exists j, key', f', v, opts.
              replace (S ii + j) with (ii + S j) by lia. done.
Qed.

(** ** The column loop: the Variables sheet *)

Lemma write_pars_frame pars : ∀ ii col sheet,
  ws_name (write_pars ii col pars sheet) = ws_name sheet ∧
  ws_hidden (write_pars ii col pars sheet) = ws_hidden sheet ∧
  ws_tables (write_pars ii col pars sheet) = ws_tables sheet.
Proof.
  induction pars as [|par rest IH]; intros ii col sheet; simpl; [done|].
  destruct (IH (S ii) col (put (S ii) col (TStr par) None sheet)) as (-> & -> & ->).
  done.
Qed.

Lemma write_pars_cells pars : ∀ ii col sheet r c,
  ws_cells (write_pars ii col pars sheet) !! (r, c) =
  if decide (c = col ∧ (S ii ≤ r)%nat)
  then match pars !! (r - S ii)%nat with
       | Some p => Some (mkCell (TStr p) None)
       | None => ws_cells sheet !! (r, c)
       end
  else ws_cells sheet !! (r, c).
Proof.
  induction pars as [|par rest IH]; intros ii col sheet r c; simpl.
  - by case_decide.
  - rewrite IH. unfold put, with_cells. simpl. rewrite lookup_insert.
    destruct (decide (c = col)) as [->|Hc].
    + destruct (decide (r = S ii)) as [->|Hr].
      * rewrite Nat.sub_diag. simpl.
        cell_cases.
      * destruct (decide (S (S ii) ≤ r)%nat) as [Hle|Hgt].
        -- replace (r - S ii)%nat with (S (r - S (S ii))) by lia. simpl.
           cell_cases.
        -- cell_cases.
    + cell_cases.
Qed.

Lemma py_len_iter src items :
  py_iter src = Ok items → py_len src = Ok (length items).
Proof.
  destruct src; simpl; try discriminate; intros [= <-]; [|done].
  by rewrite length_fmap, length_list_ascii_of_string.
Qed.

Lemma add_row_Ok variable src vs ref vs' :
  add_row variable src vs = Ok (ref, vs') →
  ∃ items, py_iter src = Ok items ∧
    current_column vs' = S (current_column vs) ∧
    ws_name (vs_sheet vs') = ws_name (vs_sheet vs) ∧
    ws_hidden (vs_sheet vs') = ws_hidden (vs_sheet vs) ∧
    ws_tables (vs_sheet vs') =
      (ws_tables (vs_sheet vs) ++
       [mkTable 1 (current_column vs) (1 + length items) (current_column vs)
                (table_name variable) 0])%list ∧
    (∀ r c, c ≠ current_column vs →
       ws_cells (vs_sheet vs') !! (r, c) = ws_cells (vs_sheet vs) !! (r, c)) ∧
    ws_cells (vs_sheet vs') !! (0%nat, current_column vs) =
      Some (mkCell (TStr variable) None) ∧
    (∀ r, ws_cells (vs_sheet vs') !! (S r, current_column vs) =
       match sorted_lower items !! r with
       | Some p => Some (mkCell (TStr p) None)
       | None => ws_cells (vs_sheet vs) !! (S r, current_column vs)
       end).
Proof.
  unfold add_row.
  destruct (py_iter src) as [items|] eqn:Hiter.
  2:{ destruct (py_len src); simpl; discriminate. }
  rewrite (py_len_iter _ _ Hiter). simpl. intros [= <- <-]. simpl.
  exists items. split; [done|]. split; [lia|].
  match goal with |- context [write_pars 0 ?c ?p ?s] =>
    destruct (write_pars_frame p 0 c s) as (-> & -> & ->) end.
  simpl. repeat split; try done.
  - intros r c Hc. rewrite write_pars_cells. rewrite decide_False by tauto.
    unfold put, with_cells. simpl. rewrite lookup_insert_ne; [done|congruence].
  - rewrite write_pars_cells. rewrite decide_False by lia.
    unfold put, with_cells. simpl. by rewrite lookup_insert_eq.
  - intros r. rewrite write_pars_cells. rewrite decide_True by (split; [done|lia]).
    replace (S r - 1)%nat with r by lia.
    destruct (sorted_lower items !! r); [done|].
    unfold put, with_cells. simpl. rewrite lookup_insert_ne; [done|congruence].
Qed.

Lemma data_column_vars ii key st h h1 st1 :
  data_column fd ii key st h = (h1, Ok st1) →
  ∃ f, fd !! key = Some f ∧
    match validation f with
    | Some v =>
        if long_list f
        then ∃ src, v !! "source" = Some src ∧
               add_row (name f) src (variable_sheet_obj st) =
                 Ok (indirect (table_name (name f)), variable_sheet_obj st1)
        else variable_sheet_obj st1 = variable_sheet_obj st
    | None => variable_sheet_obj st1 = variable_sheet_obj st
    end.
Proof.
  intros (f & st' & Hf & Hval & Hfmt)%data_column_Ok. exists f. split; [done|].
  destruct (column_format_Ok f ii st' h) as (h2 & st2 & Hfmt' & Hvs & _).
  rewrite Hfmt in Hfmt'. injection Hfmt' as <- <-. rewrite Hvs.
  unfold column_validation in Hval.
  destruct (validation f) as [v|]; [destruct (long_list f)|].
  - apply long_list_validation_Ok in Hval as (src & vs' & Hsrc & Hadd & ->).
    by exists src.
  - by apply short_list_validation_Ok in Hval as (v1 & opts & _ & _ & ->).
  - by injection Hval as <-.
Qed.

Lemma aux_column_cons key rest j :
  aux_column fd (key :: rest) (S j) =
  ((if uses_aux fd key then 1 else 0) + aux_column fd rest j)%nat.
Proof. unfold aux_column. simpl. by destruct (uses_aux fd key). Qed.

Lemma data_columns_vars keys : ∀ ii st h h' st',
  data_columns fd ii keys st h = (h', Ok st') →
  vs_fresh (variable_sheet_obj st) →
  vs_fresh (variable_sheet_obj st') ∧
  current_column (variable_sheet_obj st') =
    (current_column (variable_sheet_obj st) + aux_column fd keys (length keys))%nat ∧
  ws_name (vs_sheet (variable_sheet_obj st')) = ws_name (vs_sheet (variable_sheet_obj st)) ∧
  ws_hidden (vs_sheet (variable_sheet_obj st')) =
    ws_hidden (vs_sheet (variable_sheet_obj st)) ∧
  (∀ r c, (c < current_column (variable_sheet_obj st))%nat →
     ws_cells (vs_sheet (variable_sheet_obj st')) !! (r, c) =
     ws_cells (vs_sheet (variable_sheet_obj st)) !! (r, c)) ∧
  (∀ t, t ∈ ws_tables (vs_sheet (variable_sheet_obj st)) →
        t ∈ ws_tables (vs_sheet (variable_sheet_obj st'))) ∧
  (∀ j key f v, keys !! j = Some key → fd !! key = Some f →
     validation f = Some v → long_list f = true →
     ∃ src items, v !! "source" = Some src ∧ py_iter src = Ok items ∧
       let col := (current_column (variable_sheet_obj st) + aux_column fd keys j)%nat in
       ws_cells (vs_sheet (variable_sheet_obj st')) !! (0%nat, col) =
         Some (mkCell (TStr (name f)) None) ∧
       (∀ r, ws_cells (vs_sheet (variable_sheet_obj st')) !! (S r, col) =
             (fun p => mkCell (TStr p) None) <$> sorted_lower items !! r) ∧
       mkTable 1 col (1 + length items) col (table_name (name f)) 0
         ∈ ws_tables (vs_sheet (variable_sheet_obj st'))).
Proof.
  induction keys as [|key rest IH]; intros ii st h h' st'.
  - intros [= <- <-] Hfresh. split; [done|]. split; [unfold aux_column; simpl; lia|].
    repeat split; done.
  - intros (h1 & st1 & Hstep & Hrest)%data_columns_cons Hfresh.
    destruct (data_column_vars _ _ _ _ _ _ Hstep) as (f & Hf & Hvs).
    assert (uses_aux fd key = match validation f with
                              | Some _ => long_list f | None => false end) as Huse.
    { unfold uses_aux. by rewrite Hf. }
    simpl length. rewrite aux_column_cons.
    destruct (validation f) as [v|] eqn:Hv; [destruct (long_list f) eqn:Hlong|].
    + (* the pass takes a column of the Variables sheet *)
      destruct Hvs as (src & Hsrc & Hadd).
      destruct (add_row_Ok _ _ _ _ _ Hadd)
        as (items & Hiter & Hcur & Hn1 & Hh1 & Ht1 & Hframe1 & Hhead1 & Hcol1).
      assert (vs_fresh (variable_sheet_obj st1)) as Hfresh1.
      { intros r c Hc. rewrite Hcur in Hc. rewrite Hframe1 by lia. apply Hfresh. lia. }
      destruct (IH _ _ _ _ _ Hrest Hfresh1) as (Hfr & Hcc & Hn & Hh & Hframe & Htab & Hcols).
      rewrite Huse. split; [done|]. split; [lia|]. split; [congruence|].
      split; [congruence|]. split; [|split].
      * intros r c Hc. rewrite Hframe by lia. apply Hframe1. lia.
      * intros t Ht. apply Htab. rewrite Ht1. apply elem_of_app. by left.
      * intros [|j] key' f' v' Hj Hf' Hv' Hl'; simpl in Hj.
        -- injection Hj as <-. rewrite Hf in Hf'. injection Hf' as <-.
           rewrite Hv in Hv'. injection Hv' as <-.
           exists src, items. split; [done|]. split; [done|].
           unfold aux_column. simpl. rewrite Nat.add_0_r.
           split; [|split].
           ++ rewrite Hframe by lia. done.
           ++ intros r. rewrite Hframe by lia. rewrite Hcol1.
              destruct (sorted_lower items !! r); [done|]. simpl. apply Hfresh. lia.
           ++ apply Htab. rewrite Ht1. apply elem_of_app. right. by left.
        -- destruct (Hcols j key' f' v' Hj Hf' Hv' Hl') as (src' & items' & ? & ? & Hc).
           exists src', items'. split; [done|]. split; [done|].
           rewrite aux_column_cons, Huse. rewrite Hcur in Hc.
           replace (current_column (variable_sheet_obj st) + (1 + aux_column fd rest j))%nat
             with (S (current_column (variable_sheet_obj st)) + aux_column fd rest j)%nat
             by lia.
           exact Hc.
    + rewrite Huse.
      destruct (IH _ _ _ _ _ Hrest) as (Hfr & Hcc & Hn & Hh & Hframe & Htab & Hcols).
      { by rewrite Hvs. }
      rewrite Hvs in *. repeat split; try done.
      intros [|j] key' f' v' Hj Hf' Hv' Hl'; simpl in Hj.
      * injection Hj as <-. congruence.
      * rewrite aux_column_cons, Huse. simpl. eauto.
    + rewrite Huse.
      destruct (IH _ _ _ _ _ Hrest) as (Hfr & Hcc & Hn & Hh & Hframe & Htab & Hcols).
      { by rewrite Hvs. }
      rewrite Hvs in *. repeat split; try done.
      intros [|j] key' f' v' Hj Hf' Hv' Hl'; simpl in Hj.
      * injection Hj as <-. congruence.
      * rewrite aux_column_cons, Huse. simpl. eauto.
Qed.

(** ** The column loop: the store *)

Lemma heap_filled_refl h : heap_filled h h.
Proof. intros l k. by left. Qed.

Lemma heap_filled_trans h1 h2 h3 :
  heap_filled h1 h2 → heap_filled h2 h3 → heap_filled h1 h3.
Proof.
  intros H12 H23 l k.
  destruct (H12 l k) as [E12|(N1 & D12)], (H23 l k) as [E23|(N2 & D23)].
  - left. congruence.
  - right. split; [congruence|done].
  - right. split; [done|]. rewrite E23. done.
  - right. split; [done|]. destruct D23 as [[-> ?]|[-> ?]]; auto.
Qed.

Lemma deref_insert h l d l' :
  deref (<[l := d]> h) l' = if decide (l = l') then d else deref h l'.
Proof. unfold deref. rewrite lookup_insert. by case_decide. Qed.

Lemma setdefault_at_spec l key v h :
  ∃ h', setdefault_at l key v h = (h', Ok tt) ∧
    is_Some (deref h' l !! key) ∧
    (∀ l', l' ≠ l → h' !! l' = h !! l') ∧
    (∀ l' k, deref h' l' !! k = deref h l' !! k ∨
             (deref h l' !! k = None ∧ l' = l ∧ k = key ∧ deref h' l' !! k = Some v)).
Proof.
  unfold setdefault_at. destruct (deref h l !! key) as [v0|] eqn:Hk.
  - exists h. repeat split; eauto.
  - eexists. split; [done|]. split; [|split].
    + rewrite deref_insert, decide_True by done. rewrite lookup_insert_eq. eauto.
    + intros l' Hl'. by rewrite lookup_insert_ne.
    + intros l' k. rewrite deref_insert. case_decide as Hl; [subst l'|by left].
      destruct (decide (k = key)) as [->|Hne].
      * right. by rewrite lookup_insert_eq.
      * left. by rewrite lookup_insert_ne.
Qed.

Lemma column_format_heap f ii st h h1 r :
  column_format f ii st h = (h1, r) →
  heap_filled h h1 ∧
  (∀ l, cell_format f ≠ Some l → h1 !! l = h !! l) ∧
  (∀ l, cell_format f = Some l →
        is_Some (deref h1 l !! "font_name") ∧ is_Some (deref h1 l !! "font_size")).
Proof.
  unfold column_format. destruct (cell_format f) as [l|].
  - unfold mbind.
    destruct (setdefault_at_spec l "font_name" (VStr DEFAULT_FONT) h)
      as (h2 & -> & Hs2 & Hf2 & Hd2).
    destruct (setdefault_at_spec l "font_size" (VInt DEFAULT_SIZE) h2)
      as (h3 & -> & Hs3 & Hf3 & Hd3).
    unfold add_format_at, mret. intros [= <- <-]. split; [|split].
    + apply (heap_filled_trans _ h2).
      * intros l' k. destruct (Hd2 l' k) as [?|(? & ? & ? & ?)]; [by left|]. right. auto.
      * intros l' k. destruct (Hd3 l' k) as [?|(? & ? & ? & ?)]; [by left|]. right. auto.
    + intros l' Hl'. rewrite Hf3, Hf2; [done| |]; congruence.
    + intros l' [= <-]. split; [|done].
      destruct Hs2 as [v2 Hv2]. destruct (Hd3 l "font_name") as [->|(Hn & _ & ? & _)]; eauto.
      discriminate.
  - unfold mret. intros [= <- <-]. split; [apply heap_filled_refl|]. split; [done|].
    intros l; discriminate.
Qed.

Lemma data_column_heap ii key st h h1 r :
  data_column fd ii key st h = (h1, r) →
  heap_filled h h1 ∧
  (∀ l, (∀ f, fd !! key = Some f → cell_format f ≠ Some l) → h1 !! l = h !! l).
Proof.
  unfold data_column, mbind, lift, lookup_field.
  destruct (fd !! key) as [f|] eqn:Hf; simpl.
  2:{ intros [= <- <-]. split; [apply heap_filled_refl|done]. }
  destruct (column_validation f ii (write_headers f ii st)) as [st'|e] eqn:Hval.
  2:{ intros [= <- <-]. split; [apply heap_filled_refl|done]. }
  intros (Hfill & Hframe & _)%column_format_heap. split; [done|].
  intros l Hl. apply Hframe. by apply Hl.
Qed.

Lemma data_columns_heap keys : ∀ ii st h h' r,
  data_columns fd ii keys st h = (h', r) →
  heap_filled h h' ∧
  (∀ l, (∀ key f, key ∈ keys → fd !! key = Some f → cell_format f ≠ Some l) →
        h' !! l = h !! l).
Proof.
  induction keys as [|key rest IH]; intros ii st h h' r; simpl.
  - unfold mret. intros [= <- <-]. split; [apply heap_filled_refl|done].
  - unfold mbind at 1.
    destruct (data_column fd ii key st h) as [h1 [st1|e]] eqn:Hstep;
      destruct (data_column_heap _ _ _ _ _ _ Hstep) as [Hfill1 Hframe1].
    + intros [Hfill Hframe]%IH. split; [by eapply heap_filled_trans|].
      intros l Hl. rewrite Hframe, Hframe1; [done| |].
      * intros f Hf. apply (Hl key f); [by left|done].
      * intros key' f Hin Hf. apply (Hl key' f); [by right|done].
    + intros [= <- <-]. split; [done|].
      intros l Hl. apply Hframe1. intros f Hf. apply (Hl key f); [by left|done].
Qed.

(** After a pass that ended normally the field's format dictionary has
    both font entries, and later passes keep them. *)
Lemma data_columns_fonts keys : ∀ ii st h h' st',
  data_columns fd ii keys st h = (h', Ok st') →
  ∀ key f l, key ∈ keys → fd !! key = Some f → cell_format f = Some l →
    is_Some (deref h' l !! "font_name") ∧ is_Some (deref h' l !! "font_size").
Proof.
  induction keys as [|key rest IH]; intros ii st h h' st' Hloop key' f l Hin Hf Hl.
  - by apply elem_of_nil in Hin.
  - apply data_columns_cons in Hloop as (h1 & st1 & Hstep & Hrest).
    apply elem_of_cons in Hin as [->|Hin]; [|by eapply IH].
    apply data_column_Ok in Hstep as (f' & st2 & Hf' & _ & Hfmt).
    rewrite Hf in Hf'. injection Hf' as <-.
    destruct (column_format_heap _ _ _ _ _ _ Hfmt) as (_ & _ & Hfonts).
    destruct (Hfonts l Hl) as [[v1 H1] [v2 H2]].
    destruct (data_columns_heap _ _ _ _ _ _ Hrest) as [Hfill _].
    split.
    + destruct (Hfill l "font_name") as [->|(Hn & _)]; [eauto|congruence].
    + destruct (Hfill l "font_size") as [->|(Hn & _)]; [eauto|congruence].
Qed.

End column_loop.

(** ** Writing the data *)

Lemma write_column_spec data : ∀ r c fmt ws,
  ws_name (write_column r c data fmt ws).1 = ws_name ws ∧
  ws_rows (write_column r c data fmt ws).1 = ws_rows ws ∧
  ws_validations (write_column r c data fmt ws).1 = ws_validations ws ∧
  ((write_column r c data fmt ws).2 = None ↔ written_prefix data = data) ∧
  ∀ r' c', ws_cells (write_column r c data fmt ws).1 !! (r', c') =
    if decide (c' = c ∧ (r ≤ r')%nat)
    then match written_prefix data !! (r' - r)%nat with
         | Some t => Some (mkCell t fmt)
         | None => ws_cells ws !! (r', c')
         end
    else ws_cells ws !! (r', c').
Proof.
  induction data as [|t rest IH]; intros r c fmt ws; simpl.
  - repeat split; try done. intros r' c'. by case_decide.
  - unfold write. destruct (writable t) eqn:Ht; simpl.
    + destruct (IH (S r) c fmt (put r c t fmt ws)) as (-> & -> & -> & Hnone & Hcells).
      split; [done|]. split; [done|]. split; [done|]. split.
      * rewrite Hnone. split; [congruence|]. by intros [= ->].
      * intros r' c'. rewrite Hcells. unfold put, with_cells. simpl.
        rewrite lookup_insert.
        destruct (decide (c' = c)) as [->|Hc].
        -- destruct (decide (r' = r)) as [->|Hr].
           ++ rewrite Nat.sub_diag. simpl.
              cell_cases.
           ++ destruct (decide (S r ≤ r')%nat) as [Hle|Hgt].
              ** replace (r' - r)%nat with (S (r' - S r)) by lia. simpl.
                 cell_cases.
              ** cell_cases.
        -- cell_cases.
    + repeat split; try done. intros r' c'. by case_decide.
Qed.

Lemma write_data_column_spec data col_num field sheet :
  ws_name (write_data_column data col_num field sheet).1 = ws_name sheet ∧
  ws_rows (write_data_column data col_num field sheet).1 = ws_rows sheet ∧
  ws_validations (write_data_column data col_num field sheet).1 = ws_validations sheet ∧
  (∀ r c, c ≠ col_num ∨ (r < start_row)%nat →
     ws_cells (write_data_column data col_num field sheet).1 !! (r, c) =
     ws_cells sheet !! (r, c)) ∧
  (∀ vals, df_column data field = Ok vals →
     ((write_data_column data col_num field sheet).2 = None ↔ written_prefix vals = vals) ∧
     ∀ i, ws_cells (write_data_column data col_num field sheet).1
            !! ((start_row + i)%nat, col_num) =
          match written_prefix vals !! i with
          | Some t => Some (mkCell t (data_format field))
          | None => ws_cells sheet !! ((start_row + i)%nat, col_num)
          end).
Proof.
  unfold write_data_column.
  destruct (df_column data field) as [vals|e]; cbv iota beta.
  - destruct (write_column_spec vals start_row col_num (data_format field) sheet)
      as (Hn & Hr & Hv & Hnone & Hcells).
    split; [done|]. split; [done|]. split; [done|]. split.
    + intros r c Hrc. rewrite Hcells. rewrite decide_False; [done|lia].
    + intros vals' [= <-]. split; [done|].
      intros i. rewrite Hcells.
      rewrite decide_True by (split; [done|lia]).
      by replace (start_row + i - start_row)%nat with i by lia.
  - split; [done|]. split; [done|]. split; [done|]. split; [done|]. discriminate.
Qed.

Lemma write_data_loop_spec data labels : ∀ col_num sheet,
  ws_name (write_data_loop data col_num labels sheet) = ws_name sheet ∧
  ws_rows (write_data_loop data col_num labels sheet) = ws_rows sheet ∧
  ws_validations (write_data_loop data col_num labels sheet) = ws_validations sheet ∧
  (∀ r c, (c < col_num)%nat ∨ (col_num + length labels ≤ c)%nat ∨ (r < start_row)%nat →
     ws_cells (write_data_loop data col_num labels sheet) !! (r, c) =
     ws_cells sheet !! (r, c)) ∧
  (∀ j field vals, labels !! j = Some field → df_column data field = Ok vals →
     ∀ i, ws_cells (write_data_loop data col_num labels sheet)
            !! ((start_row + i)%nat, (col_num + j)%nat) =
          match written_prefix vals !! i with
          | Some t => Some (mkCell t (data_format field))
          | None => ws_cells sheet !! ((start_row + i)%nat, (col_num + j)%nat)
          end).
Proof.
  induction labels as [|field rest IH]; intros col_num sheet;
    cbn [write_data_loop length].
  - repeat split; try done.
  - destruct (write_data_column_spec data col_num field sheet)
      as (Hn1 & Hr1 & Hv1 & Hframe1 & Hcol1).
    destruct (IH (S col_num) (write_data_column data col_num field sheet).1)
      as (Hn & Hr & Hv & Hframe & Hcols).
    split; [congruence|]. split; [congruence|]. split; [congruence|]. split.
    + intros r c Hrc. rewrite Hframe by lia. apply Hframe1. lia.
    + intros [|j] field' vals Hj Hvals i; simpl in Hj.
      * injection Hj as <-. rewrite Nat.add_0_r, Hframe by lia.
        by apply Hcol1.
      * replace (col_num + S j)%nat with (S col_num + j)%nat by lia.
        rewrite (Hcols j field' vals Hj Hvals).
        destruct (written_prefix vals !! i); [done|]. apply Hframe1. lia.
Qed.

Lemma finish_data_sheet_spec file_def sheet :
  ws_name (finish_data_sheet file_def sheet) = ws_name sheet ∧
  ws_validations (finish_data_sheet file_def sheet) = ws_validations sheet ∧
  ws_rows (finish_data_sheet file_def sheet) !! parameter_row =
    Some (mkRow None None true) ∧
  ws_freeze (finish_data_sheet file_def sheet) = Some (start_row, 0%nat) ∧
  (∀ r c, (r, c) ≠ (0%nat, 0%nat) →
     ws_cells (finish_data_sheet file_def sheet) !! (r, c) = ws_cells sheet !! (r, c)).
Proof.
  unfold finish_data_sheet. simpl. repeat split.
  - by rewrite lookup_insert_eq.
  - intros r c Hrc. by rewrite lookup_insert_ne.
Qed.

Lemma write_data_spec data sheet :
  ws_name (write_data data sheet) = ws_name sheet ∧
  ws_rows (write_data data sheet) = ws_rows sheet ∧
  ws_validations (write_data data sheet) = ws_validations sheet ∧
  (∀ r c, (r < start_row)%nat →
     ws_cells (write_data data sheet) !! (r, c) = ws_cells sheet !! (r, c)).
Proof.
  destruct data as [df|]; simpl; [|done].
  destruct (write_data_loop_spec df (df.*1) 0 sheet) as (? & ? & ? & Hframe & _).
  repeat split; try done. intros r c Hr. apply Hframe. lia.
Qed.

(** ** The metadata sheet *)

Lemma metadata_value_spec mdf ii key sheet :
  (metadata_value mdf ii key sheet).2 = metadata_skipped mdf key ∧
  ws_name (metadata_value mdf ii key sheet).1 = ws_name sheet ∧
  ws_validations (metadata_value mdf ii key sheet).1 = ws_validations sheet ∧
  (∀ r c, (r, c) ≠ (ii, 2%nat) →
     ws_cells (metadata_value mdf ii key sheet).1 !! (r, c) = ws_cells sheet !! (r, c)) ∧
  (metadata_skipped mdf key = true ∨ mdf = None →
     ws_cells (metadata_value mdf ii key sheet).1 !! (ii, 2%nat) =
     Some (mkCell (TStr "") (Some input_format))).
Proof.
  unfold metadata_value, metadata_skipped, write.
  destruct mdf as [df|].
  - destruct (metadata_lookup df key) as [t|e]; cbn [rbind].
    + destruct (writable t); cbn [negb fst snd put with_cells ws_name ws_validations ws_cells].
      * repeat split; try done.
        -- intros r c Hrc. by rewrite lookup_insert_ne.
        -- intros [?|?]; done.
      * repeat split; try done.
        -- intros r c Hrc. by rewrite lookup_insert_ne.
        -- intros _. by rewrite lookup_insert_eq.
    + cbn [negb fst snd put with_cells ws_name ws_validations ws_cells].
      repeat split; try done.
      * intros r c Hrc. by rewrite lookup_insert_ne.
      * intros _. by rewrite lookup_insert_eq.
  - cbn [negb fst snd put with_cells ws_name ws_validations ws_cells].
    repeat split; try done.
    + intros r c Hrc. by rewrite lookup_insert_ne.
    + intros _. by rewrite lookup_insert_eq.
Qed.

Lemma metadata_row_Ok h fd mdf ii key sheet sheet' :
  metadata_row h fd mdf ii key sheet = Ok sheet' →
  ∃ f rules, fd !! key = Some f ∧ metadata_rules mdf key f ii rules ∧
    ws_name sheet' = ws_name sheet ∧
    ws_validations sheet' = (ws_validations sheet ++ rules)%list ∧
    (∀ r c, r ≠ ii → ws_cells sheet' !! (r, c) = ws_cells sheet !! (r, c)) ∧
    ws_cells sheet' !! (ii, 0%nat) =
      Some (mkCell (TStr (disp_name f)) (Some parameter_format)) ∧
    ws_cells sheet' !! (ii, 1%nat) =
      Some (mkCell (TStr (name f)) (Some parameter_format)) ∧
    (metadata_skipped mdf key = true ∨ mdf = None →
       ws_cells sheet' !! (ii, 2%nat) = Some (mkCell (TStr "") (Some input_format))).
Proof.
  unfold metadata_row, lookup_field, metadata_rules.
  destruct (fd !! key) as [f|] eqn:Hf; cbn [rbind]; [|discriminate].
  intros Hrow. exists f. revert Hrow.
  set (s1 := set_column 1 1 None None true
               (put ii 1 (TStr (name f)) (Some parameter_format)
                  (put ii 0 (TStr (disp_name f)) (Some parameter_format) sheet))).
  destruct (metadata_value_spec mdf ii key s1) as (Hskip & Hn & Hv & Hframe & Hval).
  destruct (metadata_value mdf ii key s1) as [s2 continue]. cbn [fst snd] in *.
  subst continue.
  assert (Hs1 : ∀ r c, ws_cells s1 !! (r, c) =
               if decide ((ii, 1%nat) = (r, c))
               then Some (mkCell (TStr (name f)) (Some parameter_format))
               else if decide ((ii, 0%nat) = (r, c))
                    then Some (mkCell (TStr (disp_name f)) (Some parameter_format))
                    else ws_cells sheet !! (r, c)).
  { intros r c. unfold s1, set_column, put, with_cells. cbn [ws_cells].
    by rewrite !lookup_insert. }
  assert (Hcells2 :
    (∀ r c, r ≠ ii → ws_cells s2 !! (r, c) = ws_cells sheet !! (r, c)) ∧
    ws_cells s2 !! (ii, 0%nat) =
      Some (mkCell (TStr (disp_name f)) (Some parameter_format)) ∧
    ws_cells s2 !! (ii, 1%nat) =
      Some (mkCell (TStr (name f)) (Some parameter_format))).
  { split; [|split].
    - intros r c Hr. rewrite Hframe by congruence. rewrite Hs1.
      rewrite !decide_False by congruence. done.
    - rewrite Hframe by congruence. rewrite Hs1.
      rewrite decide_False by congruence. by rewrite decide_True.
    - rewrite Hframe by congruence. rewrite Hs1. by rewrite decide_True. }
  destruct Hcells2 as (Hc2 & Hc20 & Hc21).
  assert (Hn1 : ws_name s1 = ws_name sheet) by done.
  assert (Hv1 : ws_validations s1 = ws_validations sheet) by done.
  rewrite Hn1 in Hn. rewrite Hv1 in Hv. clearbody s1.
  destruct (metadata_skipped mdf key) eqn:Hsk.
  - intros [= <-]. exists []. rewrite app_nil_r. repeat split; try done.
  - destruct (truthy (validation f)) eqn:Htr; cbn [rbind].
    + destruct (validation f) as [v|] eqn:Hvf; [|by cbn in Htr].
      change (default ∅ (Some v)) with v.
      destruct (truncate_message v) as [opts|] eqn:Hopts; cbn [rbind]; [|discriminate].
      intros Hrow. exists [mkRule ii 2 ii 2 opts]. split; [done|].
      split; [by exists v, opts|].
      destruct (truthy (deref h <$> cell_format f)); injection Hrow as <-; cbn;
        rewrite Hn, Hv; repeat split; try done; try (intros [?|?]; [done|auto]).
    + intros [= <-]. exists []. rewrite app_nil_r. cbn.
      repeat split; try done; try (intros [?|?]; [done|auto]).
Qed.

Lemma metadata_loop_spec h fd mdf keys : ∀ ii sheet sheet',
  metadata_loop h fd mdf ii keys sheet = Ok sheet' →
  ws_name sheet' = ws_name sheet ∧
  (∀ r c, (r < ii)%nat ∨ (ii + length keys ≤ r)%nat →
     ws_cells sheet' !! (r, c) = ws_cells sheet !! (r, c)) ∧
  (∀ j key, keys !! j = Some key →
     ∃ f, fd !! key = Some f ∧
       ws_cells sheet' !! ((ii + j)%nat, 0%nat) =
         Some (mkCell (TStr (disp_name f)) (Some parameter_format)) ∧
       ws_cells sheet' !! ((ii + j)%nat, 1%nat) =
         Some (mkCell (TStr (name f)) (Some parameter_format)) ∧
       (metadata_skipped mdf key = true ∨ mdf = None →
          ws_cells sheet' !! ((ii + j)%nat, 2%nat) =
            Some (mkCell (TStr "") (Some input_format)))) ∧
  (∀ rule, rule ∈ ws_validations sheet' ↔
     rule ∈ ws_validations sheet ∨
     ∃ j key f, keys !! j = Some key ∧ fd !! key = Some f ∧
       metadata_rules mdf key f (ii + j) [rule]).
Proof.
  induction keys as [|key rest IH]; intros ii sheet sheet'; cbn [metadata_loop length].
  - intros [= <-]. repeat split; try done.
    + auto.
    + intros [?|(j & ? & ? & Hj & _)]; [done|by destruct j].
  - destruct (metadata_row h fd mdf ii key sheet) as [s1|] eqn:Hrow; cbn [rbind];
      [|discriminate].
    intros Hrest.
    destruct (metadata_row_Ok _ _ _ _ _ _ _ Hrow)
      as (f & rules & Hf & Hrules & Hn1 & Hv1 & Hframe1 & Hc0 & Hc1 & Hc2).
    destruct (IH _ _ _ Hrest) as (Hn & Hframe & Hrows & Hval).
    split; [congruence|]. split; [|split].
    + intros r c Hr. rewrite Hframe by lia. apply Hframe1. lia.
    + intros [|j] key' Hj; cbn in Hj.
      * injection Hj as <-. exists f. rewrite Nat.add_0_r.
        rewrite !Hframe by lia. done.
      * destruct (Hrows j key' Hj) as (f' & ? & ? & ? & ?). exists f'.
        replace (ii + S j)%nat with (S ii + j)%nat by lia. done.
    + intros rule. rewrite Hval, Hv1, elem_of_app. split.
      * intros [[Hold|Hnew]|(j & key' & f' & Hj & Hf' & Hr)].
        -- by left.
        -- right. exists 0%nat, key, f. rewrite Nat.add_0_r. split; [done|].
           split; [done|]. revert Hrules Hnew. unfold metadata_rules.
           destruct (metadata_skipped mdf key); [by intros -> ?%elem_of_nil|].
           destruct (truthy (validation f)); [|by intros -> ?%elem_of_nil].
           intros (v & opts & ? & ? & ->) ->%list_elem_of_singleton. eauto.
        -- right. exists (S j), key', f'.
           replace (ii + S j)%nat with (S ii + j)%nat by lia. done.
      * intros [Hold|(j & key' & f' & Hj & Hf' & Hr)]; [by left; left|].
        destruct j as [|j]; cbn in Hj.
        -- injection Hj as <-. rewrite Hf in Hf'. injection Hf' as <-.
           left; right. rewrite Nat.add_0_r in Hr.
           revert Hrules Hr. unfold metadata_rules.
           destruct (metadata_skipped mdf key); [by intros _ ?|].
           destruct (truthy (validation f)); [|by intros _ ?].
           intros (v & opts & Hv & Ho & ->) (v' & opts' & Hv' & Ho' & [= ->]).
           assert (opts' = opts) as -> by congruence. by left.
        -- right. exists j, key', f'.
           replace (S ii + j)%nat with (ii + S j)%nat by lia. done.
Qed.

Lemma write_metadata_Ok h fd mdf ms :
  write_metadata h fd mdf = Ok ms →
  ws_name ms = "Metadata" ∧
  (∀ ii key, metadata_fields !! ii = Some key →
     ∃ f, fd !! key = Some f ∧
       (metadata_skipped mdf key = true ∨ mdf = None →
          ws_cells ms !! (ii, 2%nat) = Some (mkCell (TStr "") (Some input_format)))) ∧
  (∀ rule, rule ∈ ws_validations ms ↔
     ∃ ii key f, metadata_fields !! ii = Some key ∧ fd !! key = Some f ∧
       metadata_rules mdf key f ii [rule]).
Proof.
  unfold write_metadata. intros (Hn & _ & Hrows & Hval)%metadata_loop_spec.
  split; [done|]. split.
  - intros ii key Hkey. destruct (Hrows ii key Hkey) as (f & Hf & _ & _ & Hc).
    exists f. done.
  - intros rule. rewrite Hval. cbn. split.
    + intros [?%elem_of_nil|?]; done.
    + by right.
Qed.

Lemma make_xlsx_inv args file_def fd metadata conversions data mdf h h' wb :
  make_xlsx args file_def fd metadata conversions data mdf h = (h', Ok wb) →
  ∃ meta st,
    (if metadata then ∃ ms, write_metadata h fd mdf = Ok ms ∧ meta = [ms]
     else meta = []) ∧
    data_columns fd 0 (fd_fields file_def) initial_sheets h = (h', Ok st) ∧
    wb = {| wb_sheets :=
              meta ++ [finish_data_sheet file_def (write_data data (data_sheet st));
                       vs_sheet (variable_sheet_obj st)]
                   ++ (if conversions then [write_conversion] else []);
            wb_font_name := DEFAULT_FONT;
            wb_font_size := DEFAULT_SIZE;
            wb_closed := true |}.
Proof.
  unfold make_xlsx, mbind, mret. fold initial_sheets.
  destruct metadata.
  - destruct (write_metadata h fd mdf) as [ms|] eqn:Hms; cbn [rbind]; [|discriminate].
    destruct (data_columns fd 0 (fd_fields file_def) initial_sheets h)
      as [h1 [st|]] eqn:Hcols; [|discriminate].
    intros [= <- <-]. exists [ms], st. eauto.
  - destruct (data_columns fd 0 (fd_fields file_def) initial_sheets h)
      as [h1 [st|]] eqn:Hcols; [|discriminate].
    intros [= <- <-]. by exists [], st.
Qed.

Lemma data_columns_initial_names fd keys h h' st :
  data_columns fd 0 keys initial_sheets h = (h', Ok st) →
  ws_name (data_sheet st) = "Data" ∧
  ws_name (vs_sheet (variable_sheet_obj st)) = "Variables" ∧
  ws_hidden (vs_sheet (variable_sheet_obj st)) = true.
Proof.
  intros Hcols.
  destruct (data_columns_data _ _ _ _ _ _ _ Hcols) as (Hn & _).
  destruct (data_columns_vars _ _ _ _ _ _ _ Hcols) as (_ & _ & Hvn & Hvh & _); [done|].
  done.
Qed.

Lemma make_xlsx_sheets args file_def fd metadata conversions data mdf h h' wb :
  make_xlsx args file_def fd metadata conversions data mdf h = (h', Ok wb) →
  ∃ st, data_columns fd 0 (fd_fields file_def) initial_sheets h = (h', Ok st) ∧
    wb_closed wb = true ∧
    sheet_named "Data" wb =
      Some (finish_data_sheet file_def (write_data data (data_sheet st))) ∧
    sheet_named "Variables" wb = Some (vs_sheet (variable_sheet_obj st)) ∧
    (∀ ms, sheet_named "Metadata" wb = Some ms →
           metadata = true ∧ write_metadata h fd mdf = Ok ms) ∧
    (metadata = true → ∃ ms, sheet_named "Metadata" wb = Some ms).
Proof.
  intros (meta & st & Hmeta & Hcols & ->)%make_xlsx_inv. exists st.
  destruct (data_columns_initial_names _ _ _ _ _ Hcols) as (Hdn & Hvn & _).
  destruct (finish_data_sheet_spec file_def (write_data data (data_sheet st)))
    as (Hfn & _).
  destruct (write_data_spec data (data_sheet st)) as (Hwn & _).
  assert (ws_name (finish_data_sheet file_def (write_data data (data_sheet st))) = "Data")
    as Hname by congruence.
  split; [done|]. split; [done|].
  unfold sheet_named. cbn [wb_sheets].
  destruct metadata.
  - destruct Hmeta as (ms & Hms & ->).
    destruct (write_metadata_Ok _ _ _ _ Hms) as (Hmn & _).
    cbn [app List.find]. rewrite Hmn, Hname, Hvn. cbn.
    split; [done|]. split; [done|]. split; [by intros ms' [= <-]|eauto].
  - subst meta. cbn [app List.find]. rewrite Hname, Hvn. cbn.
    split; [done|]. split; [done|]. split; [|done].
    destruct conversions; cbn; discriminate.
Qed.

Lemma make_xlsx_data_sheet args file_def fd metadata conversions data mdf h h' wb :
  make_xlsx args file_def fd metadata conversions data mdf h = (h', Ok wb) →
  ∃ st ds, data_columns fd 0 (fd_fields file_def) initial_sheets h = (h', Ok st) ∧
    sheet_named "Data" wb = Some ds ∧
    sheet_named "Variables" wb = Some (vs_sheet (variable_sheet_obj st)) ∧
    ds = finish_data_sheet file_def (write_data data (data_sheet st)) ∧
    ws_validations ds = ws_validations (data_sheet st) ∧
    ws_rows ds !! parameter_row = Some (mkRow None None true) ∧
    (∀ r c, (0 < r)%nat → (r < start_row)%nat →
       ws_cells ds !! (r, c) = ws_cells (data_sheet st) !! (r, c)).
Proof.
  intros (st & Hcols & _ & Hds & Hvs & _)%make_xlsx_sheets.
  exists st, (finish_data_sheet file_def (write_data data (data_sheet st))).
  destruct (finish_data_sheet_spec file_def (write_data data (data_sheet st)))
    as (_ & Hfv & Hrow & _ & Hfc).
  destruct (write_data_spec data (data_sheet st)) as (_ & _ & Hwv & Hwc).
  split; [done|]. split; [done|]. split; [done|]. split; [done|].
  split; [congruence|]. split; [done|].
  intros r c H0 Hr. rewrite Hfc, Hwc; [done|done|]. intros [= -> _]. lia.
Qed.

Lemma data_columns_options fd keys : ∀ ii st h h' st',
  data_columns fd ii keys st h = (h', Ok st') →
  ∀ j key f v, keys !! j = Some key → fd !! key = Some f → validation f = Some v →
    ∃ opts, installed_options f v opts.
Proof.
  induction keys as [|key0 rest IH]; intros ii st h h' st' Hcols j key f v Hj Hf Hv;
    [done|].
  apply data_columns_cons in Hcols as (h1 & st1 & Hstep & Hrest).
  destruct j as [|j]; cbn in Hj; [|by eapply IH].
  injection Hj as ->.
  destruct (data_column_data _ _ _ _ _ _ _ Hstep) as (f' & rules & Hf' & Hrules & _).
  rewrite Hf in Hf'. injection Hf' as <-.
  unfold installed_rules in Hrules. rewrite Hv in Hrules.
  destruct Hrules as (opts & Hopts & _). by exists opts.
Qed.

Lemma installed_options_unique f v opts opts' :
  installed_options f v opts → installed_options f v opts' → opts = opts'.
Proof.
  unfold installed_options. destruct (long_list f); [congruence|].
  intros (v1 & ? & ?) (v1' & ? & ?). congruence.
Qed.

(** The rule of data column [i], when the field has a validation. *)
Lemma data_column_rule fd keys h h' st i key f v :
  data_columns fd 0 keys initial_sheets h = (h', Ok st) →
  keys !! i = Some key → fd !! key = Some f → validation f = Some v →
  ∃ opts, installed_options f v opts ∧
    mkRule start_row i end_row i opts ∈ ws_validations (data_sheet st) ∧
    (∀ rule, rule ∈ ws_validations (data_sheet st) → dv_first_col rule = i →
             rule = mkRule start_row i end_row i opts).
Proof.
  intros Hcols Hi Hf Hv.
  destruct (data_columns_options _ _ _ _ _ _ _ Hcols _ _ _ _ Hi Hf Hv) as (opts & Hopts).
  destruct (data_columns_data _ _ _ _ _ _ _ Hcols) as (_ & _ & _ & _ & Hrules).
  exists opts. split; [done|]. split.
  - apply Hrules. right. by exists i, key, f, v, opts.
  - intros rule [Hin|(j & key' & f' & v' & opts' & Hj & Hf' & Hv' & Ho' & ->)]%Hrules Hcol.
    + by apply elem_of_nil in Hin.
    + cbn in Hcol. subst j. rewrite Hi in Hj. injection Hj as <-.
      rewrite Hf in Hf'. injection Hf' as <-. rewrite Hv in Hv'. injection Hv' as <-.
      cbn. f_equal. by eapply installed_options_unique.
Qed.

Lemma run_ok (run : heap * result workbook) :
  is_ok run.2 = true → run = (run.1, Ok (workbook_of run)).
Proof. unfold workbook_of. destruct run as [h [wb|e]]; cbn; [done|discriminate]. Qed.

(** ** The Data sheet's header rows *)

(** C4. After a run that ends normally, column [i] of the Data sheet holds
    in row 1 the display name and in row 2 the [name] attribute of the
    field the catalog has for the [i]-th entry of the field list; the two
    rows hold nothing beyond the last listed field, so the columns are the
    listed fields in their order, none left out and none added; row 2 is
    set hidden. *)
Theorem data_sheet_headers args file_def fd metadata conversions data mdf h h' wb :
  make_xlsx args file_def fd metadata conversions data mdf h = (h', Ok wb) →
  ∃ ds, sheet_named "Data" wb = Some ds ∧
    (∀ i key, fd_fields file_def !! i = Some key →
       ∃ f, fd !! key = Some f ∧
         cell_at ds title_row i =
           Some (mkCell (TStr (disp_name f)) (Some field_format)) ∧
         cell_at ds parameter_row i = Some (mkCell (TStr (name f)) None)) ∧
    (∀ i, (length (fd_fields file_def) ≤ i)%nat →
       cell_at ds title_row i = None ∧ cell_at ds parameter_row i = None) ∧
    ws_rows ds !! parameter_row = Some (mkRow None None true).
Proof.
  intros (st & ds & Hcols & Hds & _ & _ & _ & Hrow & Hcells)%make_xlsx_data_sheet.
  destruct (data_columns_data _ _ _ _ _ _ _ Hcols) as (_ & _ & Hhead & Hframe & _).
  exists ds. split; [done|]. unfold cell_at. split; [|split; [|done]].
  - intros i key Hi. destruct (Hhead i key Hi) as (f & Hf & Ht & Hp).
    exists f. rewrite !Hcells by (unfold title_row, parameter_row, start_row; lia).
    done.
  - intros i Hi. rewrite !Hcells by (unfold title_row, parameter_row, start_row; lia).
    rewrite !Hframe by (right; right; lia). done.
Qed.

Lemma data_sheet_headers_witness :
  ∃ ds, sheet_named "Data" (workbook_of sample_run) = Some ds ∧
    cell_at ds 1 0 = Some (mkCell (TStr "Habitat") (Some field_format)) ∧
    cell_at ds 2 1 = Some (mkCell (TStr "gearType") None) ∧
    cell_at ds 1 2 = None.
Proof.
  destruct (data_sheet_headers sample_args sample_file sample_catalog true true
              (Some sample_data) (Some sample_metadata) sample_heap
              sample_run.1 (workbook_of sample_run))
    as (ds & Hds & Hcols & Hrest & _).
  { apply (run_ok sample_run). vm_compute. reflexivity. }
  exists ds. split; [exact Hds|].
  destruct (Hcols 0%nat "habitat" eq_refl) as (f0 & Hf0 & Ht0 & _).
  destruct (Hcols 1%nat "gearType" eq_refl) as (f1 & Hf1 & _ & Hp1).
  vm_compute in Hf0, Hf1. injection Hf0 as <-. injection Hf1 as <-.
  destruct (Hrest 2%nat) as [Hn _]; [cbn; lia|].
  split; [exact Ht0|]. split; [exact Hp1|exact Hn].
Defined.

(** ** The Variables sheet *)

(** C2, as the code has it.  Every run that ends normally has a hidden
    sheet named Variables, whether or not a field has [long_list] set; its
    cells lie in the columns taken by the listed fields that have a
    validation and [long_list] set, so without such a field it is empty. *)
Theorem variables_sheet_always args file_def fd metadata conversions data mdf h h' wb :
  make_xlsx args file_def fd metadata conversions data mdf h = (h', Ok wb) →
  ∃ vs, sheet_named "Variables" wb = Some vs ∧
    ws_name vs = "Variables" ∧ ws_hidden vs = true ∧
    (∀ r c, (aux_column fd (fd_fields file_def) (length (fd_fields file_def)) ≤ c)%nat →
       cell_at vs r c = None).
Proof.
  intros (st & Hcols & _ & _ & Hvs & _)%make_xlsx_sheets.
  destruct (data_columns_initial_names _ _ _ _ _ Hcols) as (_ & Hn & Hh).
  destruct (data_columns_vars _ _ _ _ _ _ _ Hcols) as (Hfresh & Hcur & _); [done|].
  exists (vs_sheet (variable_sheet_obj st)). repeat split; try done.
  intros r c Hc. apply Hfresh. rewrite Hcur. cbn. lia.
Qed.

Lemma variables_sheet_always_witness :
  ∃ vs, sheet_named "Variables" (workbook_of empty_run) = Some vs ∧
    ws_hidden vs = true ∧ cell_at vs 0 0 = None.
Proof.
  destruct (variables_sheet_always sample_args empty_file sample_catalog false false
              None None sample_heap empty_run.1 (workbook_of empty_run))
    as (vs & Hvs & _ & Hh & Hempty).
  { apply (run_ok empty_run). vm_compute. reflexivity. }
  exists vs. split; [exact Hvs|]. split; [exact Hh|].
  apply Hempty. cbn. lia.
Defined.

(** C2, as the claim states it, fails: a run over an empty field list has
    a Variables sheet although no field has [long_list] set. *)
Lemma variables_sheet_iff_long_list_counterexample :
  ¬ (∀ args file_def fd metadata conversions data mdf h h' wb,
       make_xlsx args file_def fd metadata conversions data mdf h = (h', Ok wb) →
       (is_Some (sheet_named "Variables" wb) ↔
        ∃ key f, key ∈ fd_fields file_def ∧ fd !! key = Some f ∧ long_list f = true)).
Proof.
  intros Hclaim.
  destruct (Hclaim sample_args empty_file sample_catalog false false None None
              sample_heap empty_run.1 (workbook_of empty_run)) as [Hlong _].
  { apply (run_ok empty_run). vm_compute. reflexivity. }
  destruct Hlong as (key & f & Hin & _).
  - vm_compute. eauto.
  - cbn in Hin. by apply elem_of_nil in Hin.
Qed.

(** C3. After a run that ends normally, a listed field with a validation
    and [long_list] set has a column of its own on the Variables sheet.
    The cells from row 1 down hold the items of the validation's [source]
    sorted by lower-cased value: a permutation of the source, in ascending
    case-insensitive order, the items of one lower-cased value in their
    source order.  The column is registered as a table, and the one rule
    installed on the field's data column is the validation without
    [source] and with [value] set to the formula made of [=INDIRECT(], a
    double quote (the character of code 34), the table's name, a double
    quote and [)].  The table's name has no space in it; for a field name
    whose capitalized form is a string of the model ([title_fits]) it is
    [Table_] followed by the name with spaces replaced by underscores and
    capitalized. *)
Theorem long_list_column args file_def fd metadata conversions data mdf h h' wb :
  make_xlsx args file_def fd metadata conversions data mdf h = (h', Ok wb) →
  ∃ ds vs, sheet_named "Data" wb = Some ds ∧ sheet_named "Variables" wb = Some vs ∧
    ∀ i key f v, fd_fields file_def !! i = Some key → fd !! key = Some f →
      validation f = Some v → long_list f = true →
      ∃ src items nm, v !! "source" = Some src ∧ py_iter src = Ok items ∧
        (∀ l, src = VList l → items = l) ∧
        let col := aux_column fd (fd_fields file_def) i in
        let quote := ascii_of_nat 34 in
        let formula := "=INDIRECT(" +:+ String quote (nm +:+ String quote ")") in
        (∀ r, cell_at vs (S r) col =
              (fun p => mkCell (TStr p) None) <$> sorted_lower items !! r) ∧
        Permutation (sorted_lower items) items ∧
        StronglySorted (fun a b => String.leb (lower a) (lower b) = true)
                       (sorted_lower items) ∧
        (∀ k, List.filter (fun y => String.eqb (lower y) k) (sorted_lower items) =
              List.filter (fun y => String.eqb (lower y) k) items) ∧
        has_char " " nm = false ∧
        (title_fits (name f) = true →
         nm = "Table_" +:+ capitalize (replace_space (name f))) ∧
        mkTable 1 col (1 + length items) col nm 0 ∈ ws_tables vs ∧
        ∃ rule, rule ∈ ws_validations ds ∧
          (∀ rule', rule' ∈ ws_validations ds → dv_first_col rule' = i → rule' = rule) ∧
          dv_first_col rule = i ∧ dv_last_col rule = i ∧
          dv_first_row rule = start_row ∧ dv_last_row rule = end_row ∧
          dv_options rule = <["value" := VStr formula]> (delete "source" v) ∧
          dv_options rule !! "source" = None ∧
          dv_options rule !! "value" = Some (VStr formula).
Proof.
  intros (st & ds & Hcols & Hds & Hvs & _ & Hval & _)%make_xlsx_data_sheet.
  exists ds, (vs_sheet (variable_sheet_obj st)). split; [done|]. split; [done|].
  intros i key f v Hi Hf Hv Hlong.
  destruct (data_columns_vars _ _ _ _ _ _ _ Hcols) as (_ & _ & _ & _ & _ & _ & Hcol);
    [done|].
  destruct (Hcol i key f v Hi Hf Hv Hlong) as (src & items & Hsrc & Hiter & _ & Hcells & Htab).
  exists src, items, (table_name (name f)). split; [done|]. split; [done|]. split.
  { intros l ->. cbn in Hiter. by injection Hiter as <-. }
  cbn zeta. split; [exact Hcells|]. split; [apply sorted_lower_perm|].
  split; [apply sorted_lower_sorted|]. split; [intros k; apply sorted_lower_stable|].
  split; [apply table_name_no_space|]. split; [done|]. split; [exact Htab|].
  destruct (data_column_rule _ _ _ _ _ _ _ _ _ Hcols Hi Hf Hv) as (opts & Hopts & Hin & Huniq).
  unfold installed_options in Hopts. rewrite Hlong in Hopts. subst opts.
  eexists. rewrite Hval. split; [exact Hin|]. split; [exact Huniq|].
  cbn [dv_first_col dv_last_col dv_first_row dv_last_row dv_options].
  repeat split.
  - rewrite lookup_insert_ne by done. apply lookup_delete_eq.
  - apply lookup_insert_eq.
Qed.

Lemma long_list_column_witness :
  ∃ ds vs rule formula,
    sheet_named "Data" (workbook_of spaced_run) = Some ds ∧
    sheet_named "Variables" (workbook_of spaced_run) = Some vs ∧
    cell_at vs 1 0 = Some (mkCell (TStr "A") None) ∧
    cell_at vs 2 0 = Some (mkCell (TStr "a") None) ∧
    cell_at vs 3 0 = Some (mkCell (TStr "b") None) ∧
    cell_at vs 4 0 = Some (mkCell (TStr (String (ascii_of_nat 229) "a")) None) ∧
    cell_at vs 5 0 = Some (mkCell (TStr (String (ascii_of_nat 197) "b")) None) ∧
    cell_at vs 6 0 = None ∧
    mkTable 1 0 6 0 "Table_Bottom_type" 0 ∈ ws_tables vs ∧
    rule ∈ ws_validations ds ∧ dv_first_col rule = 1%nat ∧
    dv_options rule !! "source" = None ∧
    dv_options rule !! "value" = Some (VStr formula) ∧
    nat_of_ascii <$> list_ascii_of_string formula =
      [61; 73; 78; 68; 73; 82; 69; 67; 84; 40; 34;
       84; 97; 98; 108; 101; 95; 66; 111; 116; 116; 111; 109; 95; 116; 121; 112; 101;
       34; 41]%nat.
Proof.
  destruct (long_list_column sample_args spaced_file spaced_catalog false false
              None None sample_heap spaced_run.1 (workbook_of spaced_run))
    as (ds & vs & Hds & Hvs & Hcol).
  { apply (run_ok spaced_run). vm_compute. reflexivity. }
  destruct (Hcol 1%nat "bottom Type" bottom_type bottom_rule eq_refl eq_refl eq_refl eq_refl)
    as (src & items & nm & Hsrc & Hiter & Hlist & Hcells & _ & _ & _ & _ & Hnm & Htab &
        rule & Hin & _ & Hfc & _ & _ & _ & _ & Hnosrc & Hvalue).
  vm_compute in Hsrc. injection Hsrc as <-.
  rewrite (Hlist _ eq_refl) in Hcells, Htab. rewrite (Hnm eq_refl) in Htab, Hvalue.
  exists ds, vs, rule. eexists. split; [exact Hds|]. split; [exact Hvs|].
  split; [exact (Hcells 0%nat)|]. split; [exact (Hcells 1%nat)|].
  split; [exact (Hcells 2%nat)|]. split; [exact (Hcells 3%nat)|].
  split; [exact (Hcells 4%nat)|]. split; [exact (Hcells 5%nat)|].
  split; [exact Htab|]. split; [exact Hin|]. split; [exact Hfc|].
  split; [exact Hnosrc|]. split; [exact Hvalue|]. reflexivity.
Defined.

(** ** Prompt and title limits *)

Lemma truncate_message_long v v1 m :
  truncate_message v = Ok v1 → v !! "input_message" = Some (VStr m) →
  (255 < String.length m)%nat →
  v1 = <["input_message" := VStr (substring 0 252 m +:+ "...")]> v.
Proof.
  unfold truncate_message, getitem. intros Htr Hm Hlen. rewrite Hm in Htr.
  cbn [rbind py_len] in Htr. apply Nat.ltb_lt in Hlen. rewrite Hlen in Htr.
  cbn [rbind slice_to add_str] in Htr. congruence.
Qed.

Lemma truncate_message_other v v1 k :
  truncate_message v = Ok v1 → k ≠ "input_message" → v1 !! k = v !! k.
Proof.
  unfold truncate_message, getitem. intros Htr Hk.
  destruct (v !! "input_message") as [m|]; [|discriminate]. cbn [rbind] in Htr.
  destruct (py_len m) as [n|]; [|discriminate]. cbn [rbind] in Htr.
  destruct (255 <? n)%nat; [|congruence].
  destruct (slice_to 252 m) as [cut|]; [|discriminate]. cbn [rbind] in Htr.
  destruct (add_str cut "...") as [m'|]; [|discriminate]. cbn [rbind] in Htr.
  injection Htr as <-. by rewrite lookup_insert_ne.
Qed.

Lemma truncate_title_long v1 opts t :
  truncate_title v1 = Ok opts → v1 !! "input_title" = Some (VStr t) →
  (32 < String.length t)%nat →
  opts = <["input_title" := VStr (substring 0 32 t)]> v1.
Proof.
  unfold truncate_title, getitem. intros Htr Ht Hlen. rewrite Ht in Htr.
  cbn [rbind py_len] in Htr. apply Nat.ltb_lt in Hlen. rewrite Hlen in Htr.
  cbn [rbind slice_to] in Htr. congruence.
Qed.

Lemma truncate_title_other v1 opts k :
  truncate_title v1 = Ok opts → k ≠ "input_title" → opts !! k = v1 !! k.
Proof.
  unfold truncate_title, getitem. intros Htr Hk.
  destruct (v1 !! "input_title") as [t|]; [|discriminate]. cbn [rbind] in Htr.
  destruct (py_len t) as [n|]; [|discriminate]. cbn [rbind] in Htr.
  destruct (32 <? n)%nat; [|congruence].
  destruct (slice_to 32 t) as [t'|]; [|discriminate]. cbn [rbind] in Htr.
  injection Htr as <-. by rewrite lookup_insert_ne.
Qed.

(** The cut prompt is 255 characters long and starts as the original. *)
Lemma truncated_prompt_length m :
  (255 < String.length m)%nat →
  String.length (substring 0 252 m +:+ "...") = 255%nat ∧
  String.prefix (substring 0 252 m) m = true.
Proof.
  intros Hlen. split; [|apply substring_0_prefix].
  rewrite length_append, length_substring_0.
  change (String.length "...") with 3%nat. lia.
Qed.

(** C5. After a run that ends normally: every rule on the Metadata sheet
    sits on the value cell (column 2) of the row of one of the ten keys,
    and when that field's prompt is longer than 255 characters the rule is
    the field's validation with the prompt replaced by its first 252
    characters followed by three dots; such a rule is there for every key
    whose field has a non-empty validation and whose pass was not cut
    short.  On the Data sheet, a listed field with a validation and
    [long_list] unset has one rule on its column; its prompt, when longer
    than 255 characters, is the first 252 characters followed by three
    dots, and its title, when longer than 32 characters, is the first 32
    characters. *)
Theorem prompt_truncated args file_def fd metadata conversions data mdf h h' wb :
  make_xlsx args file_def fd metadata conversions data mdf h = (h', Ok wb) →
  (∀ ms rule, sheet_named "Metadata" wb = Some ms → rule ∈ ws_validations ms →
     ∃ key f v, metadata_fields !! dv_first_row rule = Some key ∧
       fd !! key = Some f ∧ validation f = Some v ∧
       dv_last_row rule = dv_first_row rule ∧
       dv_first_col rule = 2%nat ∧ dv_last_col rule = 2%nat ∧
       ∀ m, v !! "input_message" = Some (VStr m) → (255 < String.length m)%nat →
         dv_options rule =
           <["input_message" := VStr (substring 0 252 m +:+ "...")]> v) ∧
  (∀ ii key f v, metadata = true → metadata_fields !! ii = Some key →
     fd !! key = Some f → validation f = Some v → v ≠ ∅ →
     metadata_skipped mdf key = false →
     ∃ ms rule, sheet_named "Metadata" wb = Some ms ∧ rule ∈ ws_validations ms ∧
       dv_first_row rule = ii) ∧
  (∃ ds, sheet_named "Data" wb = Some ds ∧
     ∀ i key f v, fd_fields file_def !! i = Some key → fd !! key = Some f →
       validation f = Some v → long_list f = false →
       ∃ rule, rule ∈ ws_validations ds ∧
         (∀ rule', rule' ∈ ws_validations ds → dv_first_col rule' = i → rule' = rule) ∧
         dv_first_col rule = i ∧
         (∀ m, v !! "input_message" = Some (VStr m) → (255 < String.length m)%nat →
            dv_options rule !! "input_message" =
              Some (VStr (substring 0 252 m +:+ "..."))) ∧
         (∀ t, v !! "input_title" = Some (VStr t) → (32 < String.length t)%nat →
            dv_options rule !! "input_title" = Some (VStr (substring 0 32 t)))).
Proof.
  intros Hrun.
  destruct (make_xlsx_sheets _ _ _ _ _ _ _ _ _ _ Hrun)
    as (st0 & _ & _ & _ & _ & Hmeta & Hmeta').
  destruct (make_xlsx_data_sheet _ _ _ _ _ _ _ _ _ _ Hrun)
    as (st & ds & Hcols & Hds & _ & _ & Hval & _).
  split; [|split].
  - intros ms rule Hms Hin. destruct (Hmeta ms Hms) as [_ Hwm].
    destruct (write_metadata_Ok _ _ _ _ Hwm) as (_ & _ & Hrules).
    apply Hrules in Hin as (ii & key & f & Hkey & Hf & Hr).
    unfold metadata_rules in Hr.
    destruct (metadata_skipped mdf key); [discriminate|].
    destruct (truthy (validation f)); [|discriminate].
    destruct Hr as (v & opts & Hv & Hopts & [= ->]). cbn.
    exists key, f, v. repeat split; try done.
    intros m Hm Hlen. by eapply truncate_message_long.
  - intros ii key f v -> Hkey Hf Hv Hne Hskip.
    destruct (Hmeta' eq_refl) as (ms & Hms). destruct (Hmeta ms Hms) as [_ Hwm].
    destruct (write_metadata_Ok _ _ _ _ Hwm) as (_ & Hrows & Hrules).
    assert (∃ opts, truncate_message v = Ok opts) as (opts & Hopts).
    { unfold write_metadata in Hwm. revert Hwm Hkey.
      generalize (set_column 2 2 (Some 50%Z) None false
                    (set_column 0 0 (Some 30%Z) None false (add_worksheet "Metadata"))).
      generalize 0%nat. generalize metadata_fields. clear -Hf Hv Hne Hskip.
      intros keys. revert ii.
      induction keys as [|key0 rest IH]; intros ii n sheet Hloop Hkey; [done|].
      cbn [metadata_loop] in Hloop.
      destruct (metadata_row h fd mdf n key0 sheet) as [s1|] eqn:Hrow; [|discriminate].
      cbn [rbind] in Hloop. destruct ii as [|ii]; cbn in Hkey; [|by eapply IH].
      injection Hkey as ->.
      apply metadata_row_Ok in Hrow as (f' & rules & Hf' & Hr & _).
      rewrite Hf in Hf'. injection Hf' as <-. unfold metadata_rules in Hr.
      rewrite Hskip, Hv in Hr. cbn in Hr. rewrite bool_decide_eq_false_2 in Hr by done.
      cbn in Hr. destruct Hr as (v' & opts & [= <-] & Hopts & _). eauto. }
    exists ms, (mkRule ii 2 ii 2 opts). split; [done|]. split; [|done].
    apply Hrules. exists ii, key, f. split; [done|]. split; [done|].
    unfold metadata_rules. rewrite Hskip, Hv. cbn.
    rewrite bool_decide_eq_false_2 by done. cbn. eauto.
  - exists ds. split; [done|]. intros i key f v Hi Hf Hv Hshort.
    destruct (data_column_rule _ _ _ _ _ _ _ _ _ Hcols Hi Hf Hv)
      as (opts & Hopts & Hin & Huniq).
    unfold installed_options in Hopts. rewrite Hshort in Hopts.
    destruct Hopts as (v1 & Hv1 & Hopts).
    eexists. rewrite Hval. split; [exact Hin|]. split; [exact Huniq|].
    cbn [dv_first_col dv_options]. split; [done|]. split.
    + intros m Hm Hlen. rewrite (truncate_title_other _ _ _ Hopts) by done.
      rewrite (truncate_message_long _ _ _ Hv1 Hm Hlen). apply lookup_insert_eq.
    + intros t Ht Hlen.
      assert (v1 !! "input_title" = Some (VStr t)) as Ht1.
      { by rewrite (truncate_message_other _ _ _ Hv1). }
      rewrite (truncate_title_long _ _ _ Hopts Ht1 Hlen). apply lookup_insert_eq.
Qed.

Lemma prompt_truncated_witness :
  ∃ ms ds mrule drule,
    sheet_named "Metadata" (workbook_of prompt_run) = Some ms ∧
    sheet_named "Data" (workbook_of prompt_run) = Some ds ∧
    mrule ∈ ws_validations ms ∧ dv_first_row mrule = 0%nat ∧
    dv_options mrule !! "input_message" =
      Some (VStr (repeat_char "p" 252 +:+ "...")) ∧
    drule ∈ ws_validations ds ∧ dv_first_col drule = 1%nat ∧
    dv_options drule !! "input_message" =
      Some (VStr (repeat_char "p" 252 +:+ "...")) ∧
    dv_options drule !! "input_title" = Some (VStr (repeat_char "t" 32)).
Proof.
  destruct (prompt_truncated sample_args sample_file prompt_catalog true true
              None None sample_heap prompt_run.1 (workbook_of prompt_run))
    as (Hmeta & Hmeta' & ds & Hds & Hdata).
  { apply (run_ok prompt_run). vm_compute. reflexivity. }
  destruct (Hmeta' 0%nat "title" title_field habitat_rule eq_refl eq_refl eq_refl eq_refl)
    as (ms & mrule & Hms & Hin & Hrow).
  { intros Hempty. apply (f_equal (fun d : dict => d !! "validate")) in Hempty.
    vm_compute in Hempty. discriminate Hempty. }
  { reflexivity. }
  destruct (Hmeta ms mrule Hms Hin) as (key & f & v & Hkey & Hf & Hv & _ & _ & _ & Hopts).
  rewrite Hrow in Hkey. injection Hkey as <-.
  vm_compute in Hf. injection Hf as <-. injection Hv as <-.
  destruct (Hdata 1%nat "gearType" gear habitat_rule eq_refl eq_refl eq_refl eq_refl)
    as (drule & Hdin & _ & Hcol & Hmsg & Htitle).
  exists ms, ds, mrule, drule.
  split; [exact Hms|]. split; [exact Hds|]. split; [exact Hin|]. split; [exact Hrow|].
  split.
  { rewrite (Hopts long_prompt); [apply lookup_insert_eq|reflexivity|vm_compute; lia]. }
  split; [exact Hdin|]. split; [exact Hcol|]. split.
  - apply (Hmsg long_prompt); [reflexivity|vm_compute; lia].
  - apply (Htitle long_title); [reflexivity|vm_compute; lia].
Defined.

(** C10. After a run that ends normally, the one rule on the data column
    of a listed field with a validation and [long_list] set carries the
    validation's [input_message] and [input_title] as they are: the
    long-list branch cuts neither. *)
Theorem long_list_prompt_kept args file_def fd metadata conversions data mdf h h' wb :
  make_xlsx args file_def fd metadata conversions data mdf h = (h', Ok wb) →
  ∃ ds, sheet_named "Data" wb = Some ds ∧
    ∀ i key f v, fd_fields file_def !! i = Some key → fd !! key = Some f →
      validation f = Some v → long_list f = true →
      ∃ rule, rule ∈ ws_validations ds ∧
        (∀ rule', rule' ∈ ws_validations ds → dv_first_col rule' = i → rule' = rule) ∧
        dv_first_col rule = i ∧
        dv_options rule !! "input_message" = v !! "input_message" ∧
        dv_options rule !! "input_title" = v !! "input_title".
Proof.
  intros (st & ds & Hcols & Hds & _ & _ & Hval & _)%make_xlsx_data_sheet.
  exists ds. split; [done|]. intros i key f v Hi Hf Hv Hlong.
  destruct (data_column_rule _ _ _ _ _ _ _ _ _ Hcols Hi Hf Hv)
    as (opts & Hopts & Hin & Huniq).
  unfold installed_options in Hopts. rewrite Hlong in Hopts. subst opts.
  eexists. rewrite Hval. split; [exact Hin|]. split; [exact Huniq|].
  cbn [dv_first_col dv_options]. split; [done|].
  by rewrite !lookup_insert_ne, !lookup_delete_ne.
Qed.

Lemma long_list_prompt_kept_witness :
  ∃ ds rule, sheet_named "Data" (workbook_of sample_run) = Some ds ∧
    rule ∈ ws_validations ds ∧ dv_first_col rule = 0%nat ∧
    dv_options rule !! "input_message" = Some (VStr long_prompt) ∧
    String.length long_prompt = 300%nat ∧
    dv_options rule !! "input_title" = Some (VStr long_title) ∧
    String.length long_title = 40%nat.
Proof.
  destruct (long_list_prompt_kept sample_args sample_file sample_catalog true true
              (Some sample_data) (Some sample_metadata) sample_heap
              sample_run.1 (workbook_of sample_run))
    as (ds & Hds & Hcol).
  { apply (run_ok sample_run). vm_compute. reflexivity. }
  destruct (Hcol 0%nat "habitat" habitat habitat_rule eq_refl eq_refl eq_refl eq_refl)
    as (rule & Hin & _ & Hfc & Hmsg & Htitle).
  exists ds, rule. split; [exact Hds|]. split; [exact Hin|]. split; [exact Hfc|].
  split; [exact Hmsg|]. split; [reflexivity|]. split; [exact Htitle|reflexivity].
Defined.

(** ** The store *)

Lemma make_xlsx_heap args file_def fd metadata conversions data mdf h h' r :
  make_xlsx args file_def fd metadata conversions data mdf h = (h', r) →
  heap_filled h h' ∧
  (∀ l, (∀ key f, key ∈ fd_fields file_def → fd !! key = Some f →
                  cell_format f ≠ Some l) → h' !! l = h !! l).
Proof.
  unfold make_xlsx, mbind, mret. fold initial_sheets.
  destruct (if metadata then _ else _) as [meta|e].
  - destruct (data_columns fd 0 (fd_fields file_def) initial_sheets h)
      as [h1 [st|e]] eqn:Hcols; intros [= <- <-]; by eapply data_columns_heap.
  - intros [= <- <-]. split; [apply heap_filled_refl|done].
Qed.

(** C6, as the code has it.  Whatever the outcome of a run, every
    dictionary of the store keeps the entries it had; an entry that was
    absent stays absent or is the default [font_name] or [font_size]; and
    a dictionary to which no listed field's [cell_format] refers is
    untouched.  When the run ends normally, the format dictionary of every
    listed field has both font entries.  ([make_xlsx] assigns no attribute
    of a Field: the catalog is an argument that it only reads.) *)
Theorem make_xlsx_store args file_def fd metadata conversions data mdf h h' r :
  make_xlsx args file_def fd metadata conversions data mdf h = (h', r) →
  (∀ l k v, deref h l !! k = Some v → deref h' l !! k = Some v) ∧
  (∀ l k, deref h l !! k = None →
     deref h' l !! k = None ∨
     (k = "font_name" ∧ deref h' l !! k = Some (VStr DEFAULT_FONT)) ∨
     (k = "font_size" ∧ deref h' l !! k = Some (VInt DEFAULT_SIZE))) ∧
  (∀ l, (∀ key f, key ∈ fd_fields file_def → fd !! key = Some f →
                  cell_format f ≠ Some l) → h' !! l = h !! l) ∧
  (is_ok r = true →
   ∀ key f l, key ∈ fd_fields file_def → fd !! key = Some f → cell_format f = Some l →
     is_Some (deref h' l !! "font_name") ∧ is_Some (deref h' l !! "font_size")).
Proof.
  intros Hrun. destruct (make_xlsx_heap _ _ _ _ _ _ _ _ _ _ Hrun) as [Hfill Hframe].
  split; [|split; [|split; [done|]]].
  - intros l k v Hk. destruct (Hfill l k) as [->|(Hn & _)]; [done|congruence].
  - intros l k Hk. destruct (Hfill l k) as [->|(_ & [?|?])]; auto.
  - destruct r as [wb|e]; [intros _|discriminate].
    apply make_xlsx_inv in Hrun as (meta & st & _ & Hcols & _).
    intros key f l Hin Hf Hl. by eapply data_columns_fonts.
Qed.

Lemma make_xlsx_store_witness :
  deref sample_run.1 default_cell_format !! "font_name" = Some (VStr "Calibri") ∧
  deref sample_run.1 default_cell_format !! "bold" = None ∧
  sample_run.1 !! 7%nat = None.
Proof.
  destruct (make_xlsx_store sample_args sample_file sample_catalog true true
              (Some sample_data) (Some sample_metadata) sample_heap
              sample_run.1 sample_run.2)
    as (_ & Hnew & Hframe & _).
  { unfold sample_run. by destruct (make_xlsx _ _ _ _ _ _ _ _). }
  split; [vm_compute; reflexivity|]. split.
  - destruct (Hnew default_cell_format "bold" eq_refl) as [Hb|[[Hb _]|[Hb _]]];
      [exact Hb|discriminate Hb|discriminate Hb].
  - rewrite Hframe; [reflexivity|].
    intros key f Hin Hf. apply list_elem_of_In in Hin.
    destruct Hin as [<-|[<-|[]]]; vm_compute in Hf; injection Hf as <-; discriminate.
Defined.

(** C6, as the claim states it, fails: the run writes the two font
    defaults into the format dictionary of the listed fields. *)
Lemma make_xlsx_leaves_fields_counterexample :
  ¬ (∀ args file_def fd metadata conversions data mdf h h' r,
       make_xlsx args file_def fd metadata conversions data mdf h = (h', r) →
       ∀ key f l, fd !! key = Some f → cell_format f = Some l →
         deref h' l = deref h l).
Proof.
  intros Hclaim.
  pose proof (Hclaim sample_args sample_file sample_catalog true true
                (Some sample_data) (Some sample_metadata) sample_heap
                sample_run.1 sample_run.2) as Hsame.
  specialize (Hsame ltac:(unfold sample_run; by destruct (make_xlsx _ _ _ _ _ _ _ _))
                "habitat" habitat default_cell_format eq_refl eq_refl).
  apply (f_equal (fun d : dict => d !! "font_name")) in Hsame.
  vm_compute in Hsame. discriminate Hsame.
Qed.

(** ** Metadata values *)

(** C8. When the lookup [metadata_df[key][0]] fails, the pass of the
    metadata loop for [key] writes the empty string with the input format
    in column 2 of its row and ends normally, so the loop goes on with the
    keys that follow; and after a run that ends normally the value cell of
    that key's row on the Metadata sheet holds the empty string. *)
Theorem metadata_missing_key_blank h fd df key e :
  metadata_lookup df key = Raise e →
  (∀ ii sheet f, fd !! key = Some f →
     ∃ sheet', metadata_row h fd (Some df) ii key sheet = Ok sheet' ∧
       cell_at sheet' ii 2 = Some (mkCell (TStr "") (Some input_format)) ∧
       ∀ rest, metadata_loop h fd (Some df) ii (key :: rest) sheet =
               metadata_loop h fd (Some df) (S ii) rest sheet') ∧
  (∀ args file_def conversions data h' wb ii,
     make_xlsx args file_def fd true conversions data (Some df) h = (h', Ok wb) →
     metadata_fields !! ii = Some key →
     ∃ ms, sheet_named "Metadata" wb = Some ms ∧
       cell_at ms ii 2 = Some (mkCell (TStr "") (Some input_format))).
Proof.
  intros Hlookup.
  assert (metadata_skipped (Some df) key = true) as Hskip.
  { unfold metadata_skipped. by rewrite Hlookup. }
  split.
  - intros ii sheet f Hf.
    assert (∃ sheet', metadata_row h fd (Some df) ii key sheet = Ok sheet')
      as (sheet' & Hrow).
    { unfold metadata_row, lookup_field, metadata_value. rewrite Hf, Hlookup.
      cbn. eauto. }
    exists sheet'. split; [done|]. split.
    + apply metadata_row_Ok in Hrow as (_ & _ & _ & _ & _ & _ & _ & _ & _ & Hcell).
      apply Hcell. by left.
    + intros rest. cbn [metadata_loop]. by rewrite Hrow.
  - intros args file_def conversions data h' wb ii Hrun Hkey.
    destruct (make_xlsx_sheets _ _ _ _ _ _ _ _ _ _ Hrun)
      as (st0 & _ & _ & _ & _ & Hm & Hm').
    destruct (Hm' eq_refl) as (ms & Hms). exists ms. split; [done|].
    destruct (Hm ms Hms) as [_ Hwm].
    destruct (write_metadata_Ok _ _ _ _ Hwm) as (_ & Hrows & _).
    destruct (Hrows ii key Hkey) as (f & _ & Hcell). apply Hcell. by left.
Qed.

Lemma metadata_missing_key_blank_witness :
  ∃ ms, sheet_named "Metadata" (workbook_of sample_run) = Some ms ∧
    cell_at ms 0 2 = Some (mkCell (TStr "") (Some input_format)).
Proof.
  destruct (metadata_missing_key_blank sample_heap sample_catalog sample_metadata
              "title" (KeyError "title") eq_refl) as [_ Hrun].
  apply (Hrun sample_args sample_file true (Some sample_data) sample_run.1
              (workbook_of sample_run) 0%nat).
  - apply (run_ok sample_run). vm_compute. reflexivity.
  - reflexivity.
Defined.

(** ** Data columns *)

Lemma make_xlsx_any_data args file_def fd metadata conversions data data' mdf h h' wb :
  make_xlsx args file_def fd metadata conversions data mdf h = (h', Ok wb) →
  ∃ wb', make_xlsx args file_def fd metadata conversions data' mdf h = (h', Ok wb').
Proof.
  unfold make_xlsx, mbind, mret.
  destruct (if metadata then _ else _) as [meta|e]; [|discriminate].
  destruct (data_columns _ _ _ _ _) as [h1 [st|e]]; [|discriminate].
  intros [= <- _]. eauto.
Qed.

(** C9, as the code has it.  If the run ends normally without data, it
    ends normally with any data, in the same store, and the workbook is
    closed: a column whose writing fails aborts nothing.  On the Data sheet
    the cells of column [j] from the data start row down hold the values of
    the [j]-th data column up to the first value [write] rejects, in the
    format of the column's label, and nothing below: a column all of whose
    values are accepted is there in full, and a column that fails (the
    [try] body raises, on whatever sheet) keeps the values before the
    failing one. *)
Theorem data_columns_best_effort args file_def fd metadata conversions df mdf h h' wb0 :
  make_xlsx args file_def fd metadata conversions None mdf h = (h', Ok wb0) →
  ∃ wb ds,
    make_xlsx args file_def fd metadata conversions (Some df) mdf h = (h', Ok wb) ∧
    wb_closed wb = true ∧ sheet_named "Data" wb = Some ds ∧
    ∀ j label vals, df.*1 !! j = Some label → df_column df label = Ok vals →
      (∀ sheet, (write_data_column df j label sheet).2 = None ↔
                written_prefix vals = vals) ∧
      ∀ i, cell_at ds (start_row + i) j =
           (fun t => mkCell t (data_format label)) <$> written_prefix vals !! i.
Proof.
  intros Hrun0.
  destruct (make_xlsx_any_data _ _ _ _ _ _ (Some df) _ _ _ _ Hrun0) as (wb & Hrun).
  destruct (make_xlsx_sheets _ _ _ _ _ _ _ _ _ _ Hrun) as (st0 & _ & Hclosed & _).
  destruct (make_xlsx_data_sheet _ _ _ _ _ _ _ _ _ _ Hrun)
    as (st & ds & Hcols & Hds & _ & Heq & _).
  exists wb, ds. split; [done|]. split; [done|]. split; [done|]. subst ds.
  intros j label vals Hj Hvals. split.
  { intros sheet. by apply write_data_column_spec. }
  intros i. unfold cell_at.
  destruct (finish_data_sheet_spec file_def (write_data (Some df) (data_sheet st)))
    as (_ & _ & _ & _ & Hfc).
  rewrite Hfc by (intros [= ? _]; unfold start_row, title_row in *; lia).
  cbn [write_data].
  destruct (write_data_loop_spec df (df.*1) 0 (data_sheet st)) as (_ & _ & _ & _ & Hw).
  specialize (Hw j label vals Hj Hvals i). cbn [Nat.add] in Hw. rewrite Hw.
  destruct (data_columns_data _ _ _ _ _ _ _ Hcols) as (_ & _ & _ & Hframe & _).
  destruct (written_prefix vals !! i); [done|]. cbn.
  rewrite Hframe by (left; unfold start_row, parameter_row, title_row; lia). done.
Qed.

Lemma data_columns_best_effort_witness :
  ∃ ds, sheet_named "Data" (workbook_of sample_run) = Some ds ∧
    cell_at ds 3 0 = Some (mkCell (TStr "a") None) ∧
    cell_at ds 4 0 = Some (mkCell (TStr "B") None) ∧
    cell_at ds 3 1 = Some (mkCell (TNum 10) None) ∧
    cell_at ds 4 1 = None ∧ cell_at ds 5 1 = None.
Proof.
  destruct (data_columns_best_effort sample_args sample_file sample_catalog true true
              sample_data (Some sample_metadata) sample_heap no_data_run.1
              (workbook_of no_data_run))
    as (wb & ds & Hrun & _ & Hds & Hcells).
  { apply (run_ok no_data_run). vm_compute. reflexivity. }
  assert (wb = workbook_of sample_run) as ->.
  { unfold workbook_of, sample_run. by rewrite Hrun. }
  exists ds. split; [exact Hds|].
  destruct (Hcells 0%nat "habitat" _ eq_refl eq_refl) as [_ H0].
  destruct (Hcells 1%nat "gearType" _ eq_refl eq_refl) as [_ H1].
  split; [exact (H0 0%nat)|]. split; [exact (H0 1%nat)|].
  split; [exact (H1 0%nat)|]. split; [exact (H1 1%nat)|exact (H1 2%nat)].
Defined.

(** C9, as the claim states it, fails: [write] rejects the second value of
    the column, and the first one stays on the sheet. *)
Lemma failed_column_left_empty_counterexample :
  ¬ (∀ args file_def fd metadata conversions df mdf h h' wb ds j label vals,
       make_xlsx args file_def fd metadata conversions (Some df) mdf h = (h', Ok wb) →
       sheet_named "Data" wb = Some ds →
       df !! j = Some (label, vals) →
       (∀ sheet, (write_data_column df j label sheet).2 ≠ None) →
       ∀ i, cell_at ds (start_row + i) j = None).
Proof.
  intros Hclaim.
  assert (data_only_run = (data_only_run.1, Ok (workbook_of data_only_run))) as Hrun.
  { apply run_ok. vm_compute. reflexivity. }
  destruct (sheet_named "Data" (workbook_of data_only_run)) as [ds|] eqn:Hds;
    [|vm_compute in Hds; discriminate Hds].
  specialize (Hclaim sample_args empty_file sample_catalog false false sample_data
                None sample_heap data_only_run.1 (workbook_of data_only_run)
                ds 1%nat "gearType" [TNum 10; TNaN; TNum 30] Hrun Hds eq_refl).
  vm_compute in Hds. injection Hds as <-.
  specialize (Hclaim ltac:(intros sheet; cbn; discriminate) 0%nat).
  vm_compute in Hclaim. discriminate Hclaim.
Qed.

(** ** Fields without a validation *)

(** A listed field whose validation is the empty dictionary makes its pass
    raise [KeyError], on the first key the branch reads, before any rule or
    column format is set; the store is as it was. *)
Lemma data_column_default_validation fd ii key st h f :
  fd !! key = Some f → validation f = Some ∅ →
  data_column fd ii key st h =
  (h, Raise (KeyError (if long_list f then "source" else "input_message"))).
Proof.
  intros Hf Hv. unfold data_column, mbind, lift, lookup_field. rewrite Hf. cbn.
  unfold column_validation. rewrite Hv.
  destruct (long_list f); reflexivity.
Qed.

(** C1.  The catalog built from the one descriptor
    [{'name': 'eventDate', 'disp_name': 'Event Date'}] gives the field the
    default empty validation, and rendering that field raises
    [KeyError('input_message')]: [field.validation is not None] holds for
    the empty dictionary, and the short-list branch reads
    [valid_copy['input_message']].  No column format is applied and no
    workbook is closed. *)
Theorem default_validation_raises :
  make_dict_of_fields [event_date_descriptor] = Ok event_date_catalog ∧
  (∃ f, event_date_catalog !! "eventDate" = Some f ∧ validation f = Some ∅) ∧
  make_xlsx sample_args event_date_file event_date_catalog false false None None
            sample_heap
  = (sample_heap, Raise (KeyError "input_message")).
Proof.
  split; [reflexivity|]. split; [by eexists|]. vm_compute. reflexivity.
Qed.

(** The metadata loop tests the same attribute by its truth value, and a
    field with the empty validation passes through it without a rule. *)
Example metadata_default_validation_ok :
  match write_metadata sample_heap sample_catalog None with
  | Ok ms => ws_validations ms = []
  | Raise _ => False
  end.
Proof. vm_compute. reflexivity. Qed.

(** * Further properties *)

(** ** The catalog builder: errors and duplicate names *)

Lemma make_field_Ok_iff d :
  (∃ f, make_field d = Ok f) ↔ is_Some (d_name d) ∧ is_Some (d_disp_name d).
Proof.
  unfold make_field, require_key.
  destruct d as [[nm|] [dn|] dv dc dw dl]; cbn; split.
  - intros _. split; eauto.
  - intros _. eauto.
  - by intros [f [=]].
  - by intros [_ [? [=]]].
  - by intros [f [=]].
  - by intros [[? [=]] _].
  - by intros [f [=]].
  - by intros [[? [=]] _].
Qed.

Lemma make_field_Raise d e :
  make_field d = Raise e →
  e = KeyError (match d_name d with None => "name" | Some _ => "disp_name" end) ∧
  (d_name d = None ∨ d_disp_name d = None).
Proof.
  unfold make_field, require_key.
  destruct d as [[nm|] [dn|] dv dc dw dl]; cbn; intros [= <-]; auto.
Qed.

Lemma make_dict_loop_app good rest acc :
  (∀ d, d ∈ good → is_Some (d_name d) ∧ is_Some (d_disp_name d)) →
  ∃ acc', make_dict_loop (good ++ rest) acc = make_dict_loop rest acc'.
Proof.
  revert acc. induction good as [|d good IH]; intros acc Hgood; [by exists acc|].
  destruct (proj2 (make_field_Ok_iff d)) as [f Hf]; [apply Hgood; by left|].
  cbn. rewrite Hf. cbn. apply IH. intros d' Hd'. apply Hgood. by right.
Qed.

(** X1. The builder ends normally exactly when every descriptor has the
    keys [name] and [disp_name]; otherwise it raises the [KeyError] of the
    first descriptor that lacks one, for [name] if that is absent and for
    [disp_name] if only that is. *)
Theorem make_dict_of_fields_errors (fields : list descriptor) :
  ((∃ fd, make_dict_of_fields fields = Ok fd) ↔
   ∀ d, d ∈ fields → is_Some (d_name d) ∧ is_Some (d_disp_name d)) ∧
  (∀ good d rest, fields = (good ++ d :: rest)%list →
     (∀ d', d' ∈ good → is_Some (d_name d') ∧ is_Some (d_disp_name d')) →
     d_name d = None ∨ d_disp_name d = None →
     make_dict_of_fields fields =
       Raise (KeyError (match d_name d with None => "name" | Some _ => "disp_name" end))).
Proof.
  split; [split|].
  - intros [fd Hfd] d Hd. apply make_field_Ok_iff.
    apply make_dict_loop_spec in Hfd as [Hall _]. by apply Hall.
  - unfold make_dict_of_fields. generalize (∅ : gmap string Field).
    induction fields as [|d rest IH]; intros acc Hall; cbn; [eauto|].
    destruct (proj2 (make_field_Ok_iff d)) as [f Hf]; [apply Hall; by left|].
    rewrite Hf. cbn. apply IH. intros d' Hd'. apply Hall. by right.
  - intros good d rest -> Hgood Hbad. unfold make_dict_of_fields.
    destruct (make_dict_loop_app good (d :: rest) ∅ Hgood) as [acc' ->]. cbn.
    destruct (make_field d) as [f|e] eqn:Hf.
    + destruct (proj1 (make_field_Ok_iff d)) as [[? Hn] [? Hd]]; [eauto|].
      destruct Hbad; congruence.
    + cbn. by destruct (make_field_Raise d e Hf) as [-> _].
Qed.

Lemma make_dict_of_fields_errors_witness :
  make_dict_of_fields [event_date_descriptor; nameless_descriptor; gear_descriptor]
  = Raise (KeyError "name").
Proof.
  destruct (make_dict_of_fields_errors
              [event_date_descriptor; nameless_descriptor; gear_descriptor]) as [_ Hfirst].
  apply (Hfirst [event_date_descriptor] nameless_descriptor [gear_descriptor] eq_refl).
  - intros d' Hd'. apply list_elem_of_singleton in Hd'. subst d'.
    split; eexists; reflexivity.
  - left. reflexivity.
Defined.

Lemma make_dict_loop_lookup fields : ∀ acc fd key,
  make_dict_loop fields acc = Ok fd →
  (∀ d, d ∈ fields → d_name d ≠ Some key) → fd !! key = acc !! key.
Proof.
  induction fields as [|d rest IH]; intros acc fd key; cbn.
  - by intros [= <-].
  - destruct (make_field d) as [new|] eqn:Hnew; cbn; [|discriminate].
    intros Hloop Hnone. rewrite (IH _ _ _ Hloop).
    + apply lookup_insert_ne. intros Heq.
      apply (Hnone d); [by left|].
      destruct (make_field_width d new Hnew) as (Hn & _). congruence.
    + intros d' Hd'. apply Hnone. by right.
Qed.

Lemma last_with_name key (fields : list descriptor) :
  (∃ d, d ∈ fields ∧ d_name d = Some key) →
  ∃ pre d post, fields = (pre ++ d :: post)%list ∧ d_name d = Some key ∧
    ∀ d', d' ∈ post → d_name d' ≠ Some key.
Proof.
  induction fields as [|d0 rest IH]; intros (d & Hd & Hname);
    [by apply elem_of_nil in Hd|].
  destruct (decide (Exists (fun d1 => d_name d1 = Some key) rest)) as [Hex|Hno].
  - apply Exists_exists in Hex as (d1 & Hd1 & Hn1).
    destruct IH as (pre & d' & post & -> & ? & ?).
    { by exists d1. }
    by exists (d0 :: pre), d', post.
  - assert (∀ d', d' ∈ rest → d_name d' ≠ Some key) as Hrest.
    { intros d' Hd' Hn'. apply Hno, Exists_exists. by exists d'. }
    apply elem_of_cons in Hd as [->|Hd]; [|by destruct (Hrest d Hd)].
    by exists [], d0, rest.
Qed.

(** X2. In the catalog a name is a key exactly when some descriptor has
    it, and the entry is the Field of the last descriptor with that name:
    a later descriptor replaces an earlier one of the same name. *)
Theorem make_dict_of_fields_last_wins (fields : list descriptor)
    (fd : gmap string Field) :
  make_dict_of_fields fields = Ok fd →
  (∀ key, is_Some (fd !! key) ↔ ∃ d, d ∈ fields ∧ d_name d = Some key) ∧
  (∀ pre d post key, fields = (pre ++ d :: post)%list → d_name d = Some key →
     (∀ d', d' ∈ post → d_name d' ≠ Some key) →
     ∃ f, make_field d = Ok f ∧ fd !! key = Some f).
Proof.
  intros Hbuild.
  assert (Hlast : ∀ pre d post key, fields = (pre ++ d :: post)%list →
            d_name d = Some key →
            (∀ d', d' ∈ post → d_name d' ≠ Some key) →
            ∃ f, make_field d = Ok f ∧ fd !! key = Some f).
  { intros pre d post key -> Hname Hpost. unfold make_dict_of_fields in Hbuild.
    destruct (make_dict_loop_app pre (d :: post) ∅) as [acc' Heq].
    { intros d' Hd'. apply make_field_Ok_iff.
      apply make_dict_loop_spec in Hbuild as [Hall _]. apply Hall.
      apply elem_of_app. by left. }
    rewrite Heq in Hbuild. cbn in Hbuild.
    destruct (make_field d) as [f|] eqn:Hf; cbn in Hbuild; [|discriminate].
    exists f. split; [done|].
    rewrite (make_dict_loop_lookup _ _ _ _ Hbuild Hpost).
    destruct (make_field_width d f Hf) as (Hn & _).
    assert (name f = key) as <- by congruence. apply lookup_insert_eq. }
  split; [|exact Hlast].
  intros key. split.
  - intros [f Hf]. apply make_dict_loop_spec in Hbuild as [_ Hentries].
    destruct (Hentries key f Hf) as [Hempty|(d & Hd & Hmk & Hn)].
    + by rewrite lookup_empty in Hempty.
    + exists d. split; [done|]. destruct (make_field_width d f Hmk) as (-> & _).
      by rewrite Hn.
  - intros (d & Hd & Hname).
    destruct (last_with_name key fields) as (pre & d' & post & Hsplit & Hn & Hp);
      [eauto|].
    destruct (Hlast pre d' post key Hsplit Hn Hp) as (f & _ & Hf). eauto.
Qed.

Lemma make_dict_of_fields_last_wins_witness :
  ∃ fd f, make_dict_of_fields [gear_descriptor; wide_gear_descriptor] = Ok fd ∧
    fd !! "gearType" = Some f ∧ width f = 30%Z ∧ disp_name f = "Gear".
Proof.
  destruct (make_dict_of_fields [gear_descriptor; wide_gear_descriptor]) as [fd|e] eqn:Hfd;
    [|vm_compute in Hfd; discriminate Hfd].
  destruct (make_dict_of_fields_last_wins _ fd Hfd) as [_ Hlast].
  destruct (Hlast [gear_descriptor] wide_gear_descriptor [] "gearType" eq_refl eq_refl)
    as (f & Hmk & Hf).
  { intros d' Hd'. by apply elem_of_nil in Hd'. }
  exists fd, f. split; [reflexivity|]. split; [exact Hf|].
  vm_compute in Hmk. injection Hmk as <-. split; reflexivity.
Defined.

(** ** Sorting and table names *)

Lemma sorted_lower_fixed l :
  StronglySorted (fun a b => key_le a b = true) l → sorted_lower l = l.
Proof.
  induction 1 as [|x l Hl IH Hx]; [done|].
  cbn [sorted_lower foldr]. fold (sorted_lower l). rewrite IH.
  destruct l as [|y l]; [done|]. cbn [insert_by_key].
  apply Forall_cons in Hx as [Hxy _]. by rewrite Hxy.
Qed.

(** Sorting a sorted list changes nothing. *)
Lemma sorted_lower_idempotent (l : list string) :
  sorted_lower (sorted_lower l) = sorted_lower l.
Proof. apply sorted_lower_fixed, sorted_lower_sorted. Qed.

Lemma filter_key_head (x : string) (l : list string) :
  List.filter (fun y => String.eqb (lower y) (lower x)) (x :: l) =
  x :: List.filter (fun y => String.eqb (lower y) (lower x)) l.
Proof. cbn [List.filter]. by rewrite String.eqb_refl. Qed.

Lemma sorted_head_least (x y : string) (l : list string) :
  StronglySorted (fun a b => key_le a b = true) (x :: l) →
  In y (x :: l) → key_le x y = true.
Proof.
  intros Hs [<-|Hin]; [apply key_le_refl|].
  apply StronglySorted_inv in Hs as [_ Hall].
  rewrite List.Forall_forall in Hall. by apply Hall.
Qed.

(** Two lists in ascending order of the lower-cased value that hold, for
    every lower-cased value, the same items in the same order, are the
    same list: a stable sort by [str.lower] has one possible result. *)
Lemma stable_sorted_unique (l1 : list string) : ∀ l2,
  StronglySorted (fun a b => key_le a b = true) l1 →
  StronglySorted (fun a b => key_le a b = true) l2 →
  (∀ k, List.filter (fun y => String.eqb (lower y) k) l1 =
        List.filter (fun y => String.eqb (lower y) k) l2) →
  l1 = l2.
Proof.
  induction l1 as [|x r1 IH]; intros [|y r2] Hs1 Hs2 Hsame; [done| | |].
  - specialize (Hsame (lower y)). by rewrite filter_key_head in Hsame.
  - specialize (Hsame (lower x)). by rewrite filter_key_head in Hsame.
  - assert (In x (y :: r2)) as Hx.
    { eapply (proj1 (filter_In _ x (y :: r2))).
      rewrite <- (Hsame (lower x)), filter_key_head. by left. }
    assert (In y (x :: r1)) as Hy.
    { eapply (proj1 (filter_In _ y (x :: r1))).
      rewrite (Hsame (lower y)), filter_key_head. by left. }
    assert (lower x = lower y) as Hkey.
    { apply String.leb_antisym.
      - exact (sorted_head_least _ _ _ Hs1 Hy).
      - exact (sorted_head_least _ _ _ Hs2 Hx). }
    pose proof (Hsame (lower x)) as Hhead.
    rewrite filter_key_head, Hkey, filter_key_head in Hhead.
    injection Hhead as -> _. f_equal.
    apply StronglySorted_inv in Hs1 as [Hs1 _].
    apply StronglySorted_inv in Hs2 as [Hs2 _].
    apply IH; [done..|]. intros k. specialize (Hsame k). cbn [List.filter] in Hsame.
    destruct (String.eqb (lower y) k); [by injection Hsame|done].
Qed.

(** X3. The order of a long list on the Variables sheet is the one any
    stable sort by lower-cased value gives, whatever the algorithm: in the
    workbook of a run that ends normally, if [out] holds the items of a
    long-list field's [source] in ascending order of [str.lower], the items
    of one lower-cased value in the order they have in the source, then
    the field's column holds exactly [out] from row 1 down and nothing
    below.  So entries that differ only in letter case keep their source
    order. *)
Theorem variables_column_stable_sort args file_def fd metadata conversions data mdf
    h h' wb :
  make_xlsx args file_def fd metadata conversions data mdf h = (h', Ok wb) →
  ∃ vs, sheet_named "Variables" wb = Some vs ∧
    ∀ i key f v src items out,
      fd_fields file_def !! i = Some key → fd !! key = Some f →
      validation f = Some v → long_list f = true →
      v !! "source" = Some src → py_iter src = Ok items →
      StronglySorted (fun a b => String.leb (lower a) (lower b) = true) out →
      (∀ k, List.filter (fun y => String.eqb (lower y) k) out =
            List.filter (fun y => String.eqb (lower y) k) items) →
      ∀ r, cell_at vs (S r) (aux_column fd (fd_fields file_def) i) =
           (fun p => mkCell (TStr p) None) <$> out !! r.
Proof.
  intros (st & _ & Hcols & _ & Hvs & _)%make_xlsx_data_sheet.
  exists (vs_sheet (variable_sheet_obj st)). split; [done|].
  intros i key f v src items out Hi Hf Hv Hlong Hsrc Hiter Hsorted Hstable r.
  destruct (data_columns_vars _ _ _ _ _ _ _ Hcols) as (_ & _ & _ & _ & _ & _ & Hcol);
    [done|].
  destruct (Hcol i key f v Hi Hf Hv Hlong) as (src' & items' & Hsrc' & Hiter' & _ & Hcells & _).
  rewrite Hsrc in Hsrc'. injection Hsrc' as <-.
  rewrite Hiter in Hiter'. injection Hiter' as <-.
  cbn in Hcells. unfold cell_at. rewrite Hcells.
  rewrite (stable_sorted_unique out (sorted_lower items)); [done|done| |].
  - apply sorted_lower_sorted.
  - intros k. by rewrite Hstable, sorted_lower_stable.
Qed.

Lemma variables_column_stable_sort_witness :
  ∃ vs, sheet_named "Variables" (workbook_of spaced_run) = Some vs ∧
    cell_at vs 1 0 = Some (mkCell (TStr "A") None) ∧
    cell_at vs 2 0 = Some (mkCell (TStr "a") None) ∧
    cell_at vs 4 0 = Some (mkCell (TStr (String (ascii_of_nat 229) "a")) None) ∧
    cell_at vs 5 0 = Some (mkCell (TStr (String (ascii_of_nat 197) "b")) None) ∧
    cell_at vs 6 0 = None.
Proof.
  destruct (variables_column_stable_sort sample_args spaced_file spaced_catalog false
              false None None sample_heap spaced_run.1 (workbook_of spaced_run))
    as (vs & Hvs & Hcol).
  { apply (run_ok spaced_run). vm_compute. reflexivity. }
  exists vs. split; [exact Hvs|].
  pose proof (Hcol 1%nat "bottom Type" bottom_type bottom_rule
                (VList ["b"; "A"; String (ascii_of_nat 197) "b"; "a";
                        String (ascii_of_nat 229) "a"])
                ["b"; "A"; String (ascii_of_nat 197) "b"; "a";
                 String (ascii_of_nat 229) "a"]
                ["A"; "a"; "b"; String (ascii_of_nat 229) "a";
                 String (ascii_of_nat 197) "b"]
                eq_refl eq_refl eq_refl eq_refl eq_refl eq_refl) as Hcells.
  assert (∀ r, cell_at vs (S r) 0 =
               (fun p => mkCell (TStr p) None) <$>
               ["A"; "a"; "b"; String (ascii_of_nat 229) "a";
                String (ascii_of_nat 197) "b"] !! r) as Hrows.
  { apply Hcells.
    - repeat (constructor; [|repeat (constructor; [vm_compute; reflexivity|]);
                            constructor]).
      constructor.
    - intros k. cbn [List.filter].
      change (lower "A") with "a". change (lower "a") with "a".
      change (lower "b") with "b".
      change (lower (String (ascii_of_nat 229) "a")) with (String (ascii_of_nat 229) "a").
      change (lower (String (ascii_of_nat 197) "b")) with (String (ascii_of_nat 229) "b").
      destruct (String.eqb_spec "a" k) as [<-|_]; [reflexivity|].
      destruct (String.eqb_spec "b" k) as [<-|_]; [reflexivity|].
      destruct (String.eqb_spec (String (ascii_of_nat 229) "a") k) as [<-|_];
        [reflexivity|].
      destruct (String.eqb_spec (String (ascii_of_nat 229) "b") k) as [<-|_];
        reflexivity. }
  split; [exact (Hrows 0%nat)|]. split; [exact (Hrows 1%nat)|].
  split; [exact (Hrows 3%nat)|]. split; [exact (Hrows 4%nat)|].
  exact (Hrows 5%nat).
Defined.

Lemma title_lower_char c : title_char (lower_char c) = title_char c.
Proof. destruct c as [[] [] [] [] [] [] [] []]; reflexivity. Qed.

Lemma lower_lower_char c : lower_char (lower_char c) = lower_char c.
Proof. destruct c as [[] [] [] [] [] [] [] []]; reflexivity. Qed.

Lemma lower_idempotent s : lower (lower s) = lower s.
Proof.
  induction s as [|c s IH]; [done|]. cbn. f_equal; [apply lower_lower_char|exact IH].
Qed.

Lemma capitalize_lower s : capitalize (lower s) = capitalize s.
Proof.
  destruct s as [|c s]; [done|]. cbn [lower map_string capitalize].
  fold (lower s). by rewrite title_lower_char, lower_idempotent.
Qed.

Lemma length_map_string f s : String.length (map_string f s) = String.length s.
Proof. induction s as [|c s IH]; cbn; auto. Qed.

Lemma length_title_char c :
  String.length (title_char c) = if (nat_of_ascii c =? 223)%nat then 2%nat else 1%nat.
Proof. unfold title_char. by destruct (nat_of_ascii c =? 223)%nat. Qed.

Lemma length_capitalize s :
  String.length (capitalize s) =
  (String.length s + if sharp_s_first s then 1 else 0)%nat.
Proof.
  destruct s as [|c s]; [done|]. cbn [capitalize sharp_s_first String.length].
  rewrite length_append, length_title_char. unfold lower. rewrite length_map_string.
  destruct (nat_of_ascii c =? 223)%nat; lia.
Qed.

Lemma replace_space_first s :
  sharp_s_first (replace_space s) = sharp_s_first s ∧
  title_fits (replace_space s) = title_fits s.
Proof.
  destruct s as [|c s]; [done|]. cbn [replace_space map_string sharp_s_first title_fits].
  destruct (Ascii.eqb_spec c " ") as [->|_]; done.
Qed.

Lemma title_fits_lower s : title_fits (lower s) = title_fits s.
Proof.
  destruct s as [|c s]; [done|]. cbn [lower map_string title_fits].
  destruct c as [[] [] [] [] [] [] [] []]; reflexivity.
Qed.

(** X4. The table name of a field whose capitalized name is a string of
    the model: it starts with [Table_], has no space in it, and is six
    characters longer than the field's name, seven when the name starts
    with the sharp s, whose title case is [Ss].  It depends on the name
    only up to letter case and to the difference between a space and an
    underscore, so two names that differ in nothing else get the same
    table name. *)
Theorem table_name_shape (variable : string) :
  title_fits variable = true →
  substring 0 6 (table_name variable) = "Table_" ∧
  String.length (table_name variable) =
    (6 + String.length variable + if sharp_s_first variable then 1 else 0)%nat ∧
  has_char " " (table_name variable) = false ∧
  ∀ other, lower (replace_space other) = lower (replace_space variable) →
           title_fits other = true ∧ table_name other = table_name variable.
Proof.
  intros Hfits. unfold table_name. split; [|split; [|split]].
  - cbn. by destruct (capitalize (replace_space variable)).
  - rewrite length_append, length_capitalize.
    destruct (replace_space_first variable) as [-> _].
    unfold replace_space. rewrite length_map_string. cbn. lia.
  - apply table_name_no_space.
  - intros other Heq. split.
    + destruct (replace_space_first other) as [_ <-].
      rewrite <- title_fits_lower, Heq, title_fits_lower.
      by destruct (replace_space_first variable) as [_ ->].
    + by rewrite <- (capitalize_lower (replace_space other)), Heq, capitalize_lower.
Qed.

Lemma table_name_shape_witness :
  table_name "event date" = table_name "Event_Date" ∧
  table_name "event date" = "Table_Event_date" ∧
  String.length (table_name (String (ascii_of_nat 223) "a")) = 9%nat ∧
  table_name (String (ascii_of_nat 223) "a") = "Table_Ssa".
Proof.
  destruct (table_name_shape "Event_Date" eq_refl) as (_ & _ & _ & Hsame).
  destruct (table_name_shape (String (ascii_of_nat 223) "a") eq_refl) as (_ & Hlen & _).
  split; [by apply Hsame|]. split; [reflexivity|]. split; [exact Hlen|reflexivity].
Defined.

(** ** When a run ends normally *)

Lemma add_row_Ok_iff variable src vs :
  (∃ r, add_row variable src vs = Ok r) ↔ (∃ items, py_iter src = Ok items).
Proof.
  unfold add_row. destruct src; cbn; split; intros [? ?]; try done; eauto.
Qed.

Lemma truncate_message_str v m :
  v !! "input_message" = Some (VStr m) →
  ∃ v1 m', truncate_message v = Ok v1 ∧ v1 !! "input_message" = Some (VStr m').
Proof.
  intros Hm. unfold truncate_message, getitem. rewrite Hm. cbn [rbind py_len].
  destruct (255 <? String.length m)%nat; cbn [rbind slice_to add_str].
  - eexists _, _. split; [done|]. apply lookup_insert_eq.
  - eauto.
Qed.

Lemma truncate_message_Ok_iff v :
  (∃ v1, truncate_message v = Ok v1) ↔
  match v !! "input_message" with
  | Some (VStr _) => True
  | Some (VList l) => (length l ≤ 255)%nat
  | _ => False
  end.
Proof.
  destruct (v !! "input_message") as [m|] eqn:Hm.
  2:{ unfold truncate_message, getitem. rewrite Hm. split; [by intros [? ?]|done]. }
  destruct m as [| | |m|l].
  4:{ destruct (truncate_message_str v m Hm) as (v1 & _ & ? & _). split; eauto. }
  all: unfold truncate_message, getitem; rewrite Hm; cbn [rbind py_len];
    try (split; [by intros [? ?]|done]).
  destruct (255 <? length l)%nat eqn:Hlen; cbn [rbind slice_to add_str].
  - apply Nat.ltb_lt in Hlen. split; [by intros [? ?]|lia].
  - apply Nat.ltb_ge in Hlen. split; eauto.
Qed.

Lemma truncate_title_Ok_iff v :
  (∃ opts, truncate_title v = Ok opts) ↔
  match v !! "input_title" with
  | Some (VStr _ | VList _) => True
  | _ => False
  end.
Proof.
  unfold truncate_title, getitem.
  destruct (v !! "input_title") as [[| | |t|t]|]; cbn [rbind py_len];
    try (split; [by intros [? ?]|done]).
  - destruct (32 <? String.length t)%nat; cbn [rbind slice_to]; split; eauto.
  - destruct (32 <? length t)%nat; cbn [rbind slice_to]; split; eauto.
Qed.

Lemma short_list_validation_Ok_iff v ii st :
  (∃ st', short_list_validation v ii st = Ok st') ↔
  match v !! "input_message", v !! "input_title" with
  | Some (VStr _), Some (VStr _ | VList _) => True
  | _, _ => False
  end.
Proof.
  unfold short_list_validation.
  destruct (v !! "input_message") as [m|] eqn:Hm.
  2:{ destruct (truncate_message v) as [v1|] eqn:Hv1; cbn [rbind];
        [|split; [by intros [? ?]|done]].
      pose proof (proj1 (truncate_message_Ok_iff v) (ex_intro _ _ Hv1)) as Hok.
      by rewrite Hm in Hok. }
  destruct m as [| | |m|l].
  4:{ destruct (truncate_message_str v m Hm) as (v1 & m' & Hv1 & Hm').
      rewrite Hv1. cbn [rbind]. unfold getitem at 1. rewrite Hm'.
      cbn [rbind call_replace].
      rewrite <- (truncate_message_other _ _ "input_title" Hv1) by done.
      rewrite <- truncate_title_Ok_iff.
      destruct (truncate_title v1) as [opts|]; cbn [rbind]; split; eauto;
        first [by intros [? ?]|done]. }
  all: destruct (truncate_message v) as [v1|] eqn:Hv1; cbn [rbind];
    try (split; [by intros [? ?]|done]).
  all: pose proof (proj1 (truncate_message_Ok_iff v) (ex_intro _ _ Hv1)) as Hok;
    rewrite Hm in Hok; try done.
  (* a list that is short enough is kept, and then has no [replace] *)
  assert (v1 = v) as ->.
  { revert Hv1. unfold truncate_message, getitem. rewrite Hm. cbn [rbind py_len].
    destruct (255 <? length l)%nat eqn:Hlen; [apply Nat.ltb_lt in Hlen; lia|].
    by intros [= <-]. }
  unfold getitem. rewrite Hm. cbn [rbind call_replace]. split; [by intros [? ?]|done].
Qed.

Lemma long_list_validation_Ok_iff f v ii st :
  (∃ st', long_list_validation f v ii st = Ok st') ↔
  match v !! "source", v !! "input_message" with
  | Some (VStr _ | VList _), Some (VStr _) => True
  | _, _ => False
  end.
Proof.
  unfold long_list_validation, getitem.
  destruct (v !! "source") as [src|]; cbn [rbind]; [|split; [by intros [? ?]|done]].
  destruct (add_row (name f) src (variable_sheet_obj st)) as [[ref vs]|e] eqn:Hadd;
    cbn [rbind].
  - rewrite lookup_insert_ne, lookup_delete_ne by done.
    destruct (proj1 (add_row_Ok_iff _ _ _) (ex_intro _ _ Hadd)) as [items Hit].
    destruct src; try discriminate Hit;
      (destruct (v !! "input_message") as [[| | | |]|]; cbn [rbind call_replace];
       split; eauto; first [by intros [? ?]|done]).
  - assert (¬ ∃ items, py_iter src = Ok items) as Hno.
    { intros Hit. apply add_row_Ok_iff with (variable := name f)
        (vs := variable_sheet_obj st) in Hit as [? ?]. congruence. }
    split; [by intros [? ?]|]. intros Hok. exfalso. apply Hno.
    destruct src; try done; cbn; eauto.
Qed.

Lemma column_validation_Ok_iff f ii st :
  (∃ st', column_validation f ii st = Ok st') ↔ validation_ok f = true.
Proof.
  unfold column_validation, validation_ok.
  destruct (validation f) as [v|]; [|split; eauto].
  destruct (long_list f).
  - rewrite long_list_validation_Ok_iff.
    destruct (v !! "source") as [[| | | |]|], (v !! "input_message") as [[| | | |]|]; by split.
  - rewrite short_list_validation_Ok_iff.
    destruct (v !! "input_message") as [[| | | |]|], (v !! "input_title") as [[| | | |]|]; by split.
Qed.

Lemma data_column_Ok_iff fd ii key st h :
  (∃ h1 st1, data_column fd ii key st h = (h1, Ok st1)) ↔
  ∃ f, fd !! key = Some f ∧ validation_ok f = true.
Proof.
  split.
  - intros (h1 & st1 & (f & st' & Hf & Hval & _)%data_column_Ok).
    exists f. split; [done|]. apply (column_validation_Ok_iff f ii (write_headers f ii st)).
    eauto.
  - intros (f & Hf & Hok).
    apply (column_validation_Ok_iff f ii (write_headers f ii st)) in Hok as [st' Hval].
    destruct (column_format_Ok f ii st' h) as (h1 & st1 & Hfmt & _).
    exists h1, st1. unfold data_column, mbind, lift, lookup_field.
    rewrite Hf. cbn. by rewrite Hval.
Qed.

Lemma data_columns_Ok_iff fd keys : ∀ ii st h,
  (∃ h' st', data_columns fd ii keys st h = (h', Ok st')) ↔
  ∀ key, key ∈ keys → ∃ f, fd !! key = Some f ∧ validation_ok f = true.
Proof.
  induction keys as [|key rest IH]; intros ii st h.
  - split; [by intros _ key ?%elem_of_nil|]. intros _. by exists h, st.
  - split.
    + intros (h' & st' & (h1 & st1 & Hstep & Hrest)%data_columns_cons) key' Hin.
      apply elem_of_cons in Hin as [->|Hin].
      * apply (data_column_Ok_iff fd ii key st h). eauto.
      * apply (IH (S ii) st1 h1); eauto.
    + intros Hall.
      destruct (proj2 (data_column_Ok_iff fd ii key st h)) as (h1 & st1 & Hstep).
      { apply Hall. by left. }
      destruct (proj2 (IH (S ii) st1 h1)) as (h' & st' & Hrest).
      { intros key' Hin. apply Hall. by right. }
      exists h', st'. cbn [data_columns]. unfold mbind at 1. by rewrite Hstep.
Qed.

Lemma metadata_row_Ok_iff h fd mdf ii key sheet :
  (∃ sheet', metadata_row h fd mdf ii key sheet = Ok sheet') ↔
  ∃ f, fd !! key = Some f ∧
       (metadata_skipped mdf key = true ∨ metadata_rule_ok f = true).
Proof.
  unfold metadata_row, lookup_field.
  destruct (fd !! key) as [f|]; cbn [rbind].
  2:{ split; [by intros [? ?]|by intros (? & ? & _)]. }
  assert ((∃ f0, Some f = Some f0 ∧
             (metadata_skipped mdf key = true ∨ metadata_rule_ok f0 = true)) ↔
          (metadata_skipped mdf key = true ∨ metadata_rule_ok f = true)) as ->.
  { split; [by intros (? & [= <-] & ?)|eauto]. }
  unfold metadata_rule_ok.
  match goal with |- context [metadata_value mdf ii key ?s] =>
    destruct (metadata_value_spec mdf ii key s) as (Hskip & _);
    destruct (metadata_value mdf ii key s) as [s2 continue] end.
  cbn [snd] in Hskip. subst continue.
  destruct (metadata_skipped mdf key).
  { split; [by left|eauto]. }
  destruct (truthy (validation f)) eqn:Htr; cbn [rbind].
  2:{ split; [by right|eauto]. }
  destruct (validation f) as [v|]; [|by cbn in Htr].
  change (default ∅ (Some v)) with v.
  pose proof (truncate_message_Ok_iff v) as Hiff.
  destruct (truncate_message v) as [opts|e]; cbn [rbind].
  - assert (∃ s3, (if truthy (deref h <$> cell_format f)
                   then Ok (set_row ii (Some (Z.of_nat ii))
                              (Some (default ∅ (deref h <$> cell_format f))) false
                              (data_validation ii 2 ii 2 opts s2))
                   else Ok (data_validation ii 2 ii 2 opts s2)) = Ok s3) as [s3 ->].
    { destruct (truthy (deref h <$> cell_format f)); eexists; reflexivity. }
    cbn [rbind]. split; [|eauto]. intros _. right.
    pose proof (proj1 Hiff (ex_intro _ opts eq_refl)) as Hm.
    destruct (v !! "input_message") as [[| | |m|l]|]; try done.
    by apply Nat.leb_le.
  - split; [by intros [? ?]|]. intros [?|Hok]; [done|].
    exfalso. destruct (proj2 Hiff) as [? ?]; [|done].
    destruct (v !! "input_message") as [[| | |m|l]|]; try done.
    by apply Nat.leb_le.
Qed.

Lemma metadata_loop_Ok_iff h fd mdf keys : ∀ ii sheet,
  (∃ sheet', metadata_loop h fd mdf ii keys sheet = Ok sheet') ↔
  ∀ key, key ∈ keys →
    ∃ f, fd !! key = Some f ∧
         (metadata_skipped mdf key = true ∨ metadata_rule_ok f = true).
Proof.
  induction keys as [|key rest IH]; intros ii sheet; cbn [metadata_loop].
  - split; [by intros _ key ?%elem_of_nil|eauto].
  - split.
    + intros [sheet' Hloop] key' Hin.
      destruct (metadata_row h fd mdf ii key sheet) as [s1|] eqn:Hrow; [|done].
      cbn [rbind] in Hloop. apply elem_of_cons in Hin as [->|Hin].
      * apply (metadata_row_Ok_iff h fd mdf ii key sheet). eauto.
      * apply (IH (S ii) s1); eauto.
    + intros Hall.
      destruct (proj2 (metadata_row_Ok_iff h fd mdf ii key sheet)) as [s1 ->].
      { apply Hall. by left. }
      cbn [rbind]. apply IH. intros key' Hin. apply Hall. by right.
Qed.

(** X5. A run ends normally, with a closed workbook, exactly when the
    catalog has every listed key and, when the metadata sheet is asked for,
    each of the ten metadata keys, and the validations are usable: a
    listed field has no validation ([None]) or one with the keys its branch
    reads ([source] that can be iterated and a string [input_message] with
    [long_list]; a string [input_message] and a sized [input_title]
    without), and a metadata field whose row is not cut short has an empty
    validation or one whose [input_message] is a string or a list of at
    most 255 items.  The store, the data and the other arguments do not
    matter.  The statement is about the calls [make_xlsx] makes: what
    xlsxwriter does with them when [close] writes the file is outside
    it. *)
Theorem make_xlsx_ends_normally args file_def fd metadata conversions data mdf h :
  (∃ h' wb, make_xlsx args file_def fd metadata conversions data mdf h = (h', Ok wb) ∧
            wb_closed wb = true) ↔
  renders fd metadata mdf (fd_fields file_def).
Proof.
  unfold renders. split.
  - intros (h' & wb & Hrun & _).
    destruct (make_xlsx_inv _ _ _ _ _ _ _ _ _ _ Hrun) as (meta & st & Hmeta & Hcols & _).
    split.
    + intros ->. destruct Hmeta as (ms & Hms & _).
      apply (metadata_loop_Ok_iff h fd mdf metadata_fields 0
               (set_column 2 2 (Some 50%Z) None false
                  (set_column 0 0 (Some 30%Z) None false (add_worksheet "Metadata")))).
      by exists ms.
    + apply (data_columns_Ok_iff fd (fd_fields file_def) 0 initial_sheets h). eauto.
  - intros [Hmeta Hcols].
    apply (data_columns_Ok_iff fd (fd_fields file_def) 0 initial_sheets h) in Hcols
      as (h' & st & Hcols).
    unfold make_xlsx, mbind, mret. destruct metadata.
    + destruct (proj2 (metadata_loop_Ok_iff h fd mdf metadata_fields 0
               (set_column 2 2 (Some 50%Z) None false
                  (set_column 0 0 (Some 30%Z) None false (add_worksheet "Metadata")))))
        as [ms Hms]; [by apply Hmeta|].
      unfold write_metadata. rewrite Hms. cbn [rbind]. rewrite Hcols. eauto.
    + rewrite Hcols. eauto.
Qed.

Lemma make_xlsx_ends_normally_witness :
  ∃ h' wb, make_xlsx sample_args sample_file sample_catalog false true
                     (Some sample_data) None sample_heap = (h', Ok wb) ∧
           wb_closed wb = true.
Proof.
  apply (make_xlsx_ends_normally sample_args sample_file sample_catalog false true
           (Some sample_data) None sample_heap).
  split; [discriminate|].
  intros key Hin. apply list_elem_of_In in Hin.
  destruct Hin as [<-|[<-|[]]]; eexists; split; reflexivity.
Defined.

(** ** The store after a run, and a second run *)

(** A dictionary that has both font entries is not changed by a further
    fill. *)
Lemma heap_filled_ready h h' l :
  heap_filled h h' →
  is_Some (deref h l !! "font_name") → is_Some (deref h l !! "font_size") →
  deref h' l = deref h l.
Proof.
  intros Hfill [v1 H1] [v2 H2]. apply map_eq. intros k.
  destruct (Hfill l k) as [->|(Hn & [[-> _]|[-> _]])]; [done|congruence..].
Qed.

Lemma setdefault_at_present l key v h :
  is_Some (deref h l !! key) → setdefault_at l key v h = (h, Ok tt).
Proof. intros [v0 Hv]. unfold setdefault_at. by rewrite Hv. Qed.

Lemma column_format_Some f ii st h l :
  cell_format f = Some l →
  ∃ h1, column_format f ii st h =
          (h1, Ok (with_data_sheet
                     (set_column ii ii (Some (width f)) (Some (deref h1 l)) false) st)) ∧
        is_Some (deref h1 l !! "font_name") ∧ is_Some (deref h1 l !! "font_size").
Proof.
  intros Hl.
  destruct (column_format_Ok f ii st h) as (h1 & st1 & Hfmt & _).
  destruct (column_format_heap _ _ _ _ _ _ Hfmt) as (_ & _ & Hfonts).
  exists h1. split; [|by apply Hfonts].
  revert Hfmt. unfold column_format. rewrite Hl. unfold mbind.
  destruct (setdefault_at_spec l "font_name" (VStr DEFAULT_FONT) h) as (h2 & -> & _).
  destruct (setdefault_at_spec l "font_size" (VInt DEFAULT_SIZE) h2) as (h3 & -> & _).
  unfold add_format_at, mret. by intros [= <- <-].
Qed.

Lemma column_format_ready f ii st h l :
  cell_format f = Some l →
  is_Some (deref h l !! "font_name") → is_Some (deref h l !! "font_size") →
  column_format f ii st h =
    (h, Ok (with_data_sheet
              (set_column ii ii (Some (width f)) (Some (deref h l)) false) st)).
Proof.
  intros Hl H1 H2. unfold column_format. rewrite Hl. unfold mbind.
  rewrite (setdefault_at_present _ _ _ _ H1), (setdefault_at_present _ _ _ _ H2).
  reflexivity.
Qed.

Lemma column_format_None f ii st h :
  cell_format f = None →
  column_format f ii st h =
    (h, Ok (with_data_sheet (set_column ii ii (Some (width f)) None false) st)).
Proof. intros Hl. unfold column_format. by rewrite Hl. Qed.

(** The format a pass gives its column is the field's dictionary as the
    run leaves it. *)
Lemma data_column_final fd ii key st h h1 st1 h' :
  data_column fd ii key st h = (h1, Ok st1) → heap_filled h1 h' →
  ∃ f st', fd !! key = Some f ∧
    column_validation f ii (write_headers f ii st) = Ok st' ∧
    st1 = with_data_sheet
            (set_column ii ii (Some (width f)) (deref h' <$> cell_format f) false) st' ∧
    (∀ l, cell_format f = Some l →
          is_Some (deref h' l !! "font_name") ∧ is_Some (deref h' l !! "font_size")).
Proof.
  intros (f & st' & Hf & Hval & Hfmt)%data_column_Ok Hfill.
  exists f, st'. split; [done|]. split; [done|].
  destruct (cell_format f) as [l|] eqn:Hl.
  - destruct (column_format_Some f ii st' h l Hl) as (h1' & Hfmt' & F1 & F2).
    rewrite Hfmt in Hfmt'. injection Hfmt' as <- ->.
    pose proof (heap_filled_ready _ _ l Hfill F1 F2) as Heq.
    rewrite <- Heq in F1, F2. cbn [fmap option_fmap option_map]. rewrite Heq.
    split; [done|]. by intros l' [= <-].
  - rewrite (column_format_None f ii st' h Hl) in Hfmt. injection Hfmt as <- <-.
    split; [done|]. intros l; discriminate.
Qed.

Lemma data_columns_again fd keys : ∀ ii st h h' st',
  data_columns fd ii keys st h = (h', Ok st') →
  data_columns fd ii keys st h' = (h', Ok st').
Proof.
  induction keys as [|key rest IH]; intros ii st h h' st'.
  - by intros [= <- <-].
  - intros (h1 & st1 & Hstep & Hrest)%data_columns_cons.
    destruct (data_columns_heap _ _ _ _ _ _ _ Hrest) as [Hfill _].
    destruct (data_column_final _ _ _ _ _ _ _ _ Hstep Hfill)
      as (f & st2 & Hf & Hval & -> & Hfonts).
    cbn [data_columns]. unfold mbind at 1.
    assert (data_column fd ii key st h' =
            (h', Ok (with_data_sheet
                       (set_column ii ii (Some (width f)) (deref h' <$> cell_format f)
                          false) st2))) as ->.
    { unfold data_column, mbind, lift, lookup_field. rewrite Hf. cbn. rewrite Hval.
      destruct (cell_format f) as [l|] eqn:Hl.
      - destruct (Hfonts l eq_refl) as [F1 F2].
        by rewrite (column_format_ready f ii st2 h' l Hl F1 F2).
      - by rewrite (column_format_None f ii st2 h' Hl). }
    by apply (IH _ _ h1).
Qed.

Lemma set_row_set_row r h1 f1 b1 h2 f2 b2 ws :
  set_row r h2 f2 b2 (set_row r h1 f1 b1 ws) = set_row r h2 f2 b2 ws.
Proof. unfold set_row. cbn. f_equal. apply insert_insert_eq. Qed.

(** The metadata sheet does not depend on the store: the row format set
    from a field's [cell_format] is replaced when the row height is set. *)
Lemma metadata_row_any_heap h h' fd mdf ii key sheet :
  metadata_row h fd mdf ii key sheet = metadata_row h' fd mdf ii key sheet.
Proof.
  unfold metadata_row. destruct (lookup_field fd key) as [f|]; cbn [rbind]; [|done].
  destruct (metadata_value _ _ _ _) as [s2 [|]]; [done|].
  destruct (truthy (validation f)); [|done].
  destruct (truncate_message _) as [opts|]; cbn [rbind]; [|done].
  destruct (truthy (deref h <$> cell_format f)), (truthy (deref h' <$> cell_format f));
    cbn [rbind]; by rewrite ?set_row_set_row.
Qed.

Lemma metadata_loop_any_heap h h' fd mdf keys : ∀ ii sheet,
  metadata_loop h fd mdf ii keys sheet = metadata_loop h' fd mdf ii keys sheet.
Proof.
  induction keys as [|key rest IH]; intros ii sheet; [done|].
  cbn [metadata_loop]. rewrite (metadata_row_any_heap h h').
  destruct (metadata_row h' fd mdf ii key sheet); cbn [rbind]; [apply IH|done].
Qed.

Lemma write_metadata_any_heap h h' fd mdf :
  write_metadata h fd mdf = write_metadata h' fd mdf.
Proof. unfold write_metadata. apply metadata_loop_any_heap. Qed.

(** X6. A run that ends normally can be repeated: run again on the store
    it left, with the same arguments, it gives the same workbook and leaves
    the store as it is.  The font defaults are filled in once. *)
Theorem make_xlsx_repeatable args file_def fd metadata conversions data mdf h h' wb :
  make_xlsx args file_def fd metadata conversions data mdf h = (h', Ok wb) →
  make_xlsx args file_def fd metadata conversions data mdf h' = (h', Ok wb).
Proof.
  intros Hrun.
  destruct (make_xlsx_inv _ _ _ _ _ _ _ _ _ _ Hrun) as (meta & st & Hmeta & Hcols & ->).
  apply data_columns_again in Hcols.
  unfold make_xlsx, mbind, mret. destruct metadata.
  - destruct Hmeta as (ms & Hms & ->).
    rewrite (write_metadata_any_heap h' h), Hms. cbn [rbind]. by rewrite Hcols.
  - subst meta. by rewrite Hcols.
Qed.

Lemma make_xlsx_repeatable_witness :
  make_xlsx sample_args sample_file sample_catalog true true
            (Some sample_data) (Some sample_metadata) sample_run.1
  = (sample_run.1, Ok (workbook_of sample_run)).
Proof.
  apply (make_xlsx_repeatable sample_args sample_file sample_catalog true true
           (Some sample_data) (Some sample_metadata) sample_heap).
  apply (run_ok sample_run). vm_compute. reflexivity.
Defined.

(** ** The Data sheet as a whole *)

Lemma set_column_one ii w fmt hidden ws :
  ws_cols (set_column ii ii w fmt hidden ws) = <[ii := mkCol w fmt hidden]> (ws_cols ws).
Proof.
  unfold set_column. cbn [ws_cols].
  replace (S ii - ii)%nat with 1%nat by lia. reflexivity.
Qed.

(** What the validation part of a pass leaves alone on the Data sheet. *)
Lemma column_validation_frame f ii st st' :
  column_validation f ii st = Ok st' →
  ws_hidden (data_sheet st') = ws_hidden (data_sheet st) ∧
  ws_cols (data_sheet st') = ws_cols (data_sheet st) ∧
  ws_tables (data_sheet st') = ws_tables (data_sheet st) ∧
  ws_merged (data_sheet st') = ws_merged (data_sheet st) ∧
  ws_freeze (data_sheet st') = ws_freeze (data_sheet st).
Proof.
  unfold column_validation. destruct (validation f) as [v|]; [|by intros [= <-]].
  destruct (long_list f).
  - by intros (src & vs' & _ & _ & ->)%long_list_validation_Ok.
  - by intros (v1 & opts & _ & _ & ->)%short_list_validation_Ok.
Qed.

Lemma data_column_frame fd ii key st h h1 st1 :
  data_column fd ii key st h = (h1, Ok st1) →
  ws_hidden (data_sheet st1) = ws_hidden (data_sheet st) ∧
  ws_tables (data_sheet st1) = ws_tables (data_sheet st) ∧
  ws_merged (data_sheet st1) = ws_merged (data_sheet st) ∧
  ws_freeze (data_sheet st1) = ws_freeze (data_sheet st) ∧
  ∃ f, fd !! key = Some f ∧
    ws_cols (data_sheet st1) =
      <[ii := mkCol (Some (width f)) (deref h1 <$> cell_format f) false]>
        (ws_cols (data_sheet st)).
Proof.
  intros Hstep.
  destruct (data_column_final _ _ _ _ _ _ _ _ Hstep (heap_filled_refl h1))
    as (f & st' & Hf & Hval & -> & _).
  destruct (column_validation_frame _ _ _ _ Hval) as (Hh & Hc & Ht & Hm & Hz).
  cbn [with_data_sheet data_sheet]. rewrite set_column_one.
  unfold set_column. cbn [ws_hidden ws_tables ws_merged ws_freeze].
  rewrite Hh, Hc, Ht, Hm, Hz. repeat split; try done. by exists f.
Qed.

Lemma data_columns_frame fd keys : ∀ ii st h h' st',
  data_columns fd ii keys st h = (h', Ok st') →
  ws_hidden (data_sheet st') = ws_hidden (data_sheet st) ∧
  ws_tables (data_sheet st') = ws_tables (data_sheet st) ∧
  ws_merged (data_sheet st') = ws_merged (data_sheet st) ∧
  ws_freeze (data_sheet st') = ws_freeze (data_sheet st) ∧
  (∀ c, (c < ii)%nat ∨ (ii + length keys ≤ c)%nat →
        ws_cols (data_sheet st') !! c = ws_cols (data_sheet st) !! c) ∧
  (∀ j key, keys !! j = Some key →
     ∃ f, fd !! key = Some f ∧
       ws_cols (data_sheet st') !! (ii + j)%nat =
         Some (mkCol (Some (width f)) (deref h' <$> cell_format f) false)).
Proof.
  induction keys as [|key rest IH]; intros ii st h h' st'.
  - intros [= <- <-]. repeat split; done.
  - intros (h1 & st1 & Hstep & Hrest)%data_columns_cons.
    destruct (data_columns_heap _ _ _ _ _ _ _ Hrest) as [Hfill _].
    destruct (data_column_final _ _ _ _ _ _ _ _ Hstep Hfill)
      as (f & st2 & Hf & Hval & Hst1 & _).
    destruct (data_column_frame _ _ _ _ _ _ _ Hstep)
      as (Hh1 & Ht1 & Hm1 & Hz1 & _).
    destruct (column_validation_frame _ _ _ _ Hval) as (_ & Hc2 & _).
    destruct (IH _ _ _ _ _ Hrest) as (Hh & Ht & Hm & Hz & Hout & Hin).
    assert (∀ c, ws_cols (data_sheet st1) !! c =
                 if decide (c = ii)
                 then Some (mkCol (Some (width f)) (deref h' <$> cell_format f) false)
                 else ws_cols (data_sheet st) !! c) as Hcols.
    { intros c. rewrite Hst1. cbn [with_data_sheet data_sheet].
      rewrite set_column_one, Hc2. unfold write_headers, with_data_sheet, put, with_cells.
      cbn [data_sheet ws_cols]. rewrite lookup_insert. by repeat case_decide. }
    rewrite Hh, Ht, Hm, Hz. repeat split; try done.
    + intros c Hc. cbn [length] in Hc. rewrite Hout by lia. rewrite Hcols.
      case_decide; [lia|done].
    + intros [|j] key' Hkey; cbn in Hkey.
      * injection Hkey as <-. exists f. split; [done|].
        rewrite Nat.add_0_r, Hout by lia. rewrite Hcols. by rewrite decide_True.
      * destruct (Hin j key' Hkey) as (f' & Hf' & Hcol). exists f'. split; [done|].
        by replace (ii + S j)%nat with (S ii + j)%nat by lia.
Qed.

Lemma write_column_frame data : ∀ r c fmt ws,
  ws_hidden (write_column r c data fmt ws).1 = ws_hidden ws ∧
  ws_cols (write_column r c data fmt ws).1 = ws_cols ws ∧
  ws_tables (write_column r c data fmt ws).1 = ws_tables ws ∧
  ws_merged (write_column r c data fmt ws).1 = ws_merged ws ∧
  ws_freeze (write_column r c data fmt ws).1 = ws_freeze ws.
Proof.
  induction data as [|t rest IH]; intros r c fmt ws; [done|].
  cbn [write_column]. unfold write. destruct (writable t); [|done].
  destruct (IH (S r) c fmt (put r c t fmt ws)) as (-> & -> & -> & -> & ->). done.
Qed.

Lemma write_data_frame data sheet :
  ws_hidden (write_data data sheet) = ws_hidden sheet ∧
  ws_cols (write_data data sheet) = ws_cols sheet ∧
  ws_tables (write_data data sheet) = ws_tables sheet ∧
  ws_merged (write_data data sheet) = ws_merged sheet ∧
  ws_freeze (write_data data sheet) = ws_freeze sheet.
Proof.
  destruct data as [df|]; [|done]. unfold write_data.
  generalize 0%nat. generalize (fst <$> df) as labels. revert sheet.
  intros sheet labels. revert sheet.
  induction labels as [|field rest IH]; intros sheet col_num; [done|].
  cbn [write_data_loop].
  destruct (IH (write_data_column df col_num field sheet).1 (S col_num))
    as (-> & -> & -> & -> & ->).
  unfold write_data_column. destruct (df_column df field); [|done].
  apply write_column_frame.
Qed.

(** X7. In the workbook of a run that ends normally, column [i] of the
    Data sheet has the width of the field listed [i]-th and is not hidden;
    its format is the dictionary the field's [cell_format] refers to as the
    run leaves it, with a font name and a font size in it, or no format
    when [cell_format] is [None]; the columns beyond the listed fields
    have no setting. *)
Theorem data_sheet_columns args file_def fd metadata conversions data mdf h h' wb :
  make_xlsx args file_def fd metadata conversions data mdf h = (h', Ok wb) →
  ∃ ds, sheet_named "Data" wb = Some ds ∧
    (∀ i key, fd_fields file_def !! i = Some key →
       ∃ f, fd !! key = Some f ∧
         ws_cols ds !! i =
           Some (mkCol (Some (width f)) (deref h' <$> cell_format f) false) ∧
         (∀ l, cell_format f = Some l →
               is_Some (deref h' l !! "font_name") ∧
               is_Some (deref h' l !! "font_size"))) ∧
    (∀ i, (length (fd_fields file_def) ≤ i)%nat → ws_cols ds !! i = None).
Proof.
  intros Hrun.
  destruct (make_xlsx_sheets _ _ _ _ _ _ _ _ _ _ Hrun) as (st & Hcols & _ & Hds & _).
  eexists. split; [exact Hds|].
  destruct (data_columns_frame _ _ _ _ _ _ _ Hcols) as (_ & _ & _ & _ & Hout & Hin).
  destruct (write_data_frame data (data_sheet st)) as (_ & Hc & _).
  assert (∀ c, ws_cols (finish_data_sheet file_def (write_data data (data_sheet st))) !! c
               = ws_cols (data_sheet st) !! c) as Hfin.
  { intros c. unfold finish_data_sheet. cbn. by rewrite Hc. }
  split.
  - intros i key Hkey. destruct (Hin i key Hkey) as (f & Hf & Hcol).
    exists f. split; [done|]. split; [by rewrite Hfin|].
    intros l Hl.
    apply (data_columns_fonts _ _ _ _ _ _ _ Hcols key f l); [|done..].
    by eapply list_elem_of_lookup_2.
  - intros i Hi. rewrite Hfin, Hout by (right; cbn; lia). done.
Qed.

Lemma data_sheet_columns_witness :
  ∃ ds, sheet_named "Data" (workbook_of sample_run) = Some ds ∧
    ws_cols ds !! 1%nat =
      Some (mkCol (Some 9%Z) (Some (deref sample_run.1 default_cell_format)) false) ∧
    is_Some (deref sample_run.1 default_cell_format !! "font_size") ∧
    ws_cols ds !! 2%nat = None.
Proof.
  destruct (data_sheet_columns sample_args sample_file sample_catalog true true
              (Some sample_data) (Some sample_metadata) sample_heap
              sample_run.1 (workbook_of sample_run))
    as (ds & Hds & Hin & Hout).
  { apply (run_ok sample_run). vm_compute. reflexivity. }
  exists ds. split; [exact Hds|].
  destruct (Hin 1%nat "gearType" eq_refl) as (f & Hf & Hcol & Hfonts).
  assert (Some gear = Some f) as [= <-] by (rewrite <- Hf; vm_compute; reflexivity).
  split; [exact Hcol|]. split; [by apply Hfonts|].
  apply Hout. cbn. lia.
Defined.

(** X8. The fixed part of the Data sheet, in the workbook of any run that
    ends normally: the sheet is visible and has no table; it has the one
    merged range of the pasting hint, from column 1 to column 7 of row 0;
    the panes are frozen above the first data row; the only rows with a
    setting are row 0, of height 24, and the hidden parameter row; and row
    0 holds one written cell, the sheet title at (0, 0) in the header
    format, whatever fields and data the run was given. *)
Theorem data_sheet_layout args file_def fd metadata conversions data mdf h h' wb :
  make_xlsx args file_def fd metadata conversions data mdf h = (h', Ok wb) →
  ∃ ds, sheet_named "Data" wb = Some ds ∧
    ws_hidden ds = false ∧
    ws_tables ds = [] ∧
    ws_merged ds = [mkMerged 0 1 0 7 paste_hint header_format] ∧
    ws_freeze ds = Some (start_row, 0%nat) ∧
    (∀ r, ws_rows ds !! r =
          if decide (r = parameter_row) then Some (mkRow None None true)
          else if decide (r = 0%nat) then Some (mkRow (Some 24%Z) None false)
               else None) ∧
    (∀ c, cell_at ds 0 c =
          if decide (c = 0%nat)
          then Some (mkCell (TStr (fd_disp_name file_def)) (Some header_format))
          else None).
Proof.
  intros Hrun.
  destruct (make_xlsx_sheets _ _ _ _ _ _ _ _ _ _ Hrun) as (st & Hcols & _ & Hds & _).
  eexists. split; [exact Hds|].
  destruct (data_columns_frame _ _ _ _ _ _ _ Hcols) as (Hh & Ht & Hm & Hz & _).
  destruct (data_columns_data _ _ _ _ _ _ _ Hcols) as (_ & Hrows & _ & Hcells & _).
  destruct (write_data_frame data (data_sheet st)) as (Hh' & _ & Ht' & Hm' & Hz').
  destruct (write_data_spec data (data_sheet st)) as (_ & Hrows' & _ & Hcells').
  unfold finish_data_sheet, cell_at.
  cbn [ws_hidden ws_tables ws_merged ws_freeze ws_rows ws_cells
       set_row freeze_panes merge_range put with_cells].
  rewrite Hh', Ht', Hm', Hrows', Hh, Ht, Hm, Hrows. cbn.
  repeat split; try done.
  - intros r. rewrite !lookup_insert. repeat case_decide; try done; subst; try done.
    all: exfalso; unfold parameter_row, title_row in *; lia.
  - intros c. rewrite lookup_insert. case_decide as Hc.
    + injection Hc as <-. by rewrite decide_True.
    + rewrite decide_False by congruence.
      rewrite Hcells' by (unfold start_row, title_row; lia).
      rewrite Hcells; [done|]. left. unfold parameter_row, title_row. lia.
Qed.

Lemma data_sheet_layout_witness :
  ∃ ds, sheet_named "Data" (workbook_of sample_run) = Some ds ∧
    ws_rows ds !! 0%nat = Some (mkRow (Some 24%Z) None false) ∧
    ws_rows ds !! 1%nat = None ∧
    cell_at ds 0 0 = Some (mkCell (TStr "") (Some header_format)) ∧
    cell_at ds 0 1 = None.
Proof.
  destruct (data_sheet_layout sample_args sample_file sample_catalog true true
              (Some sample_data) (Some sample_metadata) sample_heap
              sample_run.1 (workbook_of sample_run))
    as (ds & Hds & _ & _ & _ & _ & Hrows & Hrow0).
  { apply (run_ok sample_run). vm_compute. reflexivity. }
  exists ds. split; [exact Hds|].
  rewrite (Hrows 0%nat), (Hrows 1%nat), (Hrow0 0%nat), (Hrow0 1%nat). done.
Defined.

(** ** The rules of the Data sheet, exactly *)

Lemma data_column_rule_columns fd ii key st h h1 st1 :
  data_column fd ii key st h = (h1, Ok st1) →
  ∃ rules, ws_validations (data_sheet st1) = (ws_validations (data_sheet st) ++ rules)%list ∧
    dv_first_col <$> rules = rule_columns fd ii [key] ∧
    Forall (fun rule => dv_first_row rule = start_row ∧ dv_last_row rule = end_row ∧
                        dv_last_col rule = dv_first_col rule) rules.
Proof.
  intros (f & rules & Hf & Hrules & _ & _ & _ & Hval)%data_column_data.
  exists rules. split; [done|]. cbn [rule_columns]. rewrite Hf.
  unfold installed_rules in Hrules. destruct (validation f) as [v|].
  - destruct Hrules as (opts & _ & ->). split; [done|]. by repeat constructor.
  - subst rules. by split.
Qed.

Lemma rule_columns_cons fd ii key rest :
  rule_columns fd ii (key :: rest) =
  (rule_columns fd ii [key] ++ rule_columns fd (S ii) rest)%list.
Proof.
  cbn [rule_columns]. destruct (fd !! key) as [f|]; [|done].
  by destruct (validation f).
Qed.

Lemma data_columns_rule_columns fd keys : ∀ ii st h h' st',
  data_columns fd ii keys st h = (h', Ok st') →
  ∃ rules, ws_validations (data_sheet st') = (ws_validations (data_sheet st) ++ rules)%list ∧
    dv_first_col <$> rules = rule_columns fd ii keys ∧
    Forall (fun rule => dv_first_row rule = start_row ∧ dv_last_row rule = end_row ∧
                        dv_last_col rule = dv_first_col rule) rules.
Proof.
  induction keys as [|key rest IH]; intros ii st h h' st'.
  - intros [= <- <-]. exists []. by rewrite app_nil_r.
  - intros (h1 & st1 & Hstep & Hrest)%data_columns_cons.
    destruct (data_column_rule_columns _ _ _ _ _ _ _ Hstep) as (r1 & Hv1 & Hc1 & Hall1).
    destruct (IH _ _ _ _ _ Hrest) as (r2 & Hv2 & Hc2 & Hall2).
    exists (r1 ++ r2)%list. rewrite Hv2, Hv1, <- app_assoc. split; [done|].
    rewrite fmap_app, Hc1, Hc2, <- rule_columns_cons. split; [done|].
    by apply Forall_app.
Qed.

Lemma rule_columns_bounds fd keys : ∀ ii c,
  c ∈ rule_columns fd ii keys → (ii ≤ c)%nat ∧ (c < ii + length keys)%nat.
Proof.
  induction keys as [|key rest IH]; intros ii c; cbn [rule_columns length].
  - by intros ?%elem_of_nil.
  - assert (c ∈ rule_columns fd (S ii) rest → (ii ≤ c)%nat ∧ (c < ii + S (length rest))%nat)
      as Hrest by (intros ?%IH; lia).
    destruct (fd !! key) as [f|]; [|done].
    destruct (validation f); [|done].
    intros [->|?]%elem_of_cons; [lia|auto].
Qed.

Lemma rule_columns_NoDup fd keys : ∀ ii, NoDup (rule_columns fd ii keys).
Proof.
  induction keys as [|key rest IH]; intros ii; cbn [rule_columns]; [constructor|].
  destruct (fd !! key) as [f|]; [|done].
  destruct (validation f); [|done].
  constructor; [|done]. intros ?%rule_columns_bounds. lia.
Qed.

(** X9. The rules on the Data sheet of a run that ends normally are, in
    order, one for each column whose field has a validation ([rule_columns]),
    and nothing else: every rule covers the rows from the first data row to
    row 20000 of a single column, so the header rows carry no rule and no
    column carries two. *)
Theorem data_sheet_rules args file_def fd metadata conversions data mdf h h' wb :
  make_xlsx args file_def fd metadata conversions data mdf h = (h', Ok wb) →
  ∃ ds, sheet_named "Data" wb = Some ds ∧
    dv_first_col <$> ws_validations ds = rule_columns fd 0 (fd_fields file_def) ∧
    NoDup (dv_first_col <$> ws_validations ds) ∧
    (∀ rule, rule ∈ ws_validations ds →
       dv_first_row rule = start_row ∧ dv_last_row rule = end_row ∧
       dv_last_col rule = dv_first_col rule ∧
       (dv_first_col rule < length (fd_fields file_def))%nat).
Proof.
  intros Hrun.
  destruct (make_xlsx_data_sheet _ _ _ _ _ _ _ _ _ _ Hrun)
    as (st & ds & Hcols & Hds & _ & _ & Hval & _).
  exists ds. split; [done|]. rewrite Hval.
  destruct (data_columns_rule_columns _ _ _ _ _ _ _ Hcols) as (rules & -> & Hc & Hall).
  cbn [initial_sheets data_sheet add_worksheet ws_validations app].
  rewrite Hc. split; [done|]. split; [apply rule_columns_NoDup|].
  intros rule Hin. rewrite Forall_forall in Hall.
  destruct (Hall rule Hin) as (? & ? & ?). repeat split; try done.
  assert (dv_first_col rule ∈ rule_columns fd 0 (fd_fields file_def)) as Hb.
  { rewrite <- Hc. by apply list_elem_of_fmap_2. }
  apply rule_columns_bounds in Hb. lia.
Qed.

Lemma data_sheet_rules_witness :
  ∃ ds, sheet_named "Data" (workbook_of sample_run) = Some ds ∧
    dv_first_col <$> ws_validations ds = [0; 1]%nat.
Proof.
  destruct (data_sheet_rules sample_args sample_file sample_catalog true true
              (Some sample_data) (Some sample_metadata) sample_heap
              sample_run.1 (workbook_of sample_run))
    as (ds & Hds & Hc & _).
  { apply (run_ok sample_run). vm_compute. reflexivity. }
  exists ds. split; [exact Hds|]. rewrite Hc. vm_compute. reflexivity.
Defined.

(** ** The Metadata sheet as a whole *)

Lemma metadata_value_sheet mdf ii key sheet :
  let s := (metadata_value mdf ii key sheet).1 in
  ws_hidden s = ws_hidden sheet ∧ ws_cols s = ws_cols sheet ∧
  ws_rows s = ws_rows sheet ∧ ws_tables s = ws_tables sheet ∧
  ws_merged s = ws_merged sheet ∧ ws_freeze s = ws_freeze sheet ∧
  (∀ df t, mdf = Some df → metadata_lookup df key = Ok t → writable t = true →
     ws_cells s !! (ii, 2%nat) = Some (mkCell t (Some input_format))).
Proof.
  unfold metadata_value. destruct mdf as [df|]; cbn zeta.
  - destruct (metadata_lookup df key) as [t|e] eqn:Hl; cbn [rbind].
    + unfold write. destruct (writable t) eqn:Hw; cbn.
      * repeat split; try done. intros df' t' [= <-] Hl' _.
        rewrite Hl in Hl'. injection Hl' as <-. apply lookup_insert_eq.
      * repeat split; try done. intros df' t' [= <-] Hl' Hw'.
        rewrite Hl in Hl'. injection Hl' as <-. congruence.
    + cbn. repeat split; try done. intros df' t' [= <-] Hl'. congruence.
  - cbn. repeat split; try done.
Qed.

Lemma metadata_row_sheet h fd mdf ii key sheet sheet' :
  metadata_row h fd mdf ii key sheet = Ok sheet' →
  ws_hidden sheet' = ws_hidden sheet ∧ ws_tables sheet' = ws_tables sheet ∧
  ws_merged sheet' = ws_merged sheet ∧ ws_freeze sheet' = ws_freeze sheet ∧
  ws_cols sheet' = <[1%nat := mkCol None None true]> (ws_cols sheet) ∧
  ws_rows sheet' =
    (if metadata_skipped mdf key then ws_rows sheet
     else <[ii := mkRow (Some (metadata_height ii)) None false]> (ws_rows sheet)) ∧
  (∀ df t, mdf = Some df → metadata_lookup df key = Ok t → writable t = true →
     ws_cells sheet' !! (ii, 2%nat) = Some (mkCell t (Some input_format))).
Proof.
  unfold metadata_row. destruct (lookup_field fd key) as [f|]; cbn [rbind]; [|done].
  set (s0 := set_column 1 1 None None true
               (put ii 1 (TStr (name f)) (Some parameter_format)
                  (put ii 0 (TStr (disp_name f)) (Some parameter_format) sheet))).
  destruct (metadata_value_spec mdf ii key s0) as (Hskip & _).
  destruct (metadata_value_sheet mdf ii key s0) as (Hh & Hc & Hr & Ht & Hm & Hz & Hv).
  destruct (metadata_value mdf ii key s0) as [s1 continue]. cbn [fst snd] in *.
  subst continue.
  assert (ws_cols s0 = <[1%nat := mkCol None None true]> (ws_cols sheet)) as Hc0
    by (unfold s0; by rewrite set_column_one).
  destruct (metadata_skipped mdf key).
  { intros [= <-]. rewrite Hh, Hc, Hr, Ht, Hm, Hz. by repeat split. }
  destruct (truthy (validation f)); cbn [rbind].
  - destruct (truncate_message _) as [opts|]; cbn [rbind]; [|done].
    destruct (truthy (deref h <$> cell_format f)); cbn [rbind];
      rewrite ?set_row_set_row; intros [= <-]; cbn;
      rewrite Hh, Hc, Hr, Ht, Hm, Hz; by repeat split.
  - intros [= <-]; cbn. rewrite Hh, Hc, Hr, Ht, Hm, Hz; by repeat split.
Qed.

Lemma metadata_loop_sheet h fd mdf keys : ∀ ii sheet sheet',
  metadata_loop h fd mdf ii keys sheet = Ok sheet' →
  ws_hidden sheet' = ws_hidden sheet ∧ ws_tables sheet' = ws_tables sheet ∧
  ws_merged sheet' = ws_merged sheet ∧ ws_freeze sheet' = ws_freeze sheet ∧
  (∀ c, ws_cols sheet' !! c =
        if decide (c = 1%nat ∧ keys ≠ []) then Some (mkCol None None true)
        else ws_cols sheet !! c) ∧
  (∀ r, (r < ii)%nat ∨ (ii + length keys ≤ r)%nat →
        ws_rows sheet' !! r = ws_rows sheet !! r) ∧
  (∀ j key, keys !! j = Some key →
     ws_rows sheet' !! (ii + j)%nat =
       (if metadata_skipped mdf key then ws_rows sheet !! (ii + j)%nat
        else Some (mkRow (Some (metadata_height (ii + j))) None false)) ∧
     (∀ df t, mdf = Some df → metadata_lookup df key = Ok t → writable t = true →
        ws_cells sheet' !! ((ii + j)%nat, 2%nat) = Some (mkCell t (Some input_format)))).
Proof.
  induction keys as [|key rest IH]; intros ii sheet sheet'; cbn [metadata_loop].
  - intros [= <-]. repeat split; try done.
    intros c. rewrite decide_False; [done|]. by intros [_ ?].
  - destruct (metadata_row h fd mdf ii key sheet) as [s1|] eqn:Hrow; [|done].
    cbn [rbind]. intros Hloop.
    destruct (metadata_row_sheet _ _ _ _ _ _ _ Hrow) as (Hh1 & Ht1 & Hm1 & Hz1 & Hc1 & Hr1 & Hv1).
    destruct (IH _ _ _ Hloop) as (Hh & Ht & Hm & Hz & Hc & Hout & Hin).
    destruct (metadata_loop_spec _ _ _ _ _ _ _ Hloop) as (_ & Hcells & _).
    rewrite Hh, Ht, Hm, Hz. do 4 (split; [done|]). split; [|split].
    + intros c. rewrite Hc, Hc1, lookup_insert.
      destruct (decide (c = 1%nat)) as [->|Hne].
      * rewrite (decide_True (P := 1%nat = 1%nat ∧ key :: rest ≠ [])) by done.
        case_decide; [done|]. by rewrite decide_True.
      * repeat case_decide; first [done | congruence | by destruct_and!].
    + intros r Hr. cbn [length] in Hr. rewrite Hout by lia. rewrite Hr1.
      destruct (metadata_skipped mdf key); [done|]. rewrite lookup_insert_ne; [done|lia].
    + intros [|j] key' Hkey; cbn in Hkey.
      * injection Hkey as <-. rewrite Nat.add_0_r. split.
        -- rewrite Hout by lia. rewrite Hr1.
           destruct (metadata_skipped mdf key); [done|]. by rewrite lookup_insert_eq.
        -- intros df t Hdf Hlook Hw. rewrite Hcells by lia. by eapply Hv1.
      * replace (ii + S j)%nat with (S ii + j)%nat by lia.
        destruct (Hin j key' Hkey) as [Hrow' Hval']. split; [|done].
        rewrite Hrow'. destruct (metadata_skipped mdf key'); [|done].
        rewrite Hr1. destruct (metadata_skipped mdf key); [done|].
        rewrite lookup_insert_ne; [done|lia].
Qed.

(** X10. The Metadata sheet of a run that ends normally.  Column 0 has
    width 30, column 2 width 50, column 1 (the keys) is hidden, and no
    other column has a setting.  The row of a metadata key whose pass was
    not cut short has the height 30 (row 0), 150 (row 1) or 15 and no
    format: the format set from the field's [cell_format] is replaced when
    the height is set.  The row of a key whose lookup failed has no
    setting at all, and no row beyond the ten keys has one.  Where the
    lookup gave a value that can be written, column 2 of the row holds it
    in the input format. *)
Theorem metadata_sheet_layout args file_def fd conversions data mdf h h' wb :
  make_xlsx args file_def fd true conversions data mdf h = (h', Ok wb) →
  ∃ ms, sheet_named "Metadata" wb = Some ms ∧
    ws_hidden ms = false ∧
    (∀ c, ws_cols ms !! c =
          match c with
          | 0%nat => Some (mkCol (Some 30%Z) None false)
          | 1%nat => Some (mkCol None None true)
          | 2%nat => Some (mkCol (Some 50%Z) None false)
          | _ => None
          end) ∧
    (∀ ii key, metadata_fields !! ii = Some key →
       ws_rows ms !! ii =
         (if metadata_skipped mdf key then None
          else Some (mkRow (Some (metadata_height ii)) None false)) ∧
       (∀ df t, mdf = Some df → metadata_lookup df key = Ok t → writable t = true →
          cell_at ms ii 2 = Some (mkCell t (Some input_format)))) ∧
    (∀ ii, (length metadata_fields ≤ ii)%nat → ws_rows ms !! ii = None).
Proof.
  intros Hrun.
  destruct (make_xlsx_sheets _ _ _ _ _ _ _ _ _ _ Hrun) as (st & _ & _ & _ & _ & Hms & Hex).
  destruct (Hex eq_refl) as [ms Hnamed]. exists ms. split; [done|].
  destruct (Hms ms Hnamed) as [_ Hmeta]. unfold write_metadata in Hmeta.
  destruct (metadata_loop_sheet _ _ _ _ _ _ _ Hmeta) as (Hh & _ & _ & _ & Hc & Hout & Hin).
  split; [by rewrite Hh|]. split; [|split].
  - intros c. rewrite Hc. rewrite !set_column_one. cbn [ws_cols add_worksheet].
    destruct c as [|[|[|c]]]; [by vm_compute..|].
    rewrite decide_False by (intros [? _]; lia).
    rewrite !lookup_insert_ne by lia. apply lookup_empty.
  - intros ii key Hkey. destruct (Hin ii key Hkey) as [Hrow Hval].
    cbn [Nat.add] in Hrow, Hval. split; [|exact Hval].
    rewrite Hrow. by destruct (metadata_skipped mdf key).
  - intros ii Hii. rewrite Hout by (right; lia). done.
Qed.

Lemma metadata_sheet_layout_witness :
  ∃ ms, sheet_named "Metadata" (workbook_of sample_run) = Some ms ∧
    ws_rows ms !! 0%nat = None ∧
    ws_rows ms !! 1%nat = Some (mkRow (Some 150%Z) None false) ∧
    cell_at ms 1 2 = Some (mkCell (TStr "Cruise") (Some input_format)).
Proof.
  destruct (metadata_sheet_layout sample_args sample_file sample_catalog true
              (Some sample_data) (Some sample_metadata) sample_heap
              sample_run.1 (workbook_of sample_run))
    as (ms & Hms & _ & _ & Hrows & _).
  { apply (run_ok sample_run). vm_compute. reflexivity. }
  exists ms. split; [exact Hms|].
  destruct (Hrows 0%nat "title" eq_refl) as [Hr0 _].
  destruct (Hrows 1%nat "abstract" eq_refl) as [Hr1 Hv1].
  split; [exact Hr0|]. split; [exact Hr1|].
  by apply (Hv1 sample_metadata).
Defined.

(** ** The sheets of the workbook *)

Lemma metadata_loop_hidden h fd mdf ms :
  write_metadata h fd mdf = Ok ms → ws_name ms = "Metadata" ∧ ws_hidden ms = false.
Proof.
  intros Hmeta. split; [by apply write_metadata_Ok in Hmeta as [? _]|].
  unfold write_metadata in Hmeta.
  by destruct (metadata_loop_sheet _ _ _ _ _ _ _ Hmeta) as (-> & _).
Qed.

(** X11. The sheets of the workbook of a run that ends normally, in the
    order of their tabs: Metadata when asked for, then Data and Variables,
    then Conversion when asked for; Variables is the one hidden sheet. *)
Theorem workbook_sheets args file_def fd metadata conversions data mdf h h' wb :
  make_xlsx args file_def fd metadata conversions data mdf h = (h', Ok wb) →
  ((fun s => (ws_name s, ws_hidden s)) <$> wb_sheets wb) =
    ((if metadata then [("Metadata", false)] else []) ++
     [("Data", false); ("Variables", true)] ++
     (if conversions then [("Conversion", false)] else []))%list.
Proof.
  intros Hrun.
  destruct (make_xlsx_inv _ _ _ _ _ _ _ _ _ _ Hrun) as (meta & st & Hmeta & Hcols & ->).
  destruct (data_columns_initial_names _ _ _ _ _ Hcols) as (Hn & Hvn & Hvh).
  destruct (data_columns_frame _ _ _ _ _ _ _ Hcols) as (Hh & _).
  destruct (write_data_frame data (data_sheet st)) as (Hh' & _).
  destruct (write_data_spec data (data_sheet st)) as (Hn' & _).
  destruct (finish_data_sheet_spec file_def (write_data data (data_sheet st))) as (Hn'' & _).
  assert ((fun s => (ws_name s, ws_hidden s)) <$> meta =
          if metadata then [("Metadata", false)] else []) as Hm.
  { destruct metadata; [|by subst meta].
    destruct Hmeta as (ms & [Hmn Hmh]%metadata_loop_hidden & ->).
    cbn. by rewrite Hmn, Hmh. }
  cbn [wb_sheets]. rewrite !fmap_app, Hm. cbn [fmap list_fmap].
  rewrite Hn'', Hn', Hn, Hvn, Hvh.
  assert (ws_hidden (finish_data_sheet file_def (write_data data (data_sheet st))) = false)
    as -> by (unfold finish_data_sheet; cbn; by rewrite Hh', Hh).
  by destruct conversions.
Qed.

Lemma workbook_sheets_witness :
  ws_name <$> wb_sheets (workbook_of sample_run) =
    ["Metadata"; "Data"; "Variables"; "Conversion"].
Proof.
  pose proof (workbook_sheets sample_args sample_file sample_catalog true true
                (Some sample_data) (Some sample_metadata) sample_heap
                sample_run.1 (workbook_of sample_run)) as Hsheets.
  apply (f_equal (fmap fst)) in Hsheets.
  - rewrite <- list_fmap_compose in Hsheets. exact Hsheets.
  - apply (run_ok sample_run). vm_compute. reflexivity.
Defined.

(** ** The Variables sheet as a whole *)







(** ** The path of the workbook *)

Lemma rfind_sep_none p : has_char "/" p = false → rfind_sep p = 0%nat.
Proof.
  induction p as [|c p IH]; [done|]. cbn [has_char rfind_sep]. unfold is_sep.
  intros [Hc Hp]%orb_false_elim. by rewrite (IH Hp), Hc.
Qed.

Lemma rfind_sep_dir d base :
  has_char "/" base = false →
  rfind_sep (d +:+ "/" +:+ base) = S (String.length d).
Proof.
  intros Hbase. induction d as [|c d IH].
  - change ("" +:+ "/" +:+ base) with (String "/" base).
    cbn [rfind_sep]. by rewrite (rfind_sep_none _ Hbase).
  - change (String c d +:+ "/" +:+ base) with (String c (d +:+ "/" +:+ base)).
    cbn [rfind_sep String.length]. by rewrite IH.
Qed.

Lemma substring_0_length s : substring 0 (String.length s) s = s.
Proof. induction s as [|c s IH]; [done|]. simpl. by rewrite IH. Qed.

Lemma substring_0_append a b : substring 0 (String.length a) (a +:+ b) = a.
Proof.
  induction a as [|c a IH]; [by destruct b|].
  rewrite append_cons. simpl. by rewrite IH.
Qed.

Lemma str_from_append a b : str_from (String.length a) (a +:+ b) = b.
Proof.
  unfold str_from. rewrite length_append.
  replace (String.length a + String.length b - String.length a)%nat
    with (String.length b) by lia.
  induction a as [|c a IH]; [apply substring_0_length|].
  rewrite append_cons. simpl. apply IH.
Qed.

Lemma append_assoc (a b c : string) : (a +:+ b) +:+ c = a +:+ (b +:+ c).
Proof. induction a as [|x a IH]; [done|]. by rewrite !append_cons, IH. Qed.

Lemma rstrip_sep_dir d : rstrip_sep (d +:+ "/") = rstrip_sep d.
Proof.
  induction d as [|c d IH]; [done|].
  change (String c d +:+ "/") with (String c (d +:+ "/")).
  cbn [rstrip_sep]. by rewrite IH.
Qed.

Lemma all_sep_dir d : all_sep (d +:+ "/") = all_sep d.
Proof.
  induction d as [|c d IH]; [done|].
  change (String c d +:+ "/") with (String c (d +:+ "/")).
  cbn [all_sep]. by rewrite IH.
Qed.

Lemma endswith_sep_dir d : endswith_sep (d +:+ "/") = true.
Proof.
  induction d as [|c d IH]; [done|].
  change (String c d +:+ "/") with (String c (d +:+ "/")).
  cbn [endswith_sep]. rewrite IH. by destruct d.
Qed.

Lemma rstrip_sep_empty d : rstrip_sep d = "" ↔ all_sep d = true.
Proof.
  induction d as [|c d IH]; [done|]. cbn [rstrip_sep all_sep].
  destruct (rstrip_sep d) as [|x r].
  - destruct (is_sep c); cbn; [tauto|]. split; discriminate.
  - split; [discriminate|]. intros [_ Hd]%andb_true_iff.
    apply IH in Hd. discriminate.
Qed.

Lemma endswith_sep_rstrip d : endswith_sep (rstrip_sep d) = false.
Proof.
  induction d as [|c d IH]; [done|]. cbn [rstrip_sep].
  destruct (rstrip_sep d) as [|x r].
  - destruct (is_sep c) eqn:Hc; [done|]. cbn. exact Hc.
  - exact IH.
Qed.

Lemma before_dot_no_sep s : has_char "/" s = false → has_char "/" (before_dot s) = false.
Proof.
  induction s as [|c s IH]; [done|]. cbn [has_char before_dot].
  intros [Hc Hs]%orb_false_elim. destruct (Ascii.eqb c "."); [done|].
  cbn [has_char]. by rewrite Hc, (IH Hs).
Qed.

Lemma startswith_sep_name s :
  has_char "/" s = false → startswith_sep (s +:+ ".xlsx") = false.
Proof.
  destruct s as [|c s]; [done|]. cbn. by intros [? _]%orb_false_elim.
Qed.

Lemma before_dot_stem stem rest :
  has_char "." stem = false → before_dot (stem +:+ "." +:+ rest) = stem.
Proof.
  induction stem as [|c stem IH]; [done|]. cbn [has_char].
  intros [Hc Hs]%orb_false_elim.
  change (String c stem +:+ "." +:+ rest) with (String c (stem +:+ "." +:+ rest)).
  cbn [before_dot]. by rewrite Hc, (IH Hs).
Qed.

Lemma os_path_plain url :
  has_char "/" url = false → os_path_dirname url = "" ∧ os_path_basename url = url.
Proof.
  intros Hurl. unfold os_path_dirname, os_path_basename, str_to, str_from.
  rewrite (rfind_sep_none _ Hurl), Nat.sub_0_r, substring_0_length.
  by destruct url.
Qed.

Lemma output_no_dir url fields :
  has_char "/" url = false →
  output (write_file_args url) (write_file_def url fields) = before_dot url +:+ ".xlsx".
Proof.
  intros Hurl. destruct (os_path_plain url Hurl) as [Hd Hb].
  unfold output, write_file_args, write_file_def. cbn [dir fd_name].
  rewrite Hd, Hb. unfold os_path_join.
  by rewrite (startswith_sep_name _ (before_dot_no_sep _ Hurl)).
Qed.

(** X13. A [url] without a directory part: [write_file] has the workbook
    written to the part of [url] before its first dot, followed by
    [.xlsx], in the current directory.  So a [url] ending in [.xlsx]
    whose stem has no dot is the path written to, and any other extension,
    or anything after a dot inside the stem, is dropped. *)
Theorem write_file_output_plain url fields :
  has_char "/" url = false →
  output (write_file_args url) (write_file_def url fields) = before_dot url +:+ ".xlsx" ∧
  (∀ stem rest, url = stem +:+ "." +:+ rest → has_char "." stem = false →
     output (write_file_args url) (write_file_def url fields) = stem +:+ ".xlsx").
Proof.
  intros Hurl. pose proof (output_no_dir url fields Hurl) as Hout.
  split; [done|]. intros stem rest -> Hstem. by rewrite Hout, before_dot_stem.
Qed.

Lemma write_file_output_plain_witness :
  output (write_file_args "activity_log_1.v2.xls")
         (write_file_def "activity_log_1.v2.xls" ["habitat"]) = "activity_log_1.xlsx".
Proof.
  destruct (write_file_output_plain "activity_log_1.v2.xls" ["habitat"] eq_refl)
    as [_ Hstem].
  exact (Hstem "activity_log_1" "v2.xls" eq_refl eq_refl).
Defined.

(** X14. A [url] with a directory part [d] and a last component [base]:
    the workbook is written into [d] with its trailing slashes removed
    (into [d] itself when it is empty or made of slashes only), under the
    name of [base] cut at its first dot, followed by [.xlsx].  Dots in the
    directory part are kept. *)
Theorem write_file_output_dir d base fields :
  has_char "/" base = false →
  output (write_file_args (d +:+ "/" +:+ base)) (write_file_def (d +:+ "/" +:+ base) fields)
  = (if all_sep d then d else rstrip_sep d) +:+ "/" +:+ before_dot base +:+ ".xlsx".
Proof.
  intros Hbase.
  assert (str_to (S (String.length d)) (d +:+ "/" +:+ base) = d +:+ "/") as Hhead.
  { unfold str_to. rewrite <- append_assoc.
    replace (S (String.length d)) with (String.length (d +:+ "/"))
      by (rewrite length_append; cbn; lia).
    apply substring_0_append. }
  assert (str_from (S (String.length d)) (d +:+ "/" +:+ base) = base) as Htail.
  { rewrite <- append_assoc.
    replace (S (String.length d)) with (String.length (d +:+ "/"))
      by (rewrite length_append; cbn; lia).
    apply str_from_append. }
  unfold output, write_file_args, write_file_def, os_path_dirname, os_path_basename.
  cbn [dir fd_name]. rewrite (rfind_sep_dir _ _ Hbase), Hhead, Htail.
  cbn zeta. rewrite all_sep_dir, rstrip_sep_dir.
  assert ((d +:+ "/" =? "") = false) as -> by (by destruct d).
  unfold os_path_join.
  rewrite (startswith_sep_name _ (before_dot_no_sep _ Hbase)).
  destruct (all_sep d) eqn:Hall; cbn [negb andb].
  - rewrite endswith_sep_dir, orb_true_r. by rewrite append_assoc.
  - rewrite endswith_sep_rstrip, orb_false_r.
    destruct (rstrip_sep d =? "") eqn:He; [|done].
    apply String.eqb_eq, rstrip_sep_empty in He. congruence.
Qed.

Lemma write_file_output_dir_witness :
  output (write_file_args "logs.2022//cruise.v1.xlsx")
         (write_file_def "logs.2022//cruise.v1.xlsx" []) = "logs.2022/cruise.xlsx".
Proof.
  exact (write_file_output_dir "logs.2022/" "cruise.v1.xlsx" [] eq_refl).
Defined.

(** ** The script: the name of the new file *)

Lemma digits_plain d :
  has_char "/" (DecimalString.NilEmpty.string_of_uint d) = false ∧
  has_char "." (DecimalString.NilEmpty.string_of_uint d) = false.
Proof. induction d; cbn; tauto. Qed.

Lemma decimal_inj i j : decimal i = decimal j → i = j.
Proof.
  unfold decimal. intros Heq.
  apply (f_equal DecimalString.NilEmpty.uint_of_string) in Heq.
  rewrite !DecimalString.NilEmpty.usu in Heq. injection Heq as Heq.
  by apply DecimalNat.Unsigned.to_uint_inj.
Qed.

Lemma append_inj_r (a b c : string) : a +:+ c = b +:+ c → a = b.
Proof.
  intros Heq.
  assert (String.length a = String.length b) as Hlen.
  { apply (f_equal String.length) in Heq. rewrite !length_append in Heq. lia. }
  rewrite <- (substring_0_append a c), <- (substring_0_append b c).
  by rewrite Heq, Hlen.
Qed.

Lemma candidate_inj i j : candidate i = candidate j → i = j.
Proof.
  unfold candidate. intros Heq.
  apply String.app_inj, String.app_inj, append_inj_r in Heq.
  by apply decimal_inj.
Qed.

Lemma candidate_plain i :
  has_char "/" (candidate i) = false ∧
  candidate i = (filename +:+ "_" +:+ decimal i) +:+ "." +:+ "xlsx" ∧
  has_char "." (filename +:+ "_" +:+ decimal i) = false.
Proof.
  unfold candidate, decimal.
  destruct (digits_plain (Nat.to_uint i)) as [Hs Hd].
  rewrite !has_char_append, Hs, Hd. split; [done|]. split; [|done].
  by rewrite !append_assoc.
Qed.

Lemma probe_spec files fuel : ∀ i,
  match probe files fuel i with
  | Some k => (i ≤ k)%nat ∧ (k < i + fuel)%nat ∧ (candidate k ∉ files) ∧
              (∀ j, (i ≤ j)%nat → (j < k)%nat → candidate j ∈ files)
  | None => ∀ j, (i ≤ j)%nat → (j < i + fuel)%nat → candidate j ∈ files
  end.
Proof.
  induction fuel as [|fuel IH]; intros i; cbn [probe].
  - intros j ? ?. lia.
  - case_bool_decide as Hin.
    + specialize (IH (S i)). destruct (probe files fuel (S i)) as [k|].
      * destruct IH as (? & ? & ? & Hbelow). repeat split; [lia|lia|done|].
        intros j ? ?. destruct (decide (j = i)) as [->|]; [done|]. apply Hbelow; lia.
      * intros j ? ?. destruct (decide (j = i)) as [->|]; [done|]. apply IH; lia.
    + repeat split; [lia|lia|done|]. intros j ? ?. lia.
Qed.

(** Among more candidates than there are files, one is free. *)
Lemma candidates_bound (files : gset string) i n :
  (∀ j, (i ≤ j)%nat → (j < i + n)%nat → candidate j ∈ files) → (n ≤ size files)%nat.
Proof.
  intros Hall.
  assert (NoDup (candidate <$> seq i n)) as Hnd.
  { apply NoDup_fmap_2; [intros ? ?; apply candidate_inj|apply NoDup_seq]. }
  assert (length (candidate <$> seq i n) = n) as Hlen
    by (by rewrite length_fmap, length_seq).
  rewrite <- Hlen at 1.
  rewrite <- (size_list_to_set (C := gset string)) by done.
  apply subseteq_size. intros x [j [-> [? ?]%elem_of_seq]]%elem_of_list_to_set%list_elem_of_fmap.
  by apply Hall.
Qed.

(** X15. The search for the name of the new file ends: with any bound
    above the number of existing paths the loop of the script stops, and
    the index it stops at is the first one, from 1 on, whose candidate
    [activity_log_<i>.xlsx] does not exist; every smaller index names an
    existing path.  [write_file] has the workbook written to that very
    candidate, so no existing path of the set is written over. *)
Theorem probe_first_free (files : gset string) :
  ∃ i, (∀ fuel, (size files < fuel)%nat → probe files fuel 1 = Some i) ∧
    (1 ≤ i)%nat ∧ (i ≤ S (size files))%nat ∧
    (candidate i ∉ files) ∧
    (∀ j, (1 ≤ j)%nat → (j < i)%nat → candidate j ∈ files) ∧
    (∀ fields, output (write_file_args (candidate i))
                      (write_file_def (candidate i) fields) = candidate i).
Proof.
  assert (∀ fuel, (size files < fuel)%nat →
            ∃ k, probe files fuel 1 = Some k ∧ (1 ≤ k)%nat ∧ (candidate k ∉ files) ∧
                 ∀ j, (1 ≤ j)%nat → (j < k)%nat → candidate j ∈ files) as Hstop.
  { intros fuel Hfuel. pose proof (probe_spec files fuel 1) as Hspec.
    destruct (probe files fuel 1) as [k|].
    - exists k. destruct Hspec as (? & ? & ? & ?). by repeat split.
    - apply candidates_bound in Hspec. lia. }
  destruct (Hstop (S (size files)) ltac:(lia)) as (i & Hi & H1 & Hfree & Hbelow).
  exists i. split; [|split; [done|split; [|split; [done|split; [done|]]]]].
  - intros fuel Hfuel. destruct (Hstop fuel Hfuel) as (k & -> & Hk1 & Hkfree & Hkbelow).
    f_equal. destruct (Nat.lt_trichotomy k i) as [Hlt|[->|Hlt]]; [|done|].
    + destruct Hkfree. by apply Hbelow.
    + destruct Hfree. by apply Hkbelow.
  - pose proof (probe_spec files (S (size files)) 1) as Hspec.
    rewrite Hi in Hspec. lia.
  - intros fields. destruct (candidate_plain i) as (Hs & Heq & Hd).
    rewrite (output_no_dir _ fields Hs). rewrite Heq at 1.
    rewrite (before_dot_stem _ _ Hd). rewrite Heq. by rewrite !append_assoc.
Qed.

Lemma probe_first_free_witness :
  ∃ i, probe {[ "activity_log_1.xlsx" ]} 2 1 = Some i ∧
       (candidate i ∉ ({[ "activity_log_1.xlsx" ]} : gset string)) ∧
       candidate 1 ∈ ({[ "activity_log_1.xlsx" ]} : gset string).
Proof.
  destruct (probe_first_free {[ "activity_log_1.xlsx" ]})
    as (i & Hstop & _ & _ & Hfree & _).
  exists i. split; [|split; [exact Hfree|]].
  - apply Hstop. rewrite size_singleton. lia.
  - apply elem_of_singleton. reflexivity.
Defined.

(** ** The script: the data under its headers *)

Lemma df_column_lookup (df : DataFrame) : ∀ j label vals,
  NoDup (fst <$> df) → df !! j = Some (label, vals) → df_column df label = Ok vals.
Proof.
  induction df as [|[l v] rest IH]; intros j label vals Hnd Hj; [done|].
  cbn [df_column]. apply NoDup_cons in Hnd as [Hl Hnd].
  destruct j as [|j]; cbn in Hj.
  - injection Hj as -> ->. by rewrite String.eqb_refl.
  - destruct (String.eqb_spec l label) as [->|_]; [|by eapply IH].
    destruct Hl. apply list_elem_of_fmap. exists (label, vals).
    split; [done|]. by eapply list_elem_of_lookup_2.
Qed.

(** X16. In the workbook the script writes, every column of the data sits
    under its own header.  The listed fields are the column labels of the
    data, so, when the labels are distinct and the run ends normally,
    column [j] of the Data sheet has the [j]-th label in the hidden
    parameter row, the display name of a descriptor of that name in the
    title row, and below them the values of the [j]-th data column up to
    the first one that cannot be written. *)
Theorem main_data_under_headers path descriptors data metadata_df h h' wb :
  NoDup (fst <$> data) →
  main_write path descriptors data metadata_df h = (h', Ok wb) →
  ∃ sheet, sheet_named "Data" wb = Some sheet ∧
    ∀ j label vals, data !! j = Some (label, vals) →
      cell_at sheet parameter_row j = Some (mkCell (TStr label) None) ∧
      (∃ d dn, d ∈ descriptors ∧ d_name d = Some label ∧ d_disp_name d = Some dn ∧
         cell_at sheet title_row j = Some (mkCell (TStr dn) (Some field_format))) ∧
      ∀ i, cell_at sheet (start_row + i) j =
           (fun t => mkCell t (data_format label)) <$> written_prefix vals !! i.
Proof.
  intros Hnd. unfold main_write, mbind, lift.
  destruct (make_dict_of_fields descriptors) as [fd|e] eqn:Hfd; [|discriminate].
  unfold write_file. intros Hrun.
  destruct (make_xlsx_data_sheet _ _ _ _ _ _ _ _ _ _ Hrun)
    as (st & sheet & Hcols & Hsheet & _ & Heq & _ & _ & Hhead).
  exists sheet. split; [done|]. intros j label vals Hj.
  assert ((fst <$> data) !! j = Some label) as Hlabel
    by (by rewrite list_lookup_fmap, Hj).
  cbn [write_file_def fd_fields] in Hcols.
  destruct (data_columns_data _ _ _ _ _ _ _ Hcols) as (_ & _ & Hin & Hframe & _).
  destruct (Hin j label Hlabel) as (f & Hf & Htitle & Hpar). cbn [Nat.add] in Htitle, Hpar.
  apply make_dict_loop_spec in Hfd as [_ Hentries].
  destruct (Hentries label f Hf) as [Hempty|(d & Hd & Hmk & Hname)]; [done|].
  destruct (make_field_width d f Hmk) as (Hdn & Hdd & _).
  unfold cell_at. split; [|split].
  - rewrite Hhead by (unfold start_row, parameter_row, title_row; lia).
    by rewrite Hpar, Hname.
  - exists d, (disp_name f). rewrite Hdn, Hname. do 3 (split; [done|]).
    rewrite Hhead by (unfold start_row, title_row; lia). done.
  - intros i. subst sheet.
    destruct (finish_data_sheet_spec (write_file_def path (fst <$> data))
                (write_data (Some data) (data_sheet st))) as (_ & _ & _ & _ & Hfc).
    rewrite Hfc by (intros [= ? _]; unfold start_row, title_row in *; lia).
    cbn [write_data].
    destruct (write_data_loop_spec data (fst <$> data) 0 (data_sheet st))
      as (_ & _ & _ & _ & Hw).
    specialize (Hw j label vals Hlabel (df_column_lookup _ _ _ _ Hnd Hj) i).
    cbn [Nat.add] in Hw. rewrite Hw.
    destruct (written_prefix vals !! i); [done|]. cbn.
    rewrite Hframe by (left; unfold start_row, parameter_row, title_row; lia). done.
Qed.

Lemma main_data_under_headers_witness :
  ∃ sheet, sheet_named "Data" (workbook_of main_run) = Some sheet ∧
    cell_at sheet parameter_row 1 = Some (mkCell (TStr "gearType") None) ∧
    cell_at sheet start_row 1 = Some (mkCell (TNum 10) None) ∧
    cell_at sheet (start_row + 1) 1 = None.
Proof.
  destruct (main_data_under_headers (candidate 2) sample_descriptors sample_data
              sample_metadata sample_heap main_run.1 (workbook_of main_run))
    as (sheet & Hsheet & Hcol).
  { apply (bool_decide_unpack _). vm_compute. reflexivity. }
  { apply (run_ok main_run). vm_compute. reflexivity. }
  exists sheet. split; [exact Hsheet|].
  destruct (Hcol 1%nat "gearType" [TNum 10; TNaN; TNum 30] eq_refl) as (Hpar & _ & Hdata).
  split; [exact Hpar|]. split.
  - exact (Hdata 0%nat).
  - exact (Hdata 1%nat).
Defined.

(** ** A run that fails *)

Lemma data_columns_app fd good : ∀ rest ii st h,
  data_columns fd ii (good ++ rest) st h =
  match data_columns fd ii good st h with
  | (h1, Ok st1) => data_columns fd (ii + length good) rest st1 h1
  | (h1, Raise e) => (h1, Raise e)
  end.
Proof.
  induction good as [|key good IH]; intros rest ii st h.
  - cbn. by rewrite Nat.add_0_r.
  - cbn [app data_columns length]. unfold mbind at 1 2.
    destruct (data_column fd ii key st h) as [h1 [st1|e]]; [|done].
    rewrite IH. by replace (S ii + length good)%nat with (ii + S (length good))%nat by lia.
Qed.

(** X17. A listed key that the catalog does not have stops the run with
    [KeyError] of that key, when the metadata sheet and the columns
    before it render.  Nothing is closed and no workbook is returned, but
    the store keeps what the columns before the key did to it: the
    format dictionaries of their fields have the two font entries. *)
Theorem make_xlsx_unknown_key args file_def fd metadata conversions data mdf h
    good key rest :
  fd_fields file_def = (good ++ key :: rest)%list →
  renders fd metadata mdf good →
  fd !! key = None →
  ∃ h1, make_xlsx args file_def fd metadata conversions data mdf h
          = (h1, Raise (KeyError key)) ∧
    heap_filled h h1 ∧
    (∀ k f l, k ∈ good → fd !! k = Some f → cell_format f = Some l →
       is_Some (deref h1 l !! "font_name") ∧ is_Some (deref h1 l !! "font_size")).
Proof.
  intros Hfields [Hmeta Hgood] Hnone.
  apply (data_columns_Ok_iff fd good 0 initial_sheets h) in Hgood as (h1 & st1 & Hcols).
  exists h1.
  assert (data_columns fd 0 (fd_fields file_def) initial_sheets h
          = (h1, Raise (KeyError key))) as Hfail.
  { rewrite Hfields, data_columns_app, Hcols. cbn [data_columns]. unfold mbind at 1.
    unfold data_column, mbind, lift, lookup_field. by rewrite Hnone. }
  split; [|split].
  - unfold make_xlsx, mbind, mret. destruct metadata.
    + destruct (proj2 (metadata_loop_Ok_iff h fd mdf metadata_fields 0
               (set_column 2 2 (Some 50%Z) None false
                  (set_column 0 0 (Some 30%Z) None false (add_worksheet "Metadata")))))
        as [ms Hms]; [by apply Hmeta|].
      unfold write_metadata. rewrite Hms. cbn [rbind]. by rewrite Hfail.
    + by rewrite Hfail.
  - by destruct (data_columns_heap _ _ _ _ _ _ _ Hcols).
  - intros k f l Hk Hf Hl. by apply (data_columns_fonts _ _ _ _ _ _ _ Hcols k f l).
Qed.

Lemma make_xlsx_unknown_key_witness :
  ∃ h1, make_xlsx sample_args unknown_key_file sample_catalog false true
                  (Some sample_data) None sample_heap = (h1, Raise (KeyError "depth")) ∧
    is_Some (deref h1 default_cell_format !! "font_name").
Proof.
  destruct (make_xlsx_unknown_key sample_args unknown_key_file sample_catalog false true
              (Some sample_data) None sample_heap ["habitat"] "depth" ["gearType"])
    as (h1 & Hrun & _ & Hfonts).
  - reflexivity.
  - split; [discriminate|]. intros key ->%list_elem_of_singleton.
    exists habitat. split; vm_compute; reflexivity.
  - vm_compute. reflexivity.
  - exists h1. split; [exact Hrun|].
    apply (Hfonts "habitat" habitat default_cell_format).
    + apply list_elem_of_singleton. reflexivity.
    + vm_compute. reflexivity.
    + reflexivity.
Defined.
